(** * Chess game import service: a shallow embedding of [main.py] and [schemas.py]

    The service imports game records from chess.com and lichess, stores the
    new ones in the ["game"] collection and lists them back.  Python values
    are embedded as one universe [val]; handlers run in a state-and-exception
    monad over the datastore, the clock and the log of upstream requests. *)

From Stdlib Require Import ZArith Lia Ascii String.
From stdpp Require Import base option strings list gmap fin_maps pretty.

Set Warnings "-register-all".
Local Open Scope string_scope.
Local Open Scope list_scope.
Local Open Scope Z_scope.

(** ** Python values *)

(** A naive [datetime.datetime], as microseconds counted from year 1. *)
Record datetime := Datetime { dt_micros : Z }.

(** The values the handlers manipulate: decoded JSON ([None], booleans,
    integers, floats as a fraction, strings, lists, dicts in key order) and
    the [datetime] objects the handlers build. *)
Inductive val :=
  | VNone
  | VBool (b : bool)
  | VInt (n : Z)
  | VFloat (num : Z) (den : positive)
  | VStr (s : string)
  | VList (l : list val)
  | VDict (d : list (string * val))
  | VDatetime (t : datetime).

(** Exceptions a handler can leave through.  [HTTPException] is the only one
    raised by the handlers themselves; FastAPI answers every other one with
    a 500. *)
Inductive exn :=
  | HTTPException (status : Z) (detail : string)
  | AttributeError
  | TypeError
  | ValueError
  | OverflowError
  | OSError
  | ValidationError
  | JSONDecodeError
  | RequestException.

Inductive result (A : Type) :=
  | Ok (a : A)
  | Raise (e : exn).
Arguments Ok {A} a.
Arguments Raise {A} e.

Global Instance result_ret : MRet result := fun A a => Ok a.
Global Instance result_bind : MBind result := fun A B k r =>
  match r with
  | Ok a => k a
  | Raise e => Raise e
  end.

Global Instance datetime_eq_dec : EqDecision datetime.
Proof. solve_decision. Defined.

Global Instance exn_eq_dec : EqDecision exn.
Proof. solve_decision. Defined.

(** Structural equality of values, as Python's [==] on JSON data of one
    type (the store compares field values with it). *)
Fixpoint val_eqb (x y : val) {struct x} : bool :=
  match x, y with
  | VNone, VNone => true
  | VBool a, VBool b => bool_decide (a = b)
  | VInt a, VInt b => bool_decide (a = b)
  | VFloat a p, VFloat b q => bool_decide (a = b) && bool_decide (p = q)
  | VStr a, VStr b => bool_decide (a = b)
  | VList l, VList m =>
      (fix go (l m : list val) {struct l} : bool :=
         match l, m with
         | [], [] => true
         | a :: l', b :: m' => val_eqb a b && go l' m'
         | _, _ => false
         end) l m
  | VDict d, VDict e =>
      (fix go (d e : list (string * val)) {struct d} : bool :=
         match d, e with
         | [], [] => true
         | (j, a) :: d', (k, b) :: e' =>
             bool_decide (j = k) && val_eqb a b && go d' e'
         | _, _ => false
         end) d e
  | VDatetime s, VDatetime t => bool_decide (s = t)
  | _, _ => false
  end.

(** ** Python built-ins used by the handlers *)

(** [bool(v)]. *)
Definition truthy (v : val) : bool :=
  match v with
  | VNone => false
  | VBool b => b
  | VInt n => negb (n =? 0)
  | VFloat n _ => negb (n =? 0)
  | VStr s => negb (bool_decide (s = ""))
  | VList l => negb (bool_decide (l = []))
  | VDict d => match d with [] => false | _ => true end
  | VDatetime _ => true
  end.

(** [a or b]. *)
Definition py_or (a b : val) : val := if truthy a then a else b.

(** First binding of a key in a dict. *)
Fixpoint dict_lookup (d : list (string * val)) (k : string) : option val :=
  match d with
  | [] => None
  | (k', v) :: d' => if bool_decide (k' = k) then Some v else dict_lookup d' k
  end.

(** [v.get(k, dflt)]: only dicts have the method. *)
Definition py_get (v : val) (k : string) (dflt : val) : result val :=
  match v with
  | VDict d => Ok (default dflt (dict_lookup d k))
  | _ => Raise AttributeError
  end.

(** [v is not None]. *)
Definition is_not_none (v : val) : bool :=
  match v with VNone => false | _ => true end.

(** [a + b] where it is used: string concatenation; any other pairing of
    the operand types that can occur there is a [TypeError]. *)
Definition py_add_str (a b : val) : result val :=
  match a, b with
  | VStr s, VStr t => Ok (VStr (s +:+ t))
  | _, _ => Raise TypeError
  end.

(** Trimming and lower-casing of ASCII text: blanks are the ASCII
    whitespace characters, and only the letters A-Z change case.  pydantic
    compares the words it reads a boolean from ignoring ASCII case. *)
Definition py_isspace (c : ascii) : bool :=
  let n := nat_of_ascii c in
  ((9 <=? n)%nat && (n <=? 13)%nat) || ((28 <=? n)%nat && (n <=? 32)%nat).

Fixpoint lstrip (s : string) : string :=
  match s with
  | String c s' => if py_isspace c then lstrip s' else s
  | EmptyString => EmptyString
  end.

Definition ascii_strip (s : string) : string :=
  String.rev (lstrip (String.rev (lstrip s))).

Definition lower_char (c : ascii) : ascii :=
  let n := nat_of_ascii c in
  if ((65 <=? n)%nat && (n <=? 90)%nat) then ascii_of_nat (n + 32) else c.

Fixpoint ascii_lower (s : string) : string :=
  match s with
  | String c s' => String (lower_char c) (ascii_lower s')
  | EmptyString => EmptyString
  end.

(** [l[-m:]] on a list. *)
Definition slice_from_neg {A} (m : Z) (l : list A) : list A :=
  let start := - m in
  if start <? 0
  then drop (Z.to_nat (Z.max 0 (Z.of_nat (length l) + start))) l
  else drop (Z.to_nat start) l.

(** The characters of a string, as the one-character strings Python
    yields when it iterates or slices a [str]. *)
Fixpoint chars (s : string) : list val :=
  match s with
  | String c s' => VStr (String c EmptyString) :: chars s'
  | EmptyString => []
  end.

(** [reversed(v[-m:])] as the list of items the [for] loop visits: lists
    and strings can be sliced, nothing else that JSON decodes to. *)
Definition reversed_tail (m : Z) (v : val) : result (list val) :=
  match v with
  | VList l => Ok (reverse (slice_from_neg m l))
  | VStr s => Ok (reverse (slice_from_neg m (chars s)))
  | _ => Raise TypeError
  end.

(** The items a [for] loop visits on [v]: elements of a list, characters of
    a string, keys of a dict; other values are not iterable. *)
Definition py_iter (v : val) : result (list val) :=
  match v with
  | VList l => Ok l
  | VStr s => Ok (chars s)
  | VDict d => Ok (VStr <$> remove_dups (d.*1))
  | _ => Raise TypeError
  end.

(** The exception [datetime.utcfromtimestamp] refuses a timestamp with: a
    [ValueError] for a year out of range, an [OverflowError] or an [OSError]
    for a value the platform's time functions do not take. *)
Inductive range_error := year_out_of_range | time_overflow | time_os_error.

Definition range_exn (e : range_error) : exn :=
  match e with
  | year_out_of_range => ValueError
  | time_overflow => OverflowError
  | time_os_error => OSError
  end.

(** The library functions the handlers call whose results the model does
    not compute: [str.strip()] and [str.lower()], which follow the Unicode
    character tables (a no-break space is trimmed, an accented capital is
    lower-cased), the JSON decoder, [str()], [int()] on text, the clock and
    the calendar ([utcfromtimestamp] gives no date for a timestamp it
    refuses, and [utcfromtimestamp_error] is the exception it then
    raises). *)
Class PyRuntime := {
  strip : string -> string;
  lower : string -> string;
  json_loads : string -> option val;
  py_str : val -> string;
  int_of_str : string -> option Z;
  utcfromtimestamp : Z -> option datetime;
  utcfromtimestamp_error : Z -> range_error;
  fromtimestamp_millis : Z -> option datetime;
  utcnow : nat -> datetime;
  isoformat : datetime -> string;
  uuid4 : nat -> string
}.

(** ** Induction on values through their lists and dicts *)

Section val_rect_nested.
Variable P : val -> Prop.
Hypothesis HNone : P VNone.
Hypothesis HBool : forall b, P (VBool b).
Hypothesis HInt : forall n, P (VInt n).
Hypothesis HFloat : forall n d, P (VFloat n d).
Hypothesis HStr : forall s, P (VStr s).
Hypothesis HList : forall l, Forall P l -> P (VList l).
Hypothesis HDict : forall d, Forall (fun kv => P kv.2) d -> P (VDict d).
Hypothesis HDatetime : forall t, P (VDatetime t).

Fixpoint val_ind_nested (v : val) : P v :=
  match v with
  | VNone => HNone
  | VBool b => HBool b
  | VInt n => HInt n
  | VFloat n d => HFloat n d
  | VStr s => HStr s
  | VList l =>
      HList l ((fix go (l : list val) : Forall P l :=
                  match l with
                  | [] => Forall_nil_2 P
                  | a :: l' => Forall_cons_2 P a l' (val_ind_nested a) (go l')
                  end) l)
  | VDict d =>
      HDict d ((fix go (d : list (string * val)) : Forall (fun kv => P kv.2) d :=
                  match d with
                  | [] => Forall_nil_2 _
                  | kv :: d' =>
                      Forall_cons_2 (fun kv => P kv.2) kv d'
                        (val_ind_nested kv.2) (go d')
                  end) d)
  | VDatetime t => HDatetime t
  end.
End val_rect_nested.

(** ** Data model ([schemas.py]) *)

Inductive Source := chesscom | lichess.

Definition source_name (s : Source) : string :=
  match s with chesscom => "chesscom" | lichess => "lichess" end.

Record Game := {
  source : Source;
  username : string;
  white : option string;
  black : option string;
  pgn : string;
  rated : option bool;
  speed : option string;
  time_control : option string;
  result_ : option string;
  end_time : option datetime;
  opening : option string
}.

Record ImportRequest := {
  req_username : string;
  months : option Z;
  limit : option Z
}.

(** The bounds [Field(..., ge=, le=)] puts on a request body. *)
Definition valid_request (req : ImportRequest) : Prop :=
  (forall m, months req = Some m -> 1 <= m <= 12) /\
  (forall l, limit req = Some l -> 1 <= l <= 1000).

(** The keyword arguments of a [Game(...)] call, before validation. *)
Record GameArgs := {
  a_source : Source;
  a_username : string;
  a_white : val;
  a_black : val;
  a_pgn : val;
  a_rated : val;
  a_speed : val;
  a_time_control : val;
  a_result : val;
  a_end_time : option datetime;
  a_opening : val
}.

(** Field validation of the model, as pydantic 2 does it by default: a
    [str] field takes a string and nothing else, an [Optional] field also
    [None]; a [bool] field takes a boolean or one of the spellings the
    validator converts (0 and 1, and the words below in any case). *)
Definition validate_str (v : val) : result string :=
  match v with
  | VStr s => Ok s
  | _ => Raise ValidationError
  end.

Definition validate_opt_str (v : val) : result (option string) :=
  match v with
  | VNone => Ok None
  | VStr s => Ok (Some s)
  | _ => Raise ValidationError
  end.

Definition bool_true_words : list string := ["1"; "on"; "t"; "true"; "y"; "yes"].
Definition bool_false_words : list string := ["0"; "off"; "f"; "false"; "n"; "no"].

Definition validate_opt_bool (v : val) : result (option bool) :=
  match v with
  | VNone => Ok None
  | VBool b => Ok (Some b)
  | VInt n =>
      if n =? 0 then Ok (Some false)
      else if n =? 1 then Ok (Some true) else Raise ValidationError
  | VFloat n d =>
      if n =? 0 then Ok (Some false)
      else if n =? Z.pos d then Ok (Some true) else Raise ValidationError
  | VStr s =>
      if bool_decide (ascii_lower s ∈ bool_true_words) then Ok (Some true)
      else if bool_decide (ascii_lower s ∈ bool_false_words) then Ok (Some false)
      else Raise ValidationError
  | _ => Raise ValidationError
  end.

(** The constructor call [Game(...)]. *)
Definition Game_new (a : GameArgs) : result Game :=
  w ← validate_opt_str (a_white a);
  b ← validate_opt_str (a_black a);
  p ← validate_str (a_pgn a);
  r ← validate_opt_bool (a_rated a);
  s ← validate_opt_str (a_speed a);
  tc ← validate_opt_str (a_time_control a);
  res ← validate_opt_str (a_result a);
  o ← validate_opt_str (a_opening a);
  Ok {| source := a_source a; username := a_username a; white := w;
        black := b; pgn := p; rated := r; speed := s; time_control := tc;
        result_ := res; end_time := a_end_time a; opening := o |}.

(** ** The persistence gateway *)

(** A stored document and the datastore: collections of documents by name.
    The datastore is taken to be reachable, so its operations do not fail. *)
Abbreviation doc := (gmap string val).
Abbreviation database := (gmap string (list (gmap string val))).

Definition collection (db : database) (name : string) : list doc :=
  default [] (db !! name).

Definition opt_val {A} (f : A -> val) (o : option A) : val :=
  match o with Some a => f a | None => VNone end.

(** The dict form of a record: every field, [None] where it is unset. *)
Definition game_dict (g : Game) : doc :=
  list_to_map [
    ("source", VStr (source_name (source g)));
    ("username", VStr (username g));
    ("white", opt_val VStr (white g));
    ("black", opt_val VStr (black g));
    ("pgn", VStr (pgn g));
    ("rated", opt_val VBool (rated g));
    ("speed", opt_val VStr (speed g));
    ("time_control", opt_val VStr (time_control g));
    ("result", opt_val VStr (result_ g));
    ("end_time", opt_val VDatetime (end_time g));
    ("opening", opt_val VStr (opening g)) ].

(** An exact-field filter matches a document that has every field of the
    filter with the same value. *)
Definition doc_matches (filt d : doc) : bool :=
  bool_decide
    (map_Forall (fun k v => from_option (val_eqb v) false (d !! k) = true) filt).

(** Modelled from the spec: [create_document] of the absent [database]
    module.  Appends the dict form of the record, plus a creation
    timestamp, to the named collection. *)
Definition create_document `{PyRuntime} (name : string) (g : Game)
    (tick : nat) (db : database) : database :=
  <[name := collection db name ++ [<["created_at" := VDatetime (utcnow tick)]> (game_dict g)]]> db.

(** Modelled from the spec: [find_one] of the datastore handle exported by
    the absent [database] module.  The first document of the collection
    that matches the filter, if any. *)
Definition find_one (name : string) (filt : doc) (db : database) : option doc :=
  head (filter (fun d => doc_matches filt d = true) (collection db name)).

(** Modelled from the spec: [get_documents] of the absent [database]
    module.  Up to [limit] matching documents, in storage order. *)
Definition get_documents (name : string) (filt : doc) (lim : Z)
    (db : database) : list doc :=
  take (Z.to_nat lim) (filter (fun d => doc_matches filt d = true) (collection db name)).

(** ** The world a handler runs in *)

(** An HTTP GET as [requests.get] sends it, and what comes back: the status,
    the body decoded by [.json()] (if it decodes) and the lines
    [.iter_lines()] yields. *)
Record request := {
  rq_url : string;
  rq_params : list (string * string);
  rq_headers : list (string * string)
}.

Record response := {
  status_code : Z;
  json : option val;
  iter_lines : list string
}.

Global Instance request_eq_dec : EqDecision request.
Proof. solve_decision. Defined.

(** The upstream platforms: the answer to each request, or none when the
    call itself fails (time-out, connection error). *)
Abbreviation upstream := (request -> option response).

Record state := {
  st_db : database;
  st_clock : nat;
  st_uuids : nat;
  st_log : list request
}.

(** State-and-exception monad of the handlers: an exception keeps the state
    reached so far (nothing is rolled back). *)
Definition M (A : Type) : Type := state -> result A * state.

Global Instance M_ret : MRet M := fun A a st => (Ok a, st).
Global Instance M_bind : MBind M := fun A B k m st =>
  match m st with
  | (Ok a, st') => k a st'
  | (Raise e, st') => (Raise e, st')
  end.

Definition raise {A} (e : exn) : M A := fun st => (Raise e, st).

Definition lift {A} (r : result A) : M A := fun st => (r, st).

(** [requests.get(url, params=..., headers=...)]: a URL that is not a string
    is refused before anything is sent; a sent request is logged. *)
Definition requests_get (net : upstream) (url : val)
    (params headers : list (string * string)) : M response :=
  match url with
  | VStr u => fun st =>
      let rq := {| rq_url := u; rq_params := params; rq_headers := headers |} in
      let st' := {| st_db := st_db st; st_clock := st_clock st;
                    st_uuids := st_uuids st; st_log := st_log st ++ [rq] |} in
      match net rq with
      | Some r => (Ok r, st')
      | None => (Raise RequestException, st')
      end
  | _ => raise RequestException
  end.

(** [r.json()]. *)
Definition resp_json (r : response) : result val :=
  match json r with
  | Some v => Ok v
  | None => Raise JSONDecodeError
  end.

(** [if db["game"].find_one(key):] the truth value of the lookup. *)
Definition db_found (name : string) (key : doc) : M bool := fun st =>
  (Ok match find_one name key (st_db st) with
      | Some d => negb (bool_decide (d = ∅))
      | None => false
      end, st).

(** [create_document(name, game)], stamped with the clock. *)
Definition db_create `{PyRuntime} (name : string) (g : Game) : M unit := fun st =>
  (Ok tt, {| st_db := create_document name g (st_clock st) (st_db st);
             st_clock := S (st_clock st);
             st_uuids := st_uuids st; st_log := st_log st |}).

(** [str(uuid.uuid4())]. *)
Definition fresh_uuid `{PyRuntime} : M string := fun st =>
  (Ok (uuid4 (st_uuids st)),
   {| st_db := st_db st; st_clock := st_clock st;
      st_uuids := S (st_uuids st); st_log := st_log st |}).

(** [x or d] on an optional integer of a request. *)
Definition int_or (o : option Z) (d : Z) : Z :=
  match o with
  | Some n => if n =? 0 then d else n
  | None => d
  end.

(** ** [import_chesscom] *)

Record ImportResponse := {
  r_source : string;
  r_username : string;
  r_inserted : Z
}.

(** The de-dup key [{"source": ..., "pgn": pgn}]. *)
Definition dedup_key (s : Source) (pgn : val) : doc :=
  <["pgn" := pgn]> {["source" := VStr (source_name s)]}.

Section handlers.
Context `{PyRuntime}.
Variable net : upstream.

(** Lines 95-102 and the arguments of the [Game(...)] call. *)
Definition chesscom_result (g : val) : result val :=
  w ← py_get g "white" VNone;
  b ← py_get g "black" VNone;
  if truthy w && truthy b then
    wr ← py_get (py_or w (VDict [])) "result" VNone;
    s ← py_add_str wr (VStr "/");
    br ← py_get (py_or b (VDict [])) "result" VNone;
    py_add_str s br
  else Ok VNone.

Definition chesscom_end_time (end_time : val) : result (option datetime) :=
  match end_time with
  | VInt n =>
      match utcfromtimestamp n with
      | Some t => Ok (Some t)
      | None => Raise (range_exn (utcfromtimestamp_error n))
      end
  | VBool b =>
      match utcfromtimestamp (if b then 1 else 0) with
      | Some t => Ok (Some t)
      | None => Raise (range_exn (utcfromtimestamp_error (if b then 1 else 0)))
      end
  | _ => Ok None
  end.

Definition chesscom_fields (user : string) (g pgn : val) : result GameArgs :=
  w ← py_get g "white" VNone;
  wu ← py_get (py_or w (VDict [])) "username" VNone;
  b ← py_get g "black" VNone;
  bu ← py_get (py_or b (VDict [])) "username" VNone;
  res ← chesscom_result g;
  tc ← py_get g "time_control" VNone;
  sp ← py_get g "time_class" VNone;
  et ← py_get g "end_time" VNone;
  end_dt ← chesscom_end_time et;
  rt ← py_get g "rated" VNone;
  Ok {| a_source := chesscom; a_username := user;
        a_white := py_or wu VNone; a_black := py_or bu VNone;
        a_pgn := pgn; a_rated := rt; a_speed := sp;
        a_time_control := if is_not_none tc then VStr (py_str tc) else VNone;
        a_result := res; a_end_time := end_dt; a_opening := VNone |}.

(** The inner loop, lines 89-122: [total] is [total_inserted]. *)
Fixpoint chesscom_games (lim : Z) (user : string) (games : list val)
    (total : Z) : M Z :=
  match games with
  | [] => mret total
  | g :: games' =>
      if bool_decide (lim <= total) then mret total
      else
        pgn ← lift (py_get g "pgn" VNone);
        if negb (truthy pgn) then chesscom_games lim user games' total
        else
          args ← lift (chesscom_fields user g pgn);
          found ← db_found "game" (dedup_key chesscom pgn);
          if found : bool then chesscom_games lim user games' total
          else
            game ← lift (Game_new args);
            _ ← db_create "game" game;
            chesscom_games lim user games' (total + 1)
  end.

(** The outer loop, lines 83-124. *)
Fixpoint chesscom_archives (lim : Z) (user : string) (urls : list val)
    (total : Z) : M Z :=
  match urls with
  | [] => mret total
  | url :: urls' =>
      gr ← requests_get net url [] [];
      if bool_decide (status_code gr ≠ 200)
      then chesscom_archives lim user urls' total
      else
        data ← lift (resp_json gr);
        games ← lift (py_get data "games" (VList []));
        items ← lift (py_iter games);
        total' ← chesscom_games lim user items total;
        if bool_decide (lim <= total') then mret total'
        else chesscom_archives lim user urls' total'
  end.

Definition chesscom_username (req : ImportRequest) : string :=
  lower (strip (req_username req)).

Definition archives_request (user : string) : request :=
  {| rq_url := "https://api.chess.com/pub/player/" +:+ user +:+ "/games/archives";
     rq_params := []; rq_headers := [] |}.

Definition import_chesscom (req : ImportRequest) : M ImportResponse :=
  let user := chesscom_username req in
  let months := int_or (months req) 1 in
  let lim := int_or (limit req) 50 in
  r ← requests_get net (VStr (rq_url (archives_request user))) [] [];
  if bool_decide (status_code r ≠ 200)
  then raise (HTTPException 400
                ("chess.com user not found or no archives: " +:+ user))
  else
    body ← lift (resp_json r);
    archives ← lift (py_get body "archives" (VList []));
    archive_list ← lift (reversed_tail months archives);
    total ← chesscom_archives lim user archive_list 0;
    mret {| r_source := "chesscom"; r_username := user; r_inserted := total |}.
End handlers.

(** ** [import_lichess] *)

Section lichess_handler.
Context `{PyRuntime}.
Variable net : upstream.

(** [int(v)]; [None] stands for the exception the caller catches. *)
Definition py_int (v : val) : option Z :=
  match v with
  | VInt n => Some n
  | VBool b => Some (if b then 1 else 0)
  | VFloat n d => Some (Z.quot n (Z.pos d))
  | VStr s => int_of_str s
  | _ => None
  end.

(** Lines 163-164, one colour: the nested player name, else the flat
    field, else [None]. *)
Definition lichess_player (g : val) (colour : string) : result val :=
  players ← py_get g "players" (VDict []);
  side ← py_get players colour (VDict []);
  user ← py_get (py_or side (VDict [])) "user" (VDict []);
  name ← py_get user "name" VNone;
  if truthy name then Ok name
  else
    flat ← py_get g colour VNone;
    Ok (py_or flat VNone).

(** Line 165. *)
Definition lichess_rated (g : val) : result val :=
  r ← py_get g "rated" VNone;
  Ok (if is_not_none r then VBool (truthy r) else VNone).

(** Lines 169-174. *)
Definition lichess_end_time (g : val) : result (option datetime) :=
  lm ← py_get g "lastMoveAt" VNone;
  Ok (if truthy lm then n ← py_int lm; fromtimestamp_millis n else None).

(** Line 175. *)
Definition lichess_opening (g : val) : result val :=
  o ← py_get g "opening" VNone;
  match o with
  | VDict _ => py_get (py_or o (VDict [])) "name" VNone
  | _ => Ok o
  end.

Definition lichess_fields (user : string) (g pgn : val) : result GameArgs :=
  w ← lichess_player g "white";
  b ← lichess_player g "black";
  rt ← lichess_rated g;
  sp ← py_get g "speed" VNone;
  tc ← py_get g "timeControl" VNone;
  res ← py_get g "status" VNone;
  end_dt ← lichess_end_time g;
  op ← lichess_opening g;
  Ok {| a_source := lichess; a_username := user;
        a_white := w; a_black := b; a_pgn := pgn; a_rated := rt;
        a_speed := py_or sp VNone; a_time_control := py_or tc VNone;
        a_result := py_or res VNone; a_end_time := end_dt;
        a_opening := op |}.

(** Line 159: [g.get("pgn") or g.get("pgnStr")]. *)
Definition lichess_pgn (g : val) : result val :=
  p ← py_get g "pgn" VNone;
  if truthy p then Ok p else py_get g "pgnStr" VNone.

(** The loop over the response lines, lines 151-196. *)
Fixpoint lichess_lines (user : string) (lines : list string) (total : Z)
    : M Z :=
  match lines with
  | [] => mret total
  | line :: lines' =>
      if bool_decide (line = "") then lichess_lines user lines' total
      else
        match json_loads line with
        | None => lichess_lines user lines' total
        | Some g =>
            pgn ← lift (lichess_pgn g);
            if negb (truthy pgn) then lichess_lines user lines' total
            else
              args ← lift (lichess_fields user g pgn);
              found ← db_found "game" (dedup_key lichess pgn);
              if found : bool then lichess_lines user lines' total
              else
                game ← lift (Game_new args);
                _ ← db_create "game" game;
                lichess_lines user lines' (total + 1)
        end
  end.

Definition lichess_request (user : string) (lim : Z) : request :=
  {| rq_url := "https://lichess.org/api/games/user/" +:+ user;
     rq_params := [("max", pretty lim); ("moves", "true");
                   ("pgnInJson", "true"); ("clocks", "false");
                   ("opening", "true"); ("perfType", "bullet,blitz,rapid")];
     rq_headers := [("Accept", "application/x-ndjson")] |}.

Definition import_lichess (req : ImportRequest) : M ImportResponse :=
  let user := strip (req_username req) in
  let lim := int_or (limit req) 50 in
  let rq := lichess_request user lim in
  r ← requests_get net (VStr (rq_url rq)) (rq_params rq) (rq_headers rq);
  if bool_decide (status_code r ≠ 200)
  then raise (HTTPException 400
                ("lichess user not found or API error: " +:+ user))
  else
    total ← lichess_lines user (iter_lines r) 0;
    mret {| r_source := "lichess"; r_username := user; r_inserted := total |}.
End lichess_handler.

(** ** [list_games] and [start_demo] *)

Record ListResponse := {
  count : nat;
  items : list (gmap string val)
}.

Record DemoResponse := {
  sessionId : string;
  d_speed : string;
  d_minutes : Z;
  d_increment : Z
}.

Section queries.
Context `{PyRuntime}.

(** [if d.get(k) and isinstance(d[k], datetime): d[k] = d[k].isoformat()]. *)
Definition iso_field (k : string) (d : doc) : doc :=
  match d !! k with
  | Some (VDatetime t) => <[k := VStr (isoformat t)]> d
  | _ => d
  end.

(** The body of the loop over the listed documents, lines 216-222. *)
Definition serialize_doc (d : doc) : doc :=
  let d := <["_id" := VStr (py_str (default VNone (d !! "_id")))]> d in
  let d := iso_field "end_time" d in
  let d := iso_field "created_at" d in
  iso_field "updated_at" d.

(** [if x: filt[k] = x] for an optional query parameter. *)
Definition add_filter (k : string) (x : option string) (filt : doc) : doc :=
  match x with
  | Some s => if bool_decide (s = "") then filt else <[k := VStr s]> filt
  | None => filt
  end.

Definition games_filter (src user : option string) : doc :=
  add_filter "username" user (add_filter "source" src ∅).

Definition list_games (src user : option string) (lim : Z) : M ListResponse :=
  fun st =>
    let docs := get_documents "game" (games_filter src user) lim (st_db st) in
    let docs := serialize_doc <$> docs in
    (Ok {| count := length docs; items := docs |}, st).

Definition demo_speeds : list string := ["bullet"; "blitz"; "rapid"].

Definition start_demo (speed : string) (minutes increment : Z)
    : M DemoResponse :=
  if negb (bool_decide (speed ∈ demo_speeds))
  then raise (HTTPException 400 "Invalid speed")
  else if (minutes <? 0) || (increment <? 0)
  then raise (HTTPException 400 "Invalid time values")
  else
    session_id ← fresh_uuid;
    mret {| sessionId := session_id; d_speed := speed;
            d_minutes := minutes; d_increment := increment |}.
End queries.

(** ** A concrete runtime and upstream for closed examples *)

(** A runtime whose decoder knows a handful of lines, whose calendar
    accepts every timestamp, and whose [strip] and [lower] are the ASCII
    ones, which is what [str.strip()] and [str.lower()] do on the ASCII
    usernames of the examples. *)
Definition line_game (pgn : string) : val :=
  VDict [("pgn", VStr pgn); ("rated", VStr "yes")].

Definition demo_loads (s : string) : option val :=
  if bool_decide (s = "{pgn-a}") then Some (line_game "1. e4 e5")
  else if bool_decide (s = "{pgn-b}") then Some (line_game "1. d4 d5")
  else if bool_decide (s = "{no-pgn}") then Some (VDict [("rated", VBool true)])
  else None.

Definition demo_str (v : val) : string :=
  match v with
  | VStr s => s
  | VInt n => pretty n
  | VNone => "None"
  | VBool true => "True"
  | VBool false => "False"
  | _ => "<object>"
  end.

Definition demo_runtime : PyRuntime := {|
  strip := ascii_strip;
  lower := ascii_lower;
  json_loads := demo_loads;
  py_str := demo_str;
  int_of_str := fun _ => None;
  utcfromtimestamp := fun n => Some (Datetime (n * 1000000));
  utcfromtimestamp_error := fun _ => year_out_of_range;
  fromtimestamp_millis := fun n => Some (Datetime (n * 1000));
  utcnow := fun tick => Datetime (Z.of_nat tick);
  isoformat := fun t => pretty (dt_micros t);
  uuid4 := fun n => "session-" +:+ pretty n
|}.

Definition empty_state : state :=
  {| st_db := ∅; st_clock := 0; st_uuids := 0; st_log := [] |}.

(** A chess.com whose player [user] has the monthly archives [index]
    (URL and decoded body of each, oldest first); every other URL is a 404. *)
Definition chesscom_net (user : string) (index : list (string * val))
    : upstream := fun rq =>
  if bool_decide (rq = archives_request user)
  then Some {| status_code := 200;
               json := Some (VDict [("archives", VList (VStr <$> index.*1))]);
               iter_lines := [] |}
  else match list_find (fun e => e.1 = rq_url rq) index with
       | Some (_, (_, body)) =>
           Some {| status_code := 200; json := Some body; iter_lines := [] |}
       | None => Some {| status_code := 404; json := None; iter_lines := [] |}
       end.

Definition games_body (games : list val) : val :=
  VDict [("games", VList games)].

Definition player (name : string) (res : option string) : val :=
  VDict (("username", VStr name) ::
         match res with Some r => [("result", VStr r)] | None => [] end).

Definition chesscom_game (pgn : string) (w b : val) : val :=
  VDict [("pgn", VStr pgn); ("white", w); ("black", b);
         ("rated", VBool true); ("time_class", VStr "blitz");
         ("time_control", VStr "300"); ("end_time", VInt 1700000000)].

(** Two monthly archive URLs of one player, oldest first. *)
Definition jan_url : string :=
  "https://api.chess.com/pub/player/alice/games/2024/01".
Definition feb_url : string :=
  "https://api.chess.com/pub/player/alice/games/2024/02".

(** A game whose white player carries no result field. *)
Definition game_without_result : val :=
  chesscom_game "1. e4 e5" (player "alice" None) (player "bob" (Some "win")).

Definition import_request (user : string) (m l : option Z) : ImportRequest :=
  {| req_username := user; months := m; limit := l |}.

(** A lichess that streams the given lines to every request. *)
Definition lichess_net (lines : list string) : upstream := fun _ =>
  Some {| status_code := 200; json := None; iter_lines := lines |}.

(** The plain GET that fetches one archive. *)
Definition archive_request (url : string) : request :=
  {| rq_url := url; rq_params := []; rq_headers := [] |}.

(** A game record without PGN text, otherwise complete. *)
Definition game_without_pgn : val :=
  VDict [("white", player "alice" (Some "win"));
         ("black", player "bob" (Some "checkmated"));
         ("rated", VBool true); ("end_time", VInt 1700000000)].

Definition game_a : val :=
  chesscom_game "1. e4 e5" (player "alice" (Some "win"))
    (player "bob" (Some "checkmated")).

Definition game_b : val :=
  chesscom_game "1. d4 d5" (player "bob" (Some "resigned"))
    (player "alice" (Some "win")).

(** The store after a first import of [game_a] for alice. *)
Definition one_game_net : upstream :=
  chesscom_net "alice" [(jan_url, games_body [game_a])].

Definition two_game_net : upstream :=
  chesscom_net "alice" [(jan_url, games_body [game_a; game_b])].

(** The state a first import of one game leaves behind. *)
Definition one_game_state : state :=
  (@import_chesscom demo_runtime one_game_net
     (import_request "alice" None None) empty_state).2.

(** ** Vocabulary of the properties *)

(** A handler's answer is a client error when it is an [HTTPException]
    with status 400. *)
Definition client_error {A} (r : result A) : Prop :=
  match r with
  | Raise (HTTPException 400 _) => True
  | _ => False
  end.

(** A result is benign when it is not an [HTTPException]: values, and the
    exceptions the handlers do not raise themselves. *)
Definition benign {A} (r : result A) : Prop :=
  match r with
  | Raise (HTTPException _ _) => False
  | _ => True
  end.

(** A computation is benign when its result is, from every state. *)
Definition mbenign {A} (m : M A) : Prop := forall st, benign (m st).1.

(** [steps R m]: running [m] moves the state along [R], whatever it
    returns or raises. *)
Definition steps (R : relation state) {A} (m : M A) : Prop :=
  forall st, R st (m st).2.

(** The log of upstream requests only gets longer. *)
Definition log_grows : relation state :=
  fun st st' => st_log st `prefix_of` st_log st'.

(** Every collection only gets longer. *)
Definition store_grows : relation state :=
  fun st st' =>
    forall name, collection (st_db st) name `prefix_of` collection (st_db st') name.

(** The state after one more upstream request. *)
Definition log_request (rq : request) (st : state) : state :=
  {| st_db := st_db st; st_clock := st_clock st; st_uuids := st_uuids st;
     st_log := st_log st ++ [rq] |}.

(** Number of documents the ["game"] collection gained between two states. *)
Definition added (st st' : state) : Z :=
  Z.of_nat (length (collection (st_db st') "game")) -
  Z.of_nat (length (collection (st_db st) "game")).

(** The log of upstream requests is unchanged. *)
Definition log_same : relation state :=
  fun st st' => st_log st = st_log st'.

(** The documents of the ["game"] collection. *)
Definition docs (st : state) : list doc := collection (st_db st) "game".

(** Whether some stored game carries the de-dup key. *)
Definition has_key (s : Source) (p : val) (l : list doc) : Prop :=
  Exists (fun d => doc_matches (dedup_key s p) d = true) l.

(** What a second run returns where the first returned [r]: the count it
    started with, or the same exception. *)
Definition rerun_result (r : result Z) (total : Z) : result Z :=
  match r with
  | Ok _ => Ok total
  | Raise e => Raise e
  end.

(** ** [test_database] *)

(** What the handler sees of the datastore handle [db] of the [database]
    module: the outcome of reading its [name] attribute and of
    [list_collection_names()], an exception being given by its message. *)
Inductive attribute :=
  | NoAttribute
  | Attribute (v : val)
  | AttributeRaises (msg : string).

Record db_handle := {
  db_name : attribute;
  list_collection_names : string + list string
}.

(** The two environment variables the handler reads. *)
Record environ := {
  DATABASE_URL : option string;
  DATABASE_NAME : option string
}.

(** [if os.getenv(name)]: set, and not to the empty string. *)
Definition env_set (o : option string) : bool :=
  match o with
  | Some s => negb (bool_decide (s = ""))
  | None => false
  end.

(** [s[:n]], the first [n] characters of a text held as its UTF-8 bytes: a
    character is a leading byte and the continuation bytes (128 to 191)
    that follow it. *)
Definition is_continuation (c : ascii) : bool :=
  let k := nat_of_ascii c in (128 <=? k)%nat && (k <=? 191)%nat.

Fixpoint str_take (n : nat) (s : string) : string :=
  match s with
  | String c s' =>
      if is_continuation c then String c (str_take n s')
      else match n with
           | S n' => String c (str_take n' s')
           | O => EmptyString
           end
  | EmptyString => EmptyString
  end.

Definition set_status (o : option string) : val :=
  VStr (if env_set o then "✅ Set" else "❌ Not Set").

(** The handler, lines 32-62; the response dict is built by the same
    sequence of assignments. *)
Definition test_database (db : option db_handle) (env : environ)
    : gmap string val :=
  let response : gmap string val :=
    list_to_map [("backend", VStr "✅ Running");
                 ("database", VStr "❌ Not Available");
                 ("database_url", VNone);
                 ("database_name", VNone);
                 ("connection_status", VStr "Not Connected");
                 ("collections", VList [])] in
  let response :=
    match db with
    | Some h =>
        let response := <["database" := VStr "✅ Available"]> response in
        let response := <["database_url" := VStr "✅ Configured"]> response in
        match db_name h with
        | AttributeRaises msg =>
            <["database" := VStr ("❌ Error: " +:+ str_take 50 msg)]> response
        | name =>
            let response :=
              <["database_name" :=
                  match name with
                  | Attribute v => v
                  | _ => VStr "✅ Connected"
                  end]> response in
            let response := <["connection_status" := VStr "Connected"]> response in
            match list_collection_names h with
            | inr names =>
                let response :=
                  <["collections" := VList (VStr <$> take 10 names)]> response in
                <["database" := VStr "✅ Connected & Working"]> response
            | inl msg =>
                <["database" :=
                    VStr ("⚠️  Connected but Error: " +:+ str_take 50 msg)]> response
            end
        end
    | None => <["database" := VStr "⚠️  Available but not initialized"]> response
    end in
  let response := <["database_url" := set_status (DATABASE_URL env)]> response in
  <["database_name" := set_status (DATABASE_NAME env)]> response.

(** ** More vocabulary *)

(** The state with another log of upstream requests. *)
Definition with_log (l : list request) (st : state) : state :=
  {| st_db := st_db st; st_clock := st_clock st; st_uuids := st_uuids st;
     st_log := l |}.

(** Collections other than ["game"] are as they were. *)
Definition others_same : relation state :=
  fun st st' =>
    forall name, name <> "game" ->
      collection (st_db st') name = collection (st_db st) name.

(** A document as an import for [user] from source [s] stores it. *)
Definition stored_by (s : Source) (user : string) (d : gmap string val) : Prop :=
  d !! "source" = Some (VStr (source_name s)) /\
  d !! "username" = Some (VStr user) /\
  exists p, p <> "" /\ d !! "pgn" = Some (VStr p).

(** No two documents of the list carry the same (source, pgn) key. *)
Definition keys_unique (l : list (gmap string val)) : Prop :=
  forall s p,
    (length (filter (fun d => doc_matches (dedup_key s p) d = true) l) <= 1)%nat.

(** What the imports do to the store. *)
Definition import_step (s : Source) (user : string) : relation state :=
  fun st st' =>
    (exists new, collection (st_db st') "game" = collection (st_db st) "game" ++ new /\
                 Forall (stored_by s user) new) /\
    (keys_unique (collection (st_db st) "game") ->
     keys_unique (collection (st_db st') "game")) /\
    others_same st st'.

(** The value under a path of keys, [None] where the path leaves the dicts. *)
Fixpoint dict_path (v : val) (keys : list string) : val :=
  match keys with
  | [] => v
  | k :: keys' =>
      match v with
      | VDict d =>
          match dict_lookup d k with
          | Some v' => dict_path v' keys'
          | None => VNone
          end
      | _ => VNone
      end
  end.

(** [d.get(k)] on a dict given by its bindings. *)
Definition field (d : list (string * val)) (k : string) : val :=
  default VNone (dict_lookup d k).

(** The state after [create_document("game", g)]. *)
Definition stored `{PyRuntime} (g : Game) (st : state) : state :=
  (db_create "game" g st).2.

(** ** More closed examples *)

(** The bindings of [game_a], and what the chess.com import makes of them
    under [demo_runtime]. *)
Definition game_a_fields : list (string * val) :=
  [("pgn", VStr "1. e4 e5");
   ("white", player "alice" (Some "win"));
   ("black", player "bob" (Some "checkmated"));
   ("rated", VBool true); ("time_class", VStr "blitz");
   ("time_control", VStr "300"); ("end_time", VInt 1700000000)].

Definition game_a_args : GameArgs :=
  {| a_source := chesscom; a_username := "alice";
     a_white := VStr "alice"; a_black := VStr "bob";
     a_pgn := VStr "1. e4 e5"; a_rated := VBool true;
     a_speed := VStr "blitz"; a_time_control := VStr "300";
     a_result := VStr "win/checkmated";
     a_end_time := Some (Datetime 1700000000000000);
     a_opening := VNone |}.

Definition game_a_record : Game :=
  {| source := chesscom; username := "alice"; white := Some "alice";
     black := Some "bob"; pgn := "1. e4 e5"; rated := Some true;
     speed := Some "blitz"; time_control := Some "300";
     result_ := Some "win/checkmated";
     end_time := Some (Datetime 1700000000000000); opening := None |}.

(** A decoded lichess line: a named white player, an engine as black. *)
Definition lichess_game_fields : list (string * val) :=
  [("id", VStr "q7ZvsdUF"); ("rated", VBool true); ("speed", VStr "blitz");
   ("status", VStr "mate");
   ("players",
    VDict [("white", VDict [("user", VDict [("name", VStr "alice")]);
                            ("rating", VInt 1500)]);
           ("black", VDict [("aiLevel", VInt 3)])]);
   ("opening", VDict [("eco", VStr "C20"); ("name", VStr "Kings Pawn Game")]);
   ("lastMoveAt", VInt 1700000000000);
   ("pgn", VStr "1. e4 e5 2. Qh5")].

Definition lichess_game_args : GameArgs :=
  {| a_source := lichess; a_username := "alice";
     a_white := VStr "alice"; a_black := VNone;
     a_pgn := VStr "1. e4 e5 2. Qh5"; a_rated := VBool true;
     a_speed := VStr "blitz"; a_time_control := VNone;
     a_result := VStr "mate";
     a_end_time := Some (Datetime 1700000000000000);
     a_opening := VStr "Kings Pawn Game" |}.

Definition lichess_game_record : Game :=
  {| source := lichess; username := "alice"; white := Some "alice";
     black := None; pgn := "1. e4 e5 2. Qh5"; rated := Some true;
     speed := Some "blitz"; time_control := None; result_ := Some "mate";
     end_time := Some (Datetime 1700000000000000);
     opening := Some "Kings Pawn Game" |}.

(** A decoded lichess line between two named players. *)
Definition lichess_pvp_fields : list (string * val) :=
  [("id", VStr "TJxUmbWK"); ("rated", VBool false); ("speed", VStr "rapid");
   ("status", VStr "resign");
   ("players",
    VDict [("white", VDict [("user", VDict [("name", VStr "alice")])]);
           ("black", VDict [("user", VDict [("name", VStr "bob")])])]);
   ("opening", VDict [("eco", VStr "D00"); ("name", VStr "Queens Pawn Game")]);
   ("lastMoveAt", VInt 1700000123000);
   ("pgn", VStr "1. d4 d5")].

(** The keys of the [/test] report. *)
Definition report_keys : gset string :=
  list_to_set ["backend"; "database"; "database_url"; "database_name";
               "connection_status"; "collections"].

(** The collection names the report shows. *)
Definition listed_collections (db : option db_handle) : list string :=
  match db with
  | Some h =>
      match db_name h, list_collection_names h with
      | AttributeRaises _, _ => []
      | _, inr names => take 10 names
      | _, inl _ => []
      end
  | None => []
  end.

(** * Properties *)

(** Unfolding of the monadic plumbing. *)
Ltac munfold :=
  unfold mbind, M_bind, result_bind, mret, M_ret, result_ret, lift, raise in *.

Lemma val_eqb_eq (x y : val) : val_eqb x y = true <-> x = y.
Proof.
  revert y. induction x as [| | | | |l IH|d IH|] using val_ind_nested;
    intros [] ; simpl; try (split; [done | congruence]);
    rewrite ?andb_true_iff, ?bool_decide_eq_true;
    try (split; [intros; destruct_and?; by simplify_eq | intros ?; by simplify_eq]).
  - rename l0 into m. revert m.
    induction IH as [|a l Ha _ IHl]; intros [|b m]; try (split; [done | congruence]).
    rewrite andb_true_iff, Ha.
    specialize (IHl m). split.
    + intros [-> Hgo]. apply IHl in Hgo. congruence.
    + intros [= -> ->]. split; [done |]. by apply IHl.
  - rename d0 into e. revert e.
    induction IH as [|[j a] d Ha _ IHd]; intros [|[k b] e];
      try (split; [done | congruence]).
    rewrite !andb_true_iff, bool_decide_eq_true. simpl in Ha. rewrite Ha.
    specialize (IHd e). split.
    + intros [[-> ->] Hgo]. apply IHd in Hgo. congruence.
    + intros [= -> -> ->]. split; [done |]. by apply IHd.
Qed.

(** ** [start_demo] *)

(** C10: for a speed among bullet, blitz and rapid, [start_demo] answers
    with a client error exactly when [minutes < 0] or [increment < 0];
    otherwise it succeeds with a fresh session identifier, in particular
    when both time values are zero. *)
Theorem start_demo_accepts_zero `{PyRuntime} (speed : string)
    (minutes increment : Z) (st : state) :
  speed ∈ demo_speeds ->
  (client_error (start_demo speed minutes increment st).1
     <-> (minutes < 0 \/ increment < 0)) /\
  (~ (minutes < 0 \/ increment < 0) ->
     (start_demo speed minutes increment st).1 =
       Ok {| sessionId := uuid4 (st_uuids st); d_speed := speed;
             d_minutes := minutes; d_increment := increment |}) /\
  (start_demo speed 0 0 st).1 =
    Ok {| sessionId := uuid4 (st_uuids st); d_speed := speed;
          d_minutes := 0; d_increment := 0 |}.
Proof.
  intros Hspeed. unfold start_demo.
  rewrite (bool_decide_eq_true_2 _ Hspeed). simpl.
  split; [|split].
  - destruct (minutes <? 0) eqn:Hm; destruct (increment <? 0) eqn:Hi; simpl;
      munfold; simpl; split; try done; try lia; intros [?|?]; lia.
  - intros Hok.
    assert (Hm : (minutes <? 0) = false) by lia.
    assert (Hi : (increment <? 0) = false) by lia.
    rewrite Hm, Hi. reflexivity.
  - reflexivity.
Qed.

Lemma start_demo_accepts_zero_witness :
  "blitz" ∈ demo_speeds /\
  (@start_demo demo_runtime "blitz" 0 0 empty_state).1 =
    Ok {| sessionId := "session-0"; d_speed := "blitz";
          d_minutes := 0; d_increment := 0 |}.
Proof.
  assert (Hin : "blitz" ∈ demo_speeds)
    by (apply (bool_decide_unpack _); vm_compute; exact I).
  split; [exact Hin |].
  apply (@start_demo_accepts_zero demo_runtime "blitz" 0 0 empty_state Hin).
Defined.

(** ** Field extraction of the chess.com import *)

(** When both player objects carry a string result, [result] is the two
    joined by a slash. *)
Lemma chesscom_result_both (d w b : list (string * val)) (wr br : string) :
  dict_lookup d "white" = Some (VDict w) ->
  dict_lookup d "black" = Some (VDict b) ->
  dict_lookup w "result" = Some (VStr wr) ->
  dict_lookup b "result" = Some (VStr br) ->
  chesscom_result (VDict d) = Ok (VStr ((wr +:+ "/") +:+ br)).
Proof.
  intros Hw Hb Hwr Hbr. unfold chesscom_result. simpl.
  rewrite Hw, Hb. simpl.
  destruct w as [|e w]; [done |]. destruct b as [|e' b]; [done |].
  unfold py_or. cbn [truthy andb py_get].
  rewrite Hwr, Hbr. simpl. reflexivity.
Qed.

(** When a player object is missing or empty, [result] is [None]. *)
Lemma chesscom_result_no_player (d : list (string * val)) :
  truthy (default VNone (dict_lookup d "white")) = false \/
  truthy (default VNone (dict_lookup d "black")) = false ->
  chesscom_result (VDict d) = Ok VNone.
Proof.
  intros Hfalsy. unfold chesscom_result. simpl.
  destruct Hfalsy as [-> | ->]; [done |]. by rewrite andb_false_r.
Qed.

(** When both player objects are present but white has no result field,
    the concatenation is applied to [None] and raises. *)
Lemma chesscom_result_missing_field (d w b : list (string * val)) :
  dict_lookup d "white" = Some (VDict w) -> w <> [] ->
  dict_lookup d "black" = Some (VDict b) -> b <> [] ->
  dict_lookup w "result" = None ->
  chesscom_result (VDict d) = Raise TypeError.
Proof.
  intros Hw Hwne Hb Hbne Hwr. unfold chesscom_result. simpl.
  rewrite Hw, Hb. simpl.
  destruct w as [|e w]; [done |]. destruct b as [|e' b]; [done |].
  unfold py_or. cbn [truthy andb py_get]. rewrite Hwr. reflexivity.
Qed.

(** C1: on a game whose white player object has a username but no result
    field, the chess.com import does not store the game with an absent
    [result]: the extraction raises [TypeError] and the request ends with
    nothing stored. *)
Theorem import_chesscom_missing_result_raises :
  chesscom_result game_without_result = Raise TypeError /\
  let net := chesscom_net "alice"
               [(jan_url, games_body [game_without_result])] in
  let run := @import_chesscom demo_runtime net
               (import_request "alice" None None) empty_state in
  run.1 = Raise TypeError /\ collection (st_db run.2) "game" = [].
Proof. vm_compute. done. Qed.

(** ** Which exceptions the code raises *)

Lemma benign_not_client_error {A} (r : result A) : benign r -> ~ client_error r.
Proof. destruct r as [|[]]; simpl; tauto. Qed.

Lemma benign_bind {A B} (r : result A) (k : A -> result B) :
  benign r -> (forall a, benign (k a)) -> benign (r ≫= k).
Proof. destruct r as [a|e]; simpl; [intros _ Hk; apply Hk | tauto]. Qed.

Lemma bind_Ok_inv {A B} (r : result A) (k : A -> result B) (b : B) :
  r ≫= k = Ok b -> exists a, r = Ok a /\ k a = Ok b.
Proof. destruct r as [a|e]; simpl; [eauto | done]. Qed.

Lemma py_get_benign v k dflt : benign (py_get v k dflt).
Proof. by destruct v. Qed.

Lemma py_add_str_benign a b : benign (py_add_str a b).
Proof. by destruct a, b. Qed.

Lemma py_iter_benign v : benign (py_iter v).
Proof. by destruct v. Qed.

Lemma reversed_tail_benign m v : benign (reversed_tail m v).
Proof. by destruct v. Qed.

Lemma resp_json_benign r : benign (resp_json r).
Proof. unfold resp_json. by destruct (json r). Qed.

Lemma validate_str_benign v : benign (validate_str v).
Proof. by destruct v. Qed.

Lemma validate_opt_str_benign v : benign (validate_opt_str v).
Proof. by destruct v. Qed.

Lemma validate_opt_bool_benign v : benign (validate_opt_bool v).
Proof. destruct v; simpl; repeat case_match; done. Qed.

Lemma range_exn_benign {A} (e : range_error) : benign (@Raise A (range_exn e)).
Proof. by destruct e. Qed.

Create HintDb benign.
#[export] Hint Resolve py_get_benign py_add_str_benign py_iter_benign
  reversed_tail_benign resp_json_benign validate_str_benign
  validate_opt_str_benign validate_opt_bool_benign range_exn_benign : benign.

Ltac benign_steps :=
  repeat first
    [ apply benign_bind; [solve [auto with benign] | intros ?]
    | progress case_match
    | solve [auto with benign]
    | exact I ].

Lemma Game_new_benign a : benign (Game_new a).
Proof. unfold Game_new. benign_steps. Qed.

Section benign_fields.
Context `{PyRuntime}.

Lemma chesscom_result_benign g : benign (chesscom_result g).
Proof. unfold chesscom_result. benign_steps. Qed.

Lemma chesscom_end_time_benign v : benign (chesscom_end_time v).
Proof. unfold chesscom_end_time. benign_steps. Qed.

Lemma chesscom_fields_benign user g pgn : benign (chesscom_fields user g pgn).
Proof.
  pose proof chesscom_result_benign. pose proof chesscom_end_time_benign.
  unfold chesscom_fields. benign_steps.
Qed.

Lemma lichess_player_benign g colour : benign (lichess_player g colour).
Proof. unfold lichess_player. benign_steps. Qed.

Lemma lichess_rated_benign g : benign (lichess_rated g).
Proof. unfold lichess_rated. benign_steps. Qed.

Lemma lichess_end_time_benign g : benign (lichess_end_time g).
Proof. unfold lichess_end_time. benign_steps. Qed.

Lemma lichess_opening_benign g : benign (lichess_opening g).
Proof. unfold lichess_opening. benign_steps. Qed.

Lemma lichess_fields_benign user g pgn : benign (lichess_fields user g pgn).
Proof.
  pose proof lichess_player_benign. pose proof lichess_rated_benign.
  pose proof lichess_end_time_benign. pose proof lichess_opening_benign.
  unfold lichess_fields. benign_steps.
Qed.

Lemma lichess_pgn_benign g : benign (lichess_pgn g).
Proof. unfold lichess_pgn. benign_steps. Qed.
End benign_fields.

#[export] Hint Resolve Game_new_benign chesscom_fields_benign
  lichess_fields_benign lichess_pgn_benign : benign.

(** ** What a handler does to the state *)

Global Instance log_grows_preorder : PreOrder log_grows.
Proof.
  split; [intros st; by unfold log_grows |].
  intros s1 s2 s3. unfold log_grows. by etrans.
Qed.

Global Instance store_grows_preorder : PreOrder store_grows.
Proof.
  split; [intros st name; done |].
  intros s1 s2 s3 H12 H23 name. etrans; [apply H12 | apply H23].
Qed.

Section monad_lemmas.
Context {A B : Type}.
Implicit Types (m : M A) (k : A -> M B).

Lemma mbenign_bind m k :
  mbenign m -> (forall a, mbenign (k a)) -> mbenign (m ≫= k).
Proof.
  intros Hm Hk st. specialize (Hm st). munfold.
  destruct (m st) as [[a|e] st']; [apply Hk | done].
Qed.

Lemma mbenign_ret (a : A) : mbenign (mret a).
Proof. by intros st. Qed.

Lemma mbenign_lift (r : result A) : benign r -> mbenign (lift r).
Proof. by intros Hr st. Qed.

Lemma steps_bind (R : relation state) `{!PreOrder R} m k :
  steps R m -> (forall a, steps R (k a)) -> steps R (m ≫= k).
Proof.
  intros Hm Hk st. specialize (Hm st). munfold.
  destruct (m st) as [[a|e] st']; simpl in *; [|done].
  etrans; [exact Hm | apply Hk].
Qed.

Lemma steps_ret (R : relation state) `{!PreOrder R} (a : A) : steps R (mret a).
Proof. by intros st. Qed.

Lemma steps_lift (R : relation state) `{!PreOrder R} (r : result A) :
  steps R (lift r).
Proof. by intros st. Qed.

Lemma steps_raise (R : relation state) `{!PreOrder R} (e : exn) :
  steps R (raise (A:=A) e).
Proof. by intros st. Qed.
End monad_lemmas.

Lemma requests_get_mbenign net url params headers :
  mbenign (requests_get net url params headers).
Proof. intros st. destruct url; simpl; try done. by destruct (net _). Qed.

Lemma db_found_mbenign name key : mbenign (db_found name key).
Proof. by intros st. Qed.

Lemma db_create_mbenign `{PyRuntime} name g : mbenign (db_create name g).
Proof. by intros st. Qed.

Lemma requests_get_log net url params headers :
  steps log_grows (requests_get net url params headers).
Proof.
  intros st. unfold log_grows. destruct url; simpl; try done.
  destruct (net _); simpl; by apply prefix_app_r.
Qed.

Lemma requests_get_store net url params headers :
  steps store_grows (requests_get net url params headers).
Proof. intros st name. destruct url; simpl; try done. by destruct (net _). Qed.

Lemma db_found_log name key : steps log_grows (db_found name key).
Proof. by intros st. Qed.

Lemma db_found_store name key : steps store_grows (db_found name key).
Proof. by intros st. Qed.

Lemma db_create_log `{PyRuntime} name g : steps log_grows (db_create name g).
Proof. intros st. by unfold log_grows. Qed.

Lemma collection_create `{PyRuntime} name g tick db name' :
  collection (create_document name g tick db) name' =
    if bool_decide (name = name')
    then collection db name ++ [<["created_at" := VDatetime (utcnow tick)]> (game_dict g)]
    else collection db name'.
Proof.
  unfold create_document, collection at 1.
  case_bool_decide as Hn.
  - subst. by rewrite lookup_insert_eq.
  - by rewrite lookup_insert_ne.
Qed.

Lemma db_create_store `{PyRuntime} name g : steps store_grows (db_create name g).
Proof.
  intros st name'. simpl. rewrite collection_create.
  case_bool_decide; [subst; by apply prefix_app_r | done].
Qed.

Create HintDb handlers.
#[export] Hint Resolve requests_get_mbenign db_found_mbenign db_create_mbenign
  requests_get_log requests_get_store db_found_log db_found_store
  db_create_log db_create_store : handlers.
#[export] Hint Resolve mbenign_ret : handlers.
#[export] Hint Resolve steps_ret steps_lift steps_raise : handlers.
#[export] Hint Extern 0 (PreOrder _) => tc_solve : handlers.
#[export] Hint Extern 1 (mbenign (lift _)) =>
  apply mbenign_lift; solve [auto with benign] : handlers.

(** One pass over the body of a handler: through each bind and each
    branch, closing the leaves from the hint base. *)
Ltac handler_steps :=
  repeat first
    [ solve [auto with handlers]
    | apply mbenign_bind; [solve [auto with handlers] | intros ?]
    | apply steps_bind; [solve [auto with handlers].. | intros ?]
    | progress case_match ].

Section loops_wellbehaved.
Context `{PyRuntime}.
Variable net : upstream.

Lemma chesscom_games_mbenign lim user games total :
  mbenign (chesscom_games lim user games total).
Proof.
  revert total. induction games as [|g games IH]; intros total; simpl;
    handler_steps.
Qed.

Lemma chesscom_archives_mbenign lim user urls total :
  mbenign (chesscom_archives net lim user urls total).
Proof.
  pose proof chesscom_games_mbenign.
  revert total. induction urls as [|url urls IH]; intros total; simpl;
    handler_steps.
Qed.

Lemma lichess_lines_mbenign user lines total :
  mbenign (lichess_lines user lines total).
Proof.
  revert total. induction lines as [|line lines IH]; intros total; simpl;
    handler_steps.
Qed.

Lemma chesscom_games_log lim user games total :
  steps log_grows (chesscom_games lim user games total).
Proof.
  revert total. induction games as [|g games IH]; intros total; simpl;
    handler_steps.
Qed.

Lemma chesscom_archives_log lim user urls total :
  steps log_grows (chesscom_archives net lim user urls total).
Proof.
  pose proof chesscom_games_log.
  revert total. induction urls as [|url urls IH]; intros total; simpl;
    handler_steps.
Qed.

Lemma lichess_lines_log user lines total :
  steps log_grows (lichess_lines user lines total).
Proof.
  revert total. induction lines as [|line lines IH]; intros total; simpl;
    handler_steps.
Qed.

Lemma chesscom_games_store lim user games total :
  steps store_grows (chesscom_games lim user games total).
Proof.
  revert total. induction games as [|g games IH]; intros total; simpl;
    handler_steps.
Qed.

Lemma chesscom_archives_store lim user urls total :
  steps store_grows (chesscom_archives net lim user urls total).
Proof.
  pose proof chesscom_games_store.
  revert total. induction urls as [|url urls IH]; intros total; simpl;
    handler_steps.
Qed.

Lemma lichess_lines_store user lines total :
  steps store_grows (lichess_lines user lines total).
Proof.
  revert total. induction lines as [|line lines IH]; intros total; simpl;
    handler_steps.
Qed.
End loops_wellbehaved.

(** ** Request validation *)

Lemma requests_get_bind {A} (net : upstream) (rq : request)
    (k : response -> M A) (st : state) :
  (requests_get net (VStr (rq_url rq)) (rq_params rq) (rq_headers rq) ≫= k) st =
    match net rq with
    | Some r => k r (log_request rq st)
    | None => (Raise RequestException, log_request rq st)
    end.
Proof.
  munfold. unfold requests_get.
  replace {| rq_url := rq_url rq; rq_params := rq_params rq;
             rq_headers := rq_headers rq |} with rq by (by destruct rq).
  by destruct (net rq).
Qed.

(** What remains of a handler after its first request: a client error for
    a non-200 answer, else a body that raises no [HTTPException]. *)
Lemma first_call_decides {A} (net : upstream) (rq : request) (st : state)
    (detail : string) (body : response -> M A) :
  (forall r, mbenign (body r)) ->
  (forall r, steps log_grows (body r)) ->
  let run :=
    (requests_get net (VStr (rq_url rq)) (rq_params rq) (rq_headers rq) ≫= fun r =>
       if bool_decide (status_code r ≠ 200)
       then raise (HTTPException 400 detail) else body r) st in
  (st_log st ++ [rq]) `prefix_of` st_log run.2 /\
  (client_error run.1 <-> exists r, net rq = Some r /\ status_code r <> 200).
Proof.
  intros Hben Hlog run. subst run. rewrite requests_get_bind.
  destruct (net rq) as [r|] eqn:Hnet; simpl.
  2: { split; [done |]. split; [done | by intros (r & ? & _)]. }
  case_bool_decide as Hst; simpl.
  { split; [done |]. split; [intros _; eauto | done]. }
  specialize (Hben r (log_request rq st)). specialize (Hlog r (log_request rq st)).
  split; [exact Hlog |]. split.
  - intros Herr. by apply benign_not_client_error in Hben.
  - intros (r0 & [= <-] & Hne). by destruct Hst.
Qed.

Section username.
Context `{PyRuntime}.
Variable net : upstream.

(** The first thing [import_chesscom] does is the archive-index request
    for the trimmed, lower-cased username, and it answers with a client
    error exactly for a non-200 answer to it. *)
Lemma import_chesscom_first_call (req : ImportRequest) (st : state) :
  let rq := archives_request (lower (strip (req_username req))) in
  let run := import_chesscom net req st in
  (st_log st ++ [rq]) `prefix_of` st_log run.2 /\
  (client_error run.1 <-> exists r, net rq = Some r /\ status_code r <> 200).
Proof.
  pose proof (chesscom_archives_mbenign net).
  pose proof (chesscom_archives_log net).
  apply (first_call_decides net
           (archives_request (lower (strip (req_username req)))));
    intros r; handler_steps.
Qed.

(** The same for [import_lichess], with the username only trimmed. *)
Lemma import_lichess_first_call (req : ImportRequest) (st : state) :
  let rq := lichess_request (strip (req_username req)) (int_or (limit req) 50) in
  let run := import_lichess net req st in
  (st_log st ++ [rq]) `prefix_of` st_log run.2 /\
  (client_error run.1 <-> exists r, net rq = Some r /\ status_code r <> 200).
Proof.
  pose proof lichess_lines_mbenign. pose proof lichess_lines_log.
  apply (first_call_decides net
           (lichess_request (strip (req_username req)) (int_or (limit req) 50)));
    intros r; handler_steps.
Qed.
End username.

(** C2 (as stated, refuted): a username of blanks only is not rejected
    before the upstream is called.  With an upstream that answers 200, both
    imports send their request for the empty username and return a count.
    The refuting username is three spaces, which [str.strip()] trims to the
    empty string. *)
Lemma blank_username_not_rejected :
  ~ (forall (net : upstream) (req : ImportRequest) (st : state),
       @strip demo_runtime (req_username req) = "" ->
       let run_c := @import_chesscom demo_runtime net req st in
       let run_l := @import_lichess demo_runtime net req st in
       (client_error run_c.1 /\ st_log run_c.2 = st_log st) /\
       (client_error run_l.1 /\ st_log run_l.2 = st_log st)).
Proof.
  intros Hclaim.
  destruct (Hclaim (chesscom_net "" []) (import_request "   " None None)
              empty_state) as [[Herr _] _]; [reflexivity |].
  vm_compute in Herr. exact Herr.
Qed.

(** C2 (amended): neither import checks that the trimmed username is
    non-empty.  Each import first sends its upstream request for the trimmed
    username (lower-cased for chess.com), empty or not, and answers with a
    client error exactly when that request gets a non-200 answer.  Trimming
    and lower-casing are [str.strip()] and [str.lower()] of the runtime. *)
Theorem import_rejects_on_upstream_status `{PyRuntime} (net : upstream)
    (req : ImportRequest) (st : state) :
  let rq_c := archives_request (lower (strip (req_username req))) in
  let rq_l := lichess_request (strip (req_username req)) (int_or (limit req) 50) in
  let run_c := import_chesscom net req st in
  let run_l := import_lichess net req st in
  ((st_log st ++ [rq_c]) `prefix_of` st_log run_c.2 /\
   (client_error run_c.1 <-> exists r, net rq_c = Some r /\ status_code r <> 200)) /\
  ((st_log st ++ [rq_l]) `prefix_of` st_log run_l.2 /\
   (client_error run_l.1 <-> exists r, net rq_l = Some r /\ status_code r <> 200)).
Proof.
  split; [apply import_chesscom_first_call | apply import_lichess_first_call].
Qed.

(** ** The [rated] flag of a lichess game *)

Lemma game_dict_rated (g : Game) :
  game_dict g !! "rated" = Some (opt_val VBool (rated g)).
Proof. reflexivity. Qed.

(** C9 (as stated, refuted): not every non-null, non-boolean value of the
    source field is stored as true.  A game whose [rated] is the number 0 is
    handed to the store with [rated] false. *)
Lemma falsy_rated_is_stored_false :
  ~ (forall (user : string) (d : list (string * val)) (pgn v : val)
            (args : GameArgs) (game : Game),
       @lichess_fields demo_runtime user (VDict d) pgn = Ok args ->
       Game_new args = Ok game ->
       dict_lookup d "rated" = Some v ->
       is_not_none v = true -> (forall b, v <> VBool b) ->
       rated game = Some true).
Proof.
  intros Hclaim.
  pose (d := [("pgn", VStr "1. e4 e5"); ("rated", VInt 0)]).
  pose (args := {| a_source := lichess; a_username := "alice";
                   a_white := VNone; a_black := VNone;
                   a_pgn := VStr "1. e4 e5"; a_rated := VBool false;
                   a_speed := VNone; a_time_control := VNone;
                   a_result := VNone; a_end_time := None;
                   a_opening := VNone |}).
  pose (game := {| source := lichess; username := "alice"; white := None;
                   black := None; pgn := "1. e4 e5"; rated := Some false;
                   speed := None; time_control := None; result_ := None;
                   end_time := None; opening := None |}).
  assert (Hrated : rated game = Some true).
  { apply (Hclaim "alice" d (VStr "1. e4 e5") (VInt 0) args game);
      [reflexivity | reflexivity | reflexivity | reflexivity | done]. }
  discriminate Hrated.
Qed.

(** C9 (amended): in the lichess import the [rated] field of the record
    handed to the store is the truth value of the source field when that
    field is present and not null: true for a truthy value such as a
    non-empty string, false for a falsy one such as 0, the empty string, an
    empty list or an empty object.  It is absent when the source field is
    null or missing. *)
Theorem lichess_rated_is_truthiness `{PyRuntime} (user : string)
    (d : list (string * val)) (pgn : val) (args : GameArgs) (game : Game) :
  lichess_fields user (VDict d) pgn = Ok args ->
  Game_new args = Ok game ->
  rated game = match dict_lookup d "rated" with
               | Some v => if is_not_none v then Some (truthy v) else None
               | None => None
               end /\
  game_dict game !! "rated" = Some (opt_val VBool (rated game)) /\
  (forall s, dict_lookup d "rated" = Some (VStr s) -> s <> "" ->
             rated game = Some true) /\
  (forall v, dict_lookup d "rated" = Some v -> is_not_none v = true ->
             rated game = Some (truthy v)) /\
  (forall v, dict_lookup d "rated" = Some v ->
             v ∈ [VBool false; VInt 0; VStr ""; VList []; VDict []] ->
             rated game = Some false) /\
  (dict_lookup d "rated" = None \/ dict_lookup d "rated" = Some VNone ->
   rated game = None).
Proof.
  intros Hfields Hnew.
  assert (Hrated : rated game =
            match dict_lookup d "rated" with
            | Some v => if is_not_none v then Some (truthy v) else None
            | None => None
            end).
  { unfold lichess_fields in Hfields.
    apply bind_Ok_inv in Hfields as (w & _ & Hfields).
    apply bind_Ok_inv in Hfields as (b & _ & Hfields).
    apply bind_Ok_inv in Hfields as (rt & Hrt & Hfields).
    repeat (apply bind_Ok_inv in Hfields as (? & _ & Hfields)).
    injection Hfields as <-.
    unfold Game_new in Hnew. simpl in Hnew.
    apply bind_Ok_inv in Hnew as (? & _ & Hnew).
    apply bind_Ok_inv in Hnew as (? & _ & Hnew).
    apply bind_Ok_inv in Hnew as (? & _ & Hnew).
    apply bind_Ok_inv in Hnew as (r & Hr & Hnew).
    repeat (apply bind_Ok_inv in Hnew as (? & _ & Hnew)).
    injection Hnew as <-. simpl.
    unfold lichess_rated in Hrt. simpl in Hrt. injection Hrt as <-.
    destruct (dict_lookup d "rated") as [v|]; simpl in *.
    - destruct (is_not_none v); simpl in Hr; by injection Hr as <-.
    - by injection Hr as <-. }
  split; [exact Hrated |]. split; [apply game_dict_rated |].
  split; [| split; [| split]].
  - intros s Hs Hne. rewrite Hrated, Hs. simpl.
    by rewrite bool_decide_eq_false_2.
  - intros v Hv Hnn. by rewrite Hrated, Hv, Hnn.
  - intros v Hv Hin. rewrite Hrated, Hv.
    repeat (apply elem_of_cons in Hin as [-> | Hin]; [reflexivity |]).
    by apply elem_of_nil in Hin.
  - intros [Hv | Hv]; by rewrite Hrated, Hv.
Qed.

Lemma lichess_rated_is_truthiness_witness :
  let d := [("pgn", VStr "1. e4 e5"); ("rated", VStr "yes")] in
  let args := {| a_source := lichess; a_username := "alice";
                 a_white := VNone; a_black := VNone;
                 a_pgn := VStr "1. e4 e5"; a_rated := VBool true;
                 a_speed := VNone; a_time_control := VNone;
                 a_result := VNone; a_end_time := None;
                 a_opening := VNone |} in
  let game := {| source := lichess; username := "alice"; white := None;
                 black := None; pgn := "1. e4 e5"; rated := Some true;
                 speed := None; time_control := None; result_ := None;
                 end_time := None; opening := None |} in
  @lichess_fields demo_runtime "alice" (VDict d) (VStr "1. e4 e5") = Ok args /\
  Game_new args = Ok game /\
  rated game = Some true.
Proof.
  intros d args game.
  assert (Hfields : @lichess_fields demo_runtime "alice" (VDict d)
                      (VStr "1. e4 e5") = Ok args) by reflexivity.
  assert (Hnew : Game_new args = Ok game) by reflexivity.
  split; [exact Hfields |]. split; [exact Hnew |].
  destruct (@lichess_rated_is_truthiness demo_runtime "alice" d
              (VStr "1. e4 e5") args game Hfields Hnew) as (_ & _ & Hstr & _).
  apply (Hstr "yes"); [reflexivity | done].
Defined.

(** ** Records and items that are skipped *)

Section skipping.
Context `{PyRuntime}.
Variable net : upstream.

Lemma chesscom_games_skip_no_pgn lim user d games total st :
  truthy (default VNone (dict_lookup d "pgn")) = false ->
  chesscom_games lim user (VDict d :: games) total st =
    chesscom_games lim user games total st.
Proof.
  intros Hpgn. simpl. case_bool_decide as Hlim.
  - destruct games; simpl; [done |]. by rewrite bool_decide_eq_true_2.
  - munfold. simpl. by rewrite Hpgn.
Qed.

Lemma chesscom_games_app lim user pre games games' :
  (forall total st, chesscom_games lim user games total st =
                    chesscom_games lim user games' total st) ->
  forall total st, chesscom_games lim user (pre ++ games) total st =
                   chesscom_games lim user (pre ++ games') total st.
Proof.
  intros Heq. induction pre as [|g pre IH]; intros total st; simpl; [apply Heq |].
  munfold. repeat (case_match; simplify_eq; try done); by rewrite <- ?IH.
Qed.

Lemma lichess_lines_skip_no_pgn user line d lines total st :
  json_loads line = Some (VDict d) ->
  truthy (default VNone (dict_lookup d "pgn")) = false ->
  truthy (default VNone (dict_lookup d "pgnStr")) = false ->
  lichess_lines user (line :: lines) total st = lichess_lines user lines total st.
Proof.
  intros Hline Hpgn Hstr. simpl. case_bool_decide; [done |].
  rewrite Hline. unfold lichess_pgn. munfold. simpl. by rewrite Hpgn, Hstr.
Qed.

Lemma lichess_lines_app user pre lines lines' :
  (forall total st, lichess_lines user lines total st =
                    lichess_lines user lines' total st) ->
  forall total st, lichess_lines user (pre ++ lines) total st =
                   lichess_lines user (pre ++ lines') total st.
Proof.
  intros Heq. induction pre as [|l pre IH]; intros total st; simpl; [apply Heq |].
  munfold. repeat (case_match; simplify_eq; try done); by rewrite <- ?IH.
Qed.

(** C6: a game record without PGN text (the field missing, null or empty;
    for lichess both [pgn] and its fallback [pgnStr]) is passed over by both
    imports whatever its other fields hold: the loop over a list of games
    ends in the same store and with the same count as on the list without
    that record, and on the record alone nothing is stored or counted. *)
Theorem no_pgn_never_persisted (lim : Z) (user : string)
    (d : list (string * val)) (line : string) (total : Z) (st : state) :
  truthy (default VNone (dict_lookup d "pgn")) = false ->
  (forall pre rest,
     chesscom_games lim user (pre ++ VDict d :: rest) total st =
       chesscom_games lim user (pre ++ rest) total st) /\
  chesscom_games lim user [VDict d] total st = (Ok total, st) /\
  (json_loads line = Some (VDict d) ->
   truthy (default VNone (dict_lookup d "pgnStr")) = false ->
   (forall pre rest,
      lichess_lines user (pre ++ line :: rest) total st =
        lichess_lines user (pre ++ rest) total st) /\
   lichess_lines user [line] total st = (Ok total, st)).
Proof.
  intros Hpgn. split; [|split].
  - intros pre rest. apply chesscom_games_app.
    intros t s. by apply chesscom_games_skip_no_pgn.
  - by rewrite chesscom_games_skip_no_pgn.
  - intros Hline Hstr. split.
    + intros pre rest. apply lichess_lines_app.
      intros t s. by apply lichess_lines_skip_no_pgn with d.
    + by rewrite lichess_lines_skip_no_pgn with (d := d).
Qed.

(** One turn of the outer loop on a string URL, after its fetch. *)
Lemma chesscom_archives_fetch lim user url urls total st :
  chesscom_archives net lim user (VStr url :: urls) total st =
    match net (archive_request url) with
    | Some gr =>
        (if bool_decide (status_code gr ≠ 200)
         then chesscom_archives net lim user urls total
         else
           data ← lift (resp_json gr);
           games ← lift (py_get data "games" (VList []));
           items ← lift (py_iter games);
           total' ← chesscom_games lim user items total;
           if bool_decide (lim <= total') then mret total'
           else chesscom_archives net lim user urls total')
          (log_request (archive_request url) st)
    | None => (Raise RequestException, log_request (archive_request url) st)
    end.
Proof.
  apply (requests_get_bind net (archive_request url)).
Qed.

(** One archive whose fetch is answered with a non-200 status. *)
Lemma chesscom_archives_skip_failed lim user url urls total st r :
  net (archive_request url) = Some r -> status_code r <> 200 ->
  chesscom_archives net lim user (VStr url :: urls) total st =
    chesscom_archives net lim user urls total (log_request (archive_request url) st).
Proof.
  intros Hnet Hst. rewrite chesscom_archives_fetch, Hnet.
  by rewrite bool_decide_eq_true_2.
Qed.

Lemma lichess_lines_skip_bad user line lines total st :
  line = "" \/ json_loads line = None ->
  lichess_lines user (line :: lines) total st = lichess_lines user lines total st.
Proof.
  intros Hbad. simpl. case_bool_decide; [done |].
  destruct Hbad as [? | ->]; done.
Qed.

(** C7: an archive whose fetch gets a non-200 answer adds no record and no
    count, and the chess.com loop goes on with the archives after it; a
    lichess line that is blank or does not decode is passed over and the
    lines after it are processed.  Neither aborts the import: when every
    archive fetch fails, or every line is blank or undecodable, the loop
    still ends with its count. *)
Theorem item_failures_are_skipped (lim : Z) (user : string) (total : Z)
    (st : state) :
  (forall url urls r,
     net (archive_request url) = Some r -> status_code r <> 200 ->
     chesscom_archives net lim user (VStr url :: urls) total st =
       chesscom_archives net lim user urls total
         (log_request (archive_request url) st)) /\
  (forall line lines,
     line = "" \/ json_loads line = None ->
     lichess_lines user (line :: lines) total st =
       lichess_lines user lines total st) /\
  (forall urls,
     Forall (fun url => exists r, net (archive_request url) = Some r /\
                                  status_code r <> 200) urls ->
     let run := chesscom_archives net lim user (VStr <$> urls) total st in
     run.1 = Ok total /\ st_db run.2 = st_db st /\
     st_log run.2 = st_log st ++ (archive_request <$> urls)) /\
  (forall lines,
     Forall (fun line => line = "" \/ json_loads line = None) lines ->
     lichess_lines user lines total st = (Ok total, st)).
Proof.
  split; [|split; [|split]].
  - intros url urls r. apply chesscom_archives_skip_failed.
  - intros line lines. apply lichess_lines_skip_bad.
  - intros urls Hall. cbv zeta. revert st.
    induction Hall as [|url urls (r & Hnet & Hst) _ IH]; intros st.
    + simpl. by rewrite app_nil_r.
    + rewrite fmap_cons, chesscom_archives_skip_failed with (r := r) by done.
      destruct (IH (log_request (archive_request url) st)) as (H1 & H2 & H3).
      rewrite H1, H2, H3. simpl. by rewrite <- app_assoc.
  - intros lines Hall. induction Hall as [|line lines Hbad _ IH]; [done |].
    by rewrite lichess_lines_skip_bad.
Qed.
End skipping.

Lemma no_pgn_never_persisted_witness :
  let d := [("rated", VBool true)] in
  truthy (default VNone (dict_lookup d "pgn")) = false /\
  @chesscom_games demo_runtime 50 "alice" [VDict d] 0 empty_state =
    (Ok 0, empty_state) /\
  @lichess_lines demo_runtime "alice" ["{no-pgn}"] 0 empty_state =
    (Ok 0, empty_state).
Proof.
  intros d.
  assert (Hpgn : truthy (default VNone (dict_lookup d "pgn")) = false)
    by reflexivity.
  destruct (@no_pgn_never_persisted demo_runtime 50 "alice" d "{no-pgn}" 0
              empty_state Hpgn) as (_ & Hchess & Hlichess).
  split; [exact Hpgn |]. split; [exact Hchess |].
  apply Hlichess; reflexivity.
Defined.

Lemma item_failures_are_skipped_witness :
  let net := chesscom_net "alice" [] in
  let run := @chesscom_archives demo_runtime net 50 "alice"
               [VStr jan_url; VStr feb_url] 0 empty_state in
  Forall (fun url => exists r, net (archive_request url) = Some r /\
                               status_code r <> 200) [jan_url; feb_url] /\
  Forall (fun line => line = "" \/ demo_loads line = None) [""; "{"] /\
  run.1 = Ok 0 /\ st_db run.2 = ∅ /\
  @lichess_lines demo_runtime "alice" [""; "{"] 0 empty_state =
    (Ok 0, empty_state).
Proof.
  intros net run.
  assert (Hurls : Forall (fun url => exists r,
                    net (archive_request url) = Some r /\ status_code r <> 200)
                    [jan_url; feb_url]).
  { constructor; [eexists; split; [reflexivity | done] |].
    constructor; [eexists; split; [reflexivity | done] |]. constructor. }
  assert (Hlines : Forall (fun line => line = "" \/ demo_loads line = None)
                     [""; "{"]).
  { constructor; [by left |]. constructor; [by right |]. constructor. }
  destruct (@item_failures_are_skipped demo_runtime net 50 "alice" 0
              empty_state) as (_ & _ & Harch & Hlich).
  split; [exact Hurls |]. split; [exact Hlines |].
  destruct (Harch _ Hurls) as (Hres & Hdb & _).
  split; [exact Hres |]. split; [exact Hdb |].
  exact (Hlich _ Hlines).
Defined.

(** ** The insertion cap of the chess.com import *)

Lemma added_refl st : added st st = 0.
Proof. unfold added. lia. Qed.

Lemma added_log_request rq st st' :
  added (log_request rq st) st' = added st st'.
Proof. done. Qed.

Section cap.
Context `{PyRuntime}.
Variable net : upstream.

Lemma db_create_added name g st :
  (db_create name g st).1 = Ok tt /\
  forall st', added (db_create "game" g st).2 st' = added st st' - 1.
Proof.
  split; [done |]. intros st'. unfold added. simpl.
  rewrite collection_create, bool_decide_eq_true_2 by done.
  rewrite length_app. simpl. lia.
Qed.

(** The inner loop counts what it stores and never passes the cap. *)
Lemma chesscom_games_count lim user games total st r st' :
  chesscom_games lim user games total st = (r, st') ->
  0 <= added st st' /\ total + added st st' <= Z.max lim total /\
  forall t, r = Ok t -> t = total + added st st'.
Proof.
  revert total st. induction games as [|g games IH]; intros total st Hrun.
  { injection Hrun as <- <-. rewrite added_refl.
    split; [lia |]. split; [lia |]. intros t [= <-]. lia. }
  simpl in Hrun. munfold. unfold db_found, db_create in Hrun. simpl in Hrun.
  repeat (case_match; simplify_eq);
    try (by eapply IH);
    try (rewrite !added_refl; split_and?; [lia.. | first [done | intros ? [= <-]; lia]]).
  all: match goal with
       | Hlim : bool_decide (_ <= _) = false,
         Hrec : chesscom_games _ _ _ _ _ = (_, ?s') |- context [added ?s ?s'] =>
           apply bool_decide_eq_false in Hlim;
           apply IH in Hrec as (Hpos & Hcap & Hres);
           match type of Hpos with context [create_document _ ?g _ _] =>
             pose proof (proj2 (db_create_added "game" g s) s') as Hadd
           end;
           unfold db_create in Hadd; simpl in Hadd; rewrite Hadd in *
       end.
  all: split; [lia |]; split; [lia |]; intros t Ht; apply Hres in Ht; lia.
Qed.

(** So does the outer loop. *)
Lemma chesscom_archives_count lim user urls total st r st' :
  chesscom_archives net lim user urls total st = (r, st') ->
  0 <= added st st' /\ total + added st st' <= Z.max lim total /\
  forall t, r = Ok t -> t = total + added st st'.
Proof.
  revert total st. induction urls as [|url urls IH]; intros total st Hrun.
  { injection Hrun as <- <-. rewrite added_refl.
    split; [lia |]. split; [lia |]. intros t [= <-]. lia. }
  destruct url as [| | | |url| | |];
    try (injection Hrun as <- <-; rewrite added_refl;
         split; [lia |]; split; [lia | done]).
  rewrite chesscom_archives_fetch in Hrun.
  set (st1 := log_request (archive_request url) st) in *.
  assert (Hst1 : forall s, added st s = added st1 s) by done.
  destruct (net _) as [gr|].
  2: { injection Hrun as <- <-. rewrite Hst1, added_refl.
       split; [lia |]. split; [lia | done]. }
  case_bool_decide.
  { rewrite Hst1. by eapply IH. }
  munfold.
  destruct (resp_json gr) as [data|e]; simpl in Hrun.
  2: { injection Hrun as <- <-. rewrite Hst1, added_refl.
       split; [lia |]. split; [lia | done]. }
  destruct (py_get data "games" (VList [])) as [games|e]; simpl in Hrun.
  2: { injection Hrun as <- <-. rewrite Hst1, added_refl.
       split; [lia |]. split; [lia | done]. }
  destruct (py_iter games) as [items|e]; simpl in Hrun.
  2: { injection Hrun as <- <-. rewrite Hst1, added_refl.
       split; [lia |]. split; [lia | done]. }
  destruct (chesscom_games lim user items total st1) as [[total'|e] st2] eqn:Hgames.
  2: { injection Hrun as <- <-. rewrite Hst1.
       apply chesscom_games_count in Hgames as (? & ? & _).
       split; [lia |]. split; [lia | done]. }
  apply chesscom_games_count in Hgames as (Hpos & Hcap & Hres).
  specialize (Hres total' eq_refl).
  case_bool_decide as Hlim.
  { injection Hrun as <- <-. rewrite Hst1.
    split; [lia |]. split; [lia |]. intros t [= <-]. lia. }
  apply IH in Hrun as (Hpos' & Hcap' & Hres').
  assert (Hsum : added st st' = added st1 st2 + added st2 st')
    by (unfold added; simpl; lia).
  split; [lia |]. split; [lia |]. intros t Ht. apply Hres' in Ht. lia.
Qed.
End cap.

Section cap_stops.
Context `{PyRuntime}.
Variable net : upstream.

(** Once the count has reached the cap, the inner loop leaves the games
    that follow untouched. *)
Lemma chesscom_games_stop lim user pre rest total st t st' :
  chesscom_games lim user pre total st = (Ok t, st') -> lim <= t ->
  chesscom_games lim user (pre ++ rest) total st = (Ok t, st').
Proof.
  revert total st. induction pre as [|g pre IH]; intros total st Hrun Hlim.
  { injection Hrun as <- <-. destruct rest; simpl; [done |].
    by rewrite bool_decide_eq_true_2. }
  simpl in *. munfold.
  repeat (case_match; simplify_eq; try done); by apply IH.
Qed.

(** Once the count has reached the cap, the outer loop fetches none of the
    archives that follow. *)
Lemma chesscom_archives_stop lim user pre rest total st t st' :
  total < lim ->
  chesscom_archives net lim user pre total st = (Ok t, st') -> lim <= t ->
  chesscom_archives net lim user (pre ++ rest) total st = (Ok t, st').
Proof.
  revert total st. induction pre as [|url pre IH]; intros total st Hlt Hrun Hlim.
  { injection Hrun as <- <-. lia. }
  destruct url as [| | | |url| | |]; try done.
  rewrite <- app_comm_cons, chesscom_archives_fetch in *.
  destruct (net _) as [gr|]; [|done].
  case_bool_decide; [by apply IH |].
  munfold.
  destruct (resp_json gr) as [data|e]; simpl in *; [|done].
  destruct (py_get data "games" (VList [])) as [games|e]; simpl in *; [|done].
  destruct (py_iter games) as [items|e]; simpl in *; [|done].
  destruct (chesscom_games lim user items total _) as [[total'|e] st2]; [|done].
  case_bool_decide as Hreached; [done |].
  apply IH; [lia | done | done].
Qed.

Lemma import_chesscom_count req st r st' :
  import_chesscom net req st = (r, st') ->
  0 <= added st st' /\ added st st' <= Z.max (int_or (limit req) 50) 0 /\
  forall resp, r = Ok resp -> r_inserted resp = added st st'.
Proof.
  unfold import_chesscom. rewrite requests_get_bind.
  set (rq := archives_request _). set (st1 := log_request rq st).
  assert (Hst1 : forall s, added st s = added st1 s) by done.
  assert (Hnone : forall e, (Raise e, st1) = (r, st') ->
    0 <= added st st' /\ added st st' <= Z.max (int_or (limit req) 50) 0 /\
    forall resp, r = Ok resp -> r_inserted resp = added st st').
  { intros e [= <- <-]. rewrite Hst1, added_refl. split; [lia |]. split; [lia | done]. }
  destruct (net rq) as [resp0|]; [|apply Hnone].
  case_bool_decide; [apply Hnone |]. munfold.
  destruct (resp_json resp0) as [body|e]; simpl; [|apply Hnone].
  destruct (py_get body "archives" (VList [])) as [archives|e]; simpl; [|apply Hnone].
  destruct (reversed_tail _ archives) as [urls|e]; simpl; [|apply Hnone].
  destruct (chesscom_archives net _ _ urls 0 st1) as [[total|e] st2] eqn:Harch;
    intros [= <- <-]; apply chesscom_archives_count in Harch as (Hpos & Hcap & Hres);
    rewrite Hst1.
  - specialize (Hres total eq_refl). split; [lia |]. split; [lia |].
    intros resp [= <-]. simpl. lia.
  - split; [lia |]. split; [lia | done].
Qed.
End cap_stops.

(** C3: a chess.com import with limit [L] stores at most [L] games and
    returns that number, never more than [L]; and the cap is enforced at
    both loop levels: once the inner loop has brought the count to [L] it
    leaves the rest of the archive alone, and once an archive has been
    processed with the count at [L] the outer loop fetches no later one. *)
Theorem import_chesscom_respects_limit `{PyRuntime} (net : upstream)
    (req : ImportRequest) (L : Z) (st : state) :
  limit req = Some L -> 1 <= L ->
  let run := import_chesscom net req st in
  (added st run.2 <= L /\
   forall resp, run.1 = Ok resp ->
     r_inserted resp = added st run.2 /\ r_inserted resp <= L) /\
  (forall user pre rest total s t s',
     chesscom_games L user pre total s = (Ok t, s') -> L <= t ->
     chesscom_games L user (pre ++ rest) total s = (Ok t, s')) /\
  (forall user pre rest total s t s',
     total < L ->
     chesscom_archives net L user pre total s = (Ok t, s') -> L <= t ->
     chesscom_archives net L user (pre ++ rest) total s = (Ok t, s')).
Proof.
  intros HL Hpos run.
  destruct run as [r st'] eqn:Hrun. subst run.
  apply import_chesscom_count in Hrun as (Hge & Hcap & Hres).
  rewrite HL in Hcap. simpl in Hcap.
  assert (HL0 : (L =? 0) = false) by lia. rewrite HL0 in Hcap.
  split; [|split].
  - simpl. split; [lia |]. intros resp Hresp. apply Hres in Hresp. lia.
  - intros user pre rest total s t s'. apply chesscom_games_stop.
  - intros user pre rest total s t s'. apply chesscom_archives_stop.
Qed.

Lemma import_chesscom_respects_limit_witness :
  let net := chesscom_net "alice" [(jan_url, games_body [game_a; game_b])] in
  let req := import_request "alice" (Some 1) (Some 1) in
  let run := @import_chesscom demo_runtime net req empty_state in
  limit req = Some 1 /\ 1 <= 1 /\ added empty_state run.2 <= 1.
Proof.
  intros net req run.
  assert (Hlim : limit req = Some 1) by reflexivity.
  assert (Hpos : 1 <= 1) by lia.
  split; [exact Hlim |]. split; [exact Hpos |].
  apply (@import_chesscom_respects_limit demo_runtime net req 1 empty_state
           Hlim Hpos).
Defined.

(** ** Which archives the chess.com import fetches *)

Global Instance log_same_preorder : PreOrder log_same.
Proof.
  split; [by intros st |]. intros s1 s2 s3. unfold log_same. congruence.
Qed.

Lemma db_found_log_same name key : steps log_same (db_found name key).
Proof. by intros st. Qed.

Lemma db_create_log_same `{PyRuntime} name g : steps log_same (db_create name g).
Proof. by intros st. Qed.

#[export] Hint Resolve db_found_log_same db_create_log_same : handlers.

(** [l[-m:]] keeps the last [m] entries when there are that many. *)
Lemma slice_from_neg_last {A} (m : Z) (l : list A) :
  1 <= m <= Z.of_nat (length l) ->
  reverse (slice_from_neg m l) = take (Z.to_nat m) (reverse l).
Proof.
  intros Hm. unfold slice_from_neg.
  assert (Hneg : (- m <? 0) = true) by lia. rewrite Hneg.
  rewrite reverse_drop. f_equal. lia.
Qed.

Section window.
Context `{PyRuntime}.
Variable net : upstream.

Lemma chesscom_games_log_same lim user games total :
  steps log_same (chesscom_games lim user games total).
Proof.
  revert total. induction games as [|g games IH]; intros total; simpl;
    handler_steps.
Qed.

(** The outer loop fetches the archives in list order and stops at a
    prefix of the list; it fetches them all when it ends below the cap. *)
Lemma chesscom_archives_fetched lim user urls total st r st' :
  chesscom_archives net lim user (VStr <$> urls) total st = (r, st') ->
  exists fetched,
    fetched `prefix_of` urls /\
    st_log st' = st_log st ++ (archive_request <$> fetched) /\
    (forall t, r = Ok t -> t < lim -> fetched = urls).
Proof.
  revert total st. induction urls as [|url urls IH]; intros total st Hrun.
  { injection Hrun as <- <-. exists []. by rewrite app_nil_r. }
  rewrite fmap_cons, chesscom_archives_fetch in Hrun.
  set (st1 := log_request (archive_request url) st) in *.
  assert (Hone : forall e, (Raise e, st1) = (r, st') ->
    exists fetched, fetched `prefix_of` url :: urls /\
      st_log st' = st_log st ++ (archive_request <$> fetched) /\
      (forall t, r = Ok t -> t < lim -> fetched = url :: urls)).
  { intros e [= <- <-]. exists [url].
    split; [apply prefix_cons, prefix_nil |]. by split. }
  assert (Hmore : forall total1 s1, st_log s1 = st_log st1 ->
    chesscom_archives net lim user (VStr <$> urls) total1 s1 = (r, st') ->
    exists fetched, fetched `prefix_of` url :: urls /\
      st_log st' = st_log st ++ (archive_request <$> fetched) /\
      (forall t, r = Ok t -> t < lim -> fetched = url :: urls)).
  { intros total1 s1 Hs1 Hrest.
    apply IH in Hrest as (fetched & Hpre & Hlog & Hall).
    exists (url :: fetched). split; [by apply prefix_cons |]. split.
    - rewrite Hlog, Hs1. simpl. by rewrite <- app_assoc.
    - intros t Ht Hlt. f_equal. by eapply Hall. }
  destruct (net _) as [gr|]; [|by eapply Hone].
  case_bool_decide; [by eapply Hmore |]. munfold.
  destruct (resp_json gr) as [data|e]; simpl in Hrun; [|by eapply Hone].
  destruct (py_get data "games" (VList [])) as [games|e]; simpl in Hrun;
    [|by eapply Hone].
  destruct (py_iter games) as [items|e]; simpl in Hrun; [|by eapply Hone].
  pose proof (chesscom_games_log_same lim user items total st1) as Hsame.
  destruct (chesscom_games lim user items total st1) as [[total'|e] st2].
  2: { injection Hrun as <- <-. exists [url].
       split; [apply prefix_cons, prefix_nil |]. split; [|done].
       unfold log_same in Hsame. simpl in Hsame. by rewrite <- Hsame. }
  unfold log_same in Hsame. simpl in Hsame.
  case_bool_decide as Hreached; [|by eapply Hmore].
  injection Hrun as <- <-. exists [url].
  split; [apply prefix_cons, prefix_nil |]. split; [by rewrite <- Hsame |].
  intros t [= <-] Hlt. lia.
Qed.
End window.

(** C5 (as stated, refuted): with two archives, a two-month window and
    limit 1, the newest archive already yields the one game allowed and the
    older archive of the window is never fetched. *)
Lemma month_window_not_always_exhausted :
  ~ (forall (net : upstream) (req : ImportRequest) (st : state)
       (urls : list string) (body : list (string * val)) (r0 : response)
       (M : Z),
       net (archives_request (@chesscom_username demo_runtime req))
         = Some r0 ->
       status_code r0 = 200 -> json r0 = Some (VDict body) ->
       dict_lookup body "archives" = Some (VList (VStr <$> urls)) ->
       M = int_or (months req) 1 -> 1 <= M <= Z.of_nat (length urls) ->
       st_log (@import_chesscom demo_runtime net req st).2 =
         st_log st ++ archives_request (@chesscom_username demo_runtime req) ::
           (archive_request <$> take (Z.to_nat M) (reverse urls))).
Proof.
  intros Hclaim.
  specialize (Hclaim
    (chesscom_net "alice" [(jan_url, games_body [game_b]);
                           (feb_url, games_body [game_a])])
    (import_request "alice" (Some 2) (Some 1)) empty_state [jan_url; feb_url]
    [("archives", VList [VStr jan_url; VStr feb_url])]
    {| status_code := 200;
       json := Some (VDict [("archives", VList [VStr jan_url; VStr feb_url])]);
       iter_lines := [] |} 2
    eq_refl eq_refl eq_refl eq_refl eq_refl ltac:(simpl; lia)).
  vm_compute in Hclaim. discriminate Hclaim.
Qed.

(** C5 (amended): for an archive index of [N] entries and a month window
    [M] with [1 <= M <= N], the import walks the [M] last-listed archives
    newest first and fetches them in that order until the inserted count
    reaches the limit or the request fails: what it fetches is a prefix of
    that newest-first list, and the whole list when the import returns a
    count below the limit. *)
Theorem import_chesscom_archive_window `{PyRuntime} (net : upstream)
    (req : ImportRequest) (st : state) (urls : list string)
    (body : list (string * val)) (r0 : response) (M : Z) :
  net (archives_request (chesscom_username req)) = Some r0 ->
  status_code r0 = 200 -> json r0 = Some (VDict body) ->
  dict_lookup body "archives" = Some (VList (VStr <$> urls)) ->
  M = int_or (months req) 1 -> 1 <= M <= Z.of_nat (length urls) ->
  let window := take (Z.to_nat M) (reverse urls) in
  let run := import_chesscom net req st in
  length window = Z.to_nat M /\
  exists fetched,
    fetched `prefix_of` window /\
    st_log run.2 = st_log st ++ archives_request (chesscom_username req) ::
                     (archive_request <$> fetched) /\
    (forall resp, run.1 = Ok resp ->
       r_inserted resp < int_or (limit req) 50 -> fetched = window).
Proof.
  intros Hnet Hstatus Hjson Harch HM Hrange window run.
  split. { subst window. rewrite length_take, length_reverse. lia. }
  subst run. unfold import_chesscom. rewrite requests_get_bind, Hnet.
  rewrite bool_decide_eq_false_2 by (intros Hne; by apply Hne).
  munfold. unfold resp_json. rewrite Hjson. simpl. rewrite Harch. simpl.
  rewrite <- HM, slice_from_neg_last by (by rewrite length_fmap).
  rewrite <- fmap_reverse, <- fmap_take. fold window.
  destruct (chesscom_archives net _ _ (VStr <$> window) 0 _)
    as [[total|e] st'] eqn:Hloop;
    apply chesscom_archives_fetched in Hloop as (fetched & Hpre & Hlog & Hall);
    exists fetched; (split; [exact Hpre |]); simpl; rewrite Hlog; simpl;
    (split; [by rewrite <- app_assoc |]).
  - intros resp [= <-]. simpl. by apply Hall.
  - done.
Qed.

Lemma import_chesscom_archive_window_witness :
  let net := chesscom_net "alice" [(jan_url, games_body [game_b]);
                                    (feb_url, games_body [game_a])] in
  let req := import_request "alice" (Some 2) None in
  let body := [("archives", VList [VStr jan_url; VStr feb_url])] in
  let r0 := {| status_code := 200; json := Some (VDict body);
               iter_lines := [] |} in
  net (archives_request (@chesscom_username demo_runtime req)) = Some r0 /\
  status_code r0 = 200 /\ json r0 = Some (VDict body) /\
  dict_lookup body "archives" = Some (VList (VStr <$> [jan_url; feb_url])) /\
  2 = int_or (months req) 1 /\
  1 <= 2 <= Z.of_nat (length [jan_url; feb_url]) /\
  length (take (Z.to_nat 2) (reverse [jan_url; feb_url])) = Z.to_nat 2.
Proof.
  intros net req body r0.
  assert (H1 : net (archives_request (@chesscom_username demo_runtime req))
               = Some r0) by reflexivity.
  assert (H2 : status_code r0 = 200) by reflexivity.
  assert (H3 : json r0 = Some (VDict body)) by reflexivity.
  assert (H4 : dict_lookup body "archives" =
               Some (VList (VStr <$> [jan_url; feb_url]))) by reflexivity.
  assert (H5 : 2 = int_or (months req) 1) by reflexivity.
  assert (H6 : 1 <= 2 <= Z.of_nat (length [jan_url; feb_url])) by (simpl; lia).
  repeat (split; [assumption |]).
  apply (@import_chesscom_archive_window demo_runtime net req empty_state
           [jan_url; feb_url] body r0 2 H1 H2 H3 H4 H5 H6).
Defined.

(** ** The store and the de-dup lookup *)

Lemma val_eqb_refl (v : val) : val_eqb v v = true.
Proof. by apply val_eqb_eq. Qed.

Lemma doc_matches_spec (filt d : doc) :
  doc_matches filt d = true <-> filt ⊆ d.
Proof.
  unfold doc_matches. rewrite bool_decide_eq_true, map_subseteq_spec.
  unfold map_Forall. split; intros Hall k v Hk; specialize (Hall k v Hk).
  - destruct (d !! k) as [v'|]; simpl in Hall; [|done].
    apply val_eqb_eq in Hall. by subst.
  - rewrite Hall. simpl. apply val_eqb_refl.
Qed.

Lemma dedup_key_lookup (s : Source) (p : val) (d : doc) :
  doc_matches (dedup_key s p) d = true <->
  d !! "source" = Some (VStr (source_name s)) /\ d !! "pgn" = Some p.
Proof.
  rewrite doc_matches_spec, map_subseteq_spec. unfold dedup_key. split.
  - intros Hsub. split; apply Hsub; by simplify_map_eq.
  - intros [Hs Hp] k v Hk.
    destruct (decide (k = "pgn")) as [->|Hne1]; [by simplify_map_eq |].
    rewrite lookup_insert_ne in Hk by done.
    destruct (decide (k = "source")) as [->|Hne2]; [by simplify_map_eq |].
    by rewrite lookup_singleton_ne in Hk.
Qed.

Global Instance has_key_dec s p l : Decision (has_key s p l).
Proof. unfold has_key. apply _. Defined.

Lemma has_key_mono s p (l1 l2 : list doc) :
  l1 ⊆ l2 -> has_key s p l1 -> has_key s p l2.
Proof.
  unfold has_key. rewrite !Exists_exists. intros Hsub (d & Hd & Hm).
  exists d. split; [by apply Hsub | done].
Qed.

(** The lookup of the de-dup key answers whether a stored game carries it. *)
Lemma found_dedup (s : Source) (p : val) (st : state) :
  match find_one "game" (dedup_key s p) (st_db st) with
  | Some d => negb (bool_decide (d = ∅))
  | None => false
  end = bool_decide (has_key s p (docs st)).
Proof.
  unfold find_one, docs, has_key.
  set (P := fun d : doc => doc_matches (dedup_key s p) d = true).
  destruct (head (filter P _)) as [d|] eqn:Hhead.
  - apply head_Some_elem_of, list_elem_of_filter in Hhead as [HP Hin].
    rewrite (bool_decide_eq_true_2 (Exists P _)) by (apply Exists_exists; eauto).
    rewrite bool_decide_eq_false_2; [done |].
    intros ->. apply dedup_key_lookup in HP as [HP _]. by rewrite lookup_empty in HP.
  - apply head_None in Hhead. symmetry. apply bool_decide_eq_false_2.
    rewrite Exists_exists. intros (d & Hin & HP).
    by eapply filter_nil_not_elem_of.
Qed.

Lemma db_found_dedup (s : Source) (p : val) (st : state) :
  db_found "game" (dedup_key s p) st =
    (Ok (bool_decide (has_key s p (docs st))), st).
Proof. unfold db_found. by rewrite found_dedup. Qed.

(** A game that went through validation is stored under the key it was
    looked up with. *)
Lemma created_doc_has_key `{PyRuntime} (args : GameArgs) (game : Game)
    (t : val) :
  Game_new args = Ok game ->
  doc_matches (dedup_key (a_source args) (a_pgn args))
    (<["created_at" := t]> (game_dict game)) = true.
Proof.
  intros Hnew. unfold Game_new in Hnew.
  apply bind_Ok_inv in Hnew as (w & _ & Hnew).
  apply bind_Ok_inv in Hnew as (b & _ & Hnew).
  apply bind_Ok_inv in Hnew as (p & Hp & Hnew).
  repeat (apply bind_Ok_inv in Hnew as (? & _ & Hnew)).
  injection Hnew as <-.
  destruct (a_pgn args) as [| | | |s| | |]; try done. injection Hp as <-.
  apply dedup_key_lookup. simpl. by split.
Qed.

Lemma docs_create `{PyRuntime} (g : Game) (st : state) :
  docs (db_create "game" g st).2 =
    docs st ++ [<["created_at" := VDatetime (utcnow (st_clock st))]> (game_dict g)].
Proof.
  unfold docs. simpl. by rewrite collection_create, bool_decide_eq_true_2.
Qed.

Lemma store_grows_docs (st st' : state) :
  store_grows st st' -> docs st ⊆ docs st'.
Proof. intros Hgrow d Hd. eapply elem_of_prefix; [exact Hd | apply Hgrow]. Qed.

(** ** Running an import a second time *)

Section rerun.
Context `{PyRuntime}.
Variable net : upstream.

(** The inner loop of the chess.com import, run again on a store that
    holds what the first run left: when the first run did not stop at the
    cap, the second stores nothing. *)
Lemma chesscom_games_rerun lim user games total st r st1 :
  chesscom_games lim user games total st = (r, st1) ->
  (forall t, r = Ok t -> t < lim) ->
  forall total2 st2,
    total2 <= total -> docs st1 ⊆ docs st2 ->
    ((exists e, r = Raise e) -> docs st2 = docs st1) ->
    chesscom_games lim user games total2 st2 = (rerun_result r total2, st2).
Proof.
  revert total st. induction games as [|g games IH];
    intros total st Hrun Hbelow total2 st2 Hle Hsub Hsame.
  { by injection Hrun as <- <-. }
  pose proof (chesscom_games_store lim user games) as Hgrow.
  simpl in Hrun |- *. case_bool_decide as Hcap.
  { injection Hrun as <- <-. specialize (Hbelow total eq_refl). lia. }
  rewrite bool_decide_eq_false_2 by lia. munfold.
  destruct (py_get g "pgn" VNone) as [p|e]; simpl in *;
    [|by injection Hrun as <- <-].
  destruct (negb (truthy p)); [by eapply IH |].
  destruct (chesscom_fields user g p) as [args|e] eqn:Hargs; simpl in *;
    [|by injection Hrun as <- <-].
  assert (Hsrc : a_source args = chesscom /\ a_pgn args = p).
  { unfold chesscom_fields in Hargs.
    repeat (apply bind_Ok_inv in Hargs as (? & _ & Hargs)).
    by injection Hargs as <-. }
  destruct Hsrc as [Hsrc Hpgn].
  rewrite found_dedup in Hrun |- *.
  destruct (bool_decide (has_key chesscom p (docs st))) eqn:Hfound.
  { apply bool_decide_eq_true in Hfound.
    rewrite bool_decide_eq_true_2; [by eapply IH |].
    eapply has_key_mono; [|exact Hfound].
    etrans; [|exact Hsub]. apply store_grows_docs.
    specialize (Hgrow total st). by rewrite Hrun in Hgrow. }
  destruct (Game_new args) as [game|e] eqn:Hnew; simpl in *.
  2: { injection Hrun as <- <-. rewrite Hsame by eauto. by rewrite Hfound. }
  rewrite bool_decide_eq_true_2.
  { eapply IH; [exact Hrun | done | lia | done | done]. }
  eapply has_key_mono; [exact Hsub |].
  specialize (Hgrow (total + 1) (db_create "game" game st).2).
  simpl in Hgrow. rewrite Hrun in Hgrow. apply store_grows_docs in Hgrow.
  eapply has_key_mono; [exact Hgrow |].
  pose proof (docs_create game st) as Hdocs.
  unfold db_create in Hdocs. simpl in Hdocs. rewrite Hdocs.
  apply Exists_app. right. apply Exists_cons. left.
  rewrite <- Hsrc, <- Hpgn. by apply created_doc_has_key.
Qed.

(** The same for the loop over the lichess lines, which has no cap. *)
Lemma lichess_lines_rerun user lines total st r st1 :
  lichess_lines user lines total st = (r, st1) ->
  forall total2 st2,
    docs st1 ⊆ docs st2 ->
    ((exists e, r = Raise e) -> docs st2 = docs st1) ->
    lichess_lines user lines total2 st2 = (rerun_result r total2, st2).
Proof.
  revert total st. induction lines as [|line lines IH];
    intros total st Hrun total2 st2 Hsub Hsame.
  { by injection Hrun as <- <-. }
  pose proof (lichess_lines_store user lines) as Hgrow.
  simpl in Hrun |- *. case_bool_decide; [by eapply IH |].
  destruct (json_loads line) as [g|]; [|by eapply IH]. munfold.
  destruct (lichess_pgn g) as [p|e]; simpl in *;
    [|by injection Hrun as <- <-].
  destruct (negb (truthy p)); [by eapply IH |].
  destruct (lichess_fields user g p) as [args|e] eqn:Hargs; simpl in *;
    [|by injection Hrun as <- <-].
  assert (Hsrc : a_source args = lichess /\ a_pgn args = p).
  { unfold lichess_fields in Hargs.
    repeat (apply bind_Ok_inv in Hargs as (? & _ & Hargs)).
    by injection Hargs as <-. }
  destruct Hsrc as [Hsrc Hpgn].
  rewrite found_dedup in Hrun |- *.
  destruct (bool_decide (has_key lichess p (docs st))) eqn:Hfound.
  { apply bool_decide_eq_true in Hfound.
    rewrite bool_decide_eq_true_2; [by eapply IH |].
    eapply has_key_mono; [|exact Hfound].
    etrans; [|exact Hsub]. apply store_grows_docs.
    specialize (Hgrow total st). by rewrite Hrun in Hgrow. }
  destruct (Game_new args) as [game|e] eqn:Hnew; simpl in *.
  2: { injection Hrun as <- <-. rewrite Hsame by eauto. by rewrite Hfound. }
  rewrite bool_decide_eq_true_2.
  { eapply IH; [exact Hrun | done | done]. }
  eapply has_key_mono; [exact Hsub |].
  specialize (Hgrow (total + 1) (db_create "game" game st).2).
  simpl in Hgrow. rewrite Hrun in Hgrow. apply store_grows_docs in Hgrow.
  eapply has_key_mono; [exact Hgrow |].
  pose proof (docs_create game st) as Hdocs.
  unfold db_create in Hdocs. simpl in Hdocs. rewrite Hdocs.
  apply Exists_app. right. apply Exists_cons. left.
  rewrite <- Hsrc, <- Hpgn. by apply created_doc_has_key.
Qed.
End rerun.

Section rerun_import.
Context `{PyRuntime}.
Variable net : upstream.

(** The outer loop of the chess.com import, run again: it repeats the
    fetches and stores nothing. *)
Lemma chesscom_archives_rerun lim user urls total st r st1 :
  chesscom_archives net lim user urls total st = (r, st1) ->
  (forall t, r = Ok t -> t < lim) ->
  forall total2 st2,
    total2 <= total -> docs st1 ⊆ docs st2 ->
    ((exists e, r = Raise e) -> docs st2 = docs st1) ->
    exists st2',
      chesscom_archives net lim user urls total2 st2 =
        (rerun_result r total2, st2') /\
      st_db st2' = st_db st2.
Proof.
  revert total st. induction urls as [|url urls IH];
    intros total st Hrun Hbelow total2 st2 Hle Hsub Hsame.
  { injection Hrun as <- <-. by exists st2. }
  destruct url as [| | | |url| | |];
    try (injection Hrun as <- <-; by exists st2).
  rewrite chesscom_archives_fetch in Hrun |- *.
  set (st' := log_request (archive_request url) st) in *.
  set (st2' := log_request (archive_request url) st2) in *.
  assert (Hdb : st_db st2' = st_db st2) by done.
  assert (Hdocs : docs st2' = docs st2) by done.
  assert (Hnext : forall total1 s,
    chesscom_archives net lim user urls total1 s = (r, st1) ->
    total2 <= total1 ->
    exists s2, chesscom_archives net lim user urls total2 st2' =
                 (rerun_result r total2, s2) /\ st_db s2 = st_db st2).
  { intros total1 s Hrest Hle1.
    destruct (IH total1 s Hrest Hbelow total2 st2' Hle1) as (s2 & Hs2 & Hdb2);
      [by rewrite Hdocs | by rewrite Hdocs |]. exists s2. by rewrite Hdb2. }
  destruct (net _) as [gr|]; [|injection Hrun as <- <-; by exists st2'].
  case_bool_decide; [by eapply Hnext |]. munfold.
  destruct (resp_json gr) as [data|e]; simpl in *;
    [|injection Hrun as <- <-; by exists st2'].
  destruct (py_get data "games" (VList [])) as [games|e]; simpl in *;
    [|injection Hrun as <- <-; by exists st2'].
  destruct (py_iter games) as [items|e]; simpl in *;
    [|injection Hrun as <- <-; by exists st2'].
  destruct (chesscom_games lim user items total st') as [[total'|e] st_mid]
    eqn:Hgames.
  2: { injection Hrun as <- <-.
       rewrite (chesscom_games_rerun lim user items total st' (Raise e) st_mid)
         by (done || by rewrite Hdocs; auto).
       by exists st2'. }
  pose proof (chesscom_games_count _ _ _ _ _ _ _ Hgames) as (Hpos & _ & Hres).
  specialize (Hres total' eq_refl).
  case_bool_decide as Hreached.
  { injection Hrun as <- <-. specialize (Hbelow total' eq_refl). lia. }
  rewrite (chesscom_games_rerun lim user items total st' (Ok total') st_mid);
    [| done | intros t [= <-]; lia | done | | by intros [e He]].
  - simpl. rewrite bool_decide_eq_false_2 by lia.
    eapply Hnext; [exact Hrun | lia].
  - rewrite Hdocs. etrans; [|exact Hsub]. apply store_grows_docs.
    pose proof (chesscom_archives_store net lim user urls total' st_mid) as Hg.
    by rewrite Hrun in Hg.
Qed.

Lemma import_chesscom_rerun req st r st1 :
  import_chesscom net req st = (r, st1) ->
  (forall resp, r = Ok resp -> r_inserted resp < int_or (limit req) 50) ->
  exists r2 st2,
    import_chesscom net req st1 = (r2, st2) /\ st_db st2 = st_db st1 /\
    forall resp, r2 = Ok resp -> r_inserted resp = 0.
Proof.
  unfold import_chesscom. rewrite !requests_get_bind.
  set (rq := archives_request _).
  destruct (net rq) as [resp0|]; [|intros [= <- <-] _; by eexists _, _].
  case_bool_decide; [intros [= <- <-] _; by eexists _, _ |]. munfold.
  destruct (resp_json resp0) as [body|e]; simpl;
    [|intros [= <- <-] _; by eexists _, _].
  destruct (py_get body "archives" (VList [])) as [archives|e]; simpl;
    [|intros [= <- <-] _; by eexists _, _].
  destruct (reversed_tail _ archives) as [urls|e]; simpl;
    [|intros [= <- <-] _; by eexists _, _].
  destruct (chesscom_archives net _ _ urls 0 (log_request rq st))
    as [[total|e] s] eqn:Hloop; intros [= <- <-] Hbelow.
  - destruct (chesscom_archives_rerun _ _ _ _ _ _ _ Hloop) with
      (total2 := 0) (st2 := log_request rq s) as (s2 & -> & Hdb);
      [intros t [= <-]; by apply (Hbelow _ eq_refl) | lia | done
      | by intros [e He] |].
    simpl. eexists _, _. split; [done |]. split; [done |]. by intros resp [= <-].
  - destruct (chesscom_archives_rerun _ _ _ _ _ _ _ Hloop) with
      (total2 := 0) (st2 := log_request rq s) as (s2 & -> & Hdb);
      [done | lia | done | done |].
    simpl. eexists _, _. split; [done |]. by split.
Qed.

Lemma import_lichess_rerun req st r st1 :
  import_lichess net req st = (r, st1) ->
  exists r2 st2,
    import_lichess net req st1 = (r2, st2) /\ st_db st2 = st_db st1 /\
    forall resp, r2 = Ok resp -> r_inserted resp = 0.
Proof.
  unfold import_lichess.
  set (rq := lichess_request _ _). rewrite !requests_get_bind.
  destruct (net rq) as [resp0|]; [|intros [= <- <-]; by eexists _, _].
  case_bool_decide; [intros [= <- <-]; by eexists _, _ |]. munfold.
  destruct (lichess_lines _ (iter_lines resp0) 0 (log_request rq st))
    as [[total|e] s] eqn:Hloop; intros [= <- <-];
    rewrite (lichess_lines_rerun _ _ _ _ _ _ Hloop 0 (log_request rq s))
      by done; simpl; eexists _, _; (split; [done |]); split; try done.
  by intros resp [= <-].
Qed.
End rerun_import.

(** C4 (as stated, refuted): with limit 1 and an archive of two games, the
    first run stores the first game and stops at the cap; the second run
    passes over that game as a duplicate and stores the second one. *)
Lemma second_import_can_insert :
  ~ (forall (net : upstream) (req : ImportRequest) (st : state),
       valid_request req ->
       let run1 := @import_chesscom demo_runtime net req st in
       let run2 := @import_chesscom demo_runtime net req run1.2 in
       forall resp, run2.1 = Ok resp -> r_inserted resp = 0).
Proof.
  intros Hclaim.
  assert (Hvalid : valid_request (import_request "alice" (Some 1) (Some 1))).
  { split; intros ? [= <-]; lia. }
  specialize (Hclaim two_game_net _ empty_state Hvalid
                {| r_source := "chesscom"; r_username := "alice";
                   r_inserted := 1 |}).
  discriminate Hclaim. vm_compute. reflexivity.
Qed.

(** C4 (amended): a second run of the same lichess import, on the store
    the first run left and with the same upstream data, stores nothing and
    returns 0.  So does a second run of the same chess.com import when the
    first run ended below its limit (or ended in an exception); a first
    run that stopped at the limit leaves the games it did not reach to the
    second run. *)
Theorem second_import_inserts_nothing `{PyRuntime} (net : upstream)
    (req : ImportRequest) (st : state) :
  (let run1 := import_lichess net req st in
   let run2 := import_lichess net req run1.2 in
   st_db run2.2 = st_db run1.2 /\
   forall resp, run2.1 = Ok resp -> r_inserted resp = 0) /\
  (let run1 := import_chesscom net req st in
   let run2 := import_chesscom net req run1.2 in
   (forall resp, run1.1 = Ok resp ->
      r_inserted resp < int_or (limit req) 50) ->
   st_db run2.2 = st_db run1.2 /\
   forall resp, run2.1 = Ok resp -> r_inserted resp = 0).
Proof.
  split.
  - intros run1 run2. subst run1 run2.
    destruct (import_lichess net req st) as [r st1] eqn:Hrun. simpl.
    apply import_lichess_rerun in Hrun as (r2 & st2 & -> & Hdb & Hzero).
    by split.
  - intros run1 run2. subst run1 run2.
    destruct (import_chesscom net req st) as [r st1] eqn:Hrun. simpl.
    intros Hbelow.
    apply import_chesscom_rerun in Hrun as (r2 & st2 & -> & Hdb & Hzero);
      [by split | exact Hbelow].
Qed.

Lemma second_import_inserts_nothing_witness :
  let req := import_request "alice" (Some 1) (Some 5) in
  let run1 := @import_chesscom demo_runtime two_game_net req empty_state in
  let run2 := @import_chesscom demo_runtime two_game_net req run1.2 in
  (forall resp, run1.1 = Ok resp -> r_inserted resp < int_or (limit req) 50) /\
  length (docs run1.2) = 2%nat /\
  st_db run2.2 = st_db run1.2.
Proof.
  intros req run1 run2.
  assert (Hbelow : forall resp, run1.1 = Ok resp ->
                     r_inserted resp < int_or (limit req) 50).
  { intros resp. vm_compute. intros [= <-]. reflexivity. }
  split; [exact Hbelow |]. split; [reflexivity |].
  apply (proj2 (@second_import_inserts_nothing demo_runtime two_game_net req
                  empty_state) Hbelow).
Defined.

(** ** Listing the stored games *)

Section listing.
Context `{PyRuntime}.

Lemma iso_field_lookup (k k' : string) (d : doc) :
  k <> k' -> iso_field k d !! k' = d !! k'.
Proof.
  intros Hne. unfold iso_field.
  destruct (d !! k) as [[]|]; try done. by rewrite lookup_insert_ne.
Qed.

(** Serializing a document leaves its [source] and [username] alone. *)
Lemma serialize_doc_lookup (k : string) (d : doc) :
  k = "source" \/ k = "username" -> serialize_doc d !! k = d !! k.
Proof.
  intros Hk. unfold serialize_doc.
  rewrite !iso_field_lookup, lookup_insert_ne; [done | ..];
    intros <-; by destruct Hk.
Qed.

Lemma add_filter_lookup (k : string) (x : option string) (filt : doc) (s : string) :
  x = Some s -> s <> "" -> add_filter k x filt !! k = Some (VStr s).
Proof.
  intros -> Hs. unfold add_filter.
  rewrite bool_decide_eq_false_2 by done. by rewrite lookup_insert_eq.
Qed.

Lemma filter_all {A} (P : A -> Prop) `{!forall x, Decision (P x)} (l : list A) :
  (forall x, P x) -> filter P l = l.
Proof.
  intros HP. induction l as [|x l IH]; [done |].
  rewrite filter_cons_True by done. by rewrite IH.
Qed.

Lemma games_filter_empty (src user : option string) :
  src = None \/ src = Some "" -> user = None \/ user = Some "" ->
  games_filter src user = ∅.
Proof. by intros [-> | ->] [-> | ->]. Qed.

End listing.

(** C8 (as stated, refuted): a [source] parameter that is supplied but
    empty is dropped from the filter, so the listing returns games whose
    source is not the supplied value. *)
Lemma empty_filter_value_is_ignored :
  ~ (forall (src user : option string) (lim : Z) (st : state),
       1 <= lim <= 200 ->
       forall resp, (@list_games demo_runtime src user lim st).1 = Ok resp ->
       forall d, d ∈ items resp ->
         (forall s, src = Some s -> d !! "source" = Some (VStr s)) /\
         (forall u, user = Some u -> d !! "username" = Some (VStr u))).
Proof.
  intros Hclaim.
  pose proof (Hclaim (Some "") None 50 one_game_state ltac:(lia) _ eq_refl)
    as Hitems.
  remember (items _) as l eqn:Hl in Hitems. vm_compute in Hl.
  match type of Hl with _ = [?d] =>
    destruct (Hitems d) as [Hsrc _]; [rewrite Hl; apply list_elem_of_here |];
    specialize (Hsrc "" eq_refl); vm_compute in Hsrc; discriminate Hsrc
  end.
Qed.

(** C8 (amended): the listing filters on each of [source] and [username]
    that is supplied and not empty (an empty value counts as omitted):
    every returned item carries exactly the value of each such filter; with
    both omitted or empty the result is unfiltered; [count] is the number
    of returned items, and it is at most the limit [L] (1 to 200). *)
Theorem list_games_filters_and_caps `{PyRuntime} (src user : option string)
    (L : Z) (st : state) :
  1 <= L <= 200 ->
  exists resp,
    list_games src user L st = (Ok resp, st) /\
    (forall d, d ∈ items resp ->
       (forall s, src = Some s -> s <> "" -> d !! "source" = Some (VStr s)) /\
       (forall u, user = Some u -> u <> "" -> d !! "username" = Some (VStr u))) /\
    count resp = length (items resp) /\
    Z.of_nat (count resp) <= L /\
    ((src = None \/ src = Some "") -> (user = None \/ user = Some "") ->
     items resp = serialize_doc <$> take (Z.to_nat L) (docs st)).
Proof.
  intros HL. eexists. split; [reflexivity |]. simpl.
  split; [|split; [done |split]].
  - intros d Hd. apply list_elem_of_fmap in Hd as (d0 & -> & Hd0).
    apply subseteq_take, list_elem_of_filter in Hd0 as [Hmatch _].
    apply doc_matches_spec in Hmatch.
    rewrite map_subseteq_spec in Hmatch. split.
    + intros s -> Hs. rewrite serialize_doc_lookup by auto.
      apply Hmatch. unfold games_filter.
      assert (Hsrc : add_filter "source" (Some s) ∅ !! "source" = Some (VStr s))
        by by apply add_filter_lookup.
      destruct user as [u|]; [|done]. unfold add_filter at 1.
      case_bool_decide; [done |]. by rewrite lookup_insert_ne.
    + intros u -> Hu. rewrite serialize_doc_lookup by auto.
      apply Hmatch. by apply add_filter_lookup.
  - unfold get_documents. rewrite length_fmap, length_take. lia.
  - intros Hsrc Huser. unfold get_documents.
    rewrite games_filter_empty by done. f_equal. f_equal.
    apply filter_all. intros d. apply doc_matches_spec, map_empty_subseteq.
Qed.

Lemma list_games_filters_and_caps_witness :
  1 <= 10 <= 200 /\
  exists resp,
    @list_games demo_runtime (Some "chesscom") (Some "alice") 10
      one_game_state = (Ok resp, one_game_state) /\
    count resp = length (items resp) /\ Z.of_nat (count resp) <= 10.
Proof.
  assert (HL : 1 <= 10 <= 200) by lia.
  split; [exact HL |].
  destruct (@list_games_filters_and_caps demo_runtime (Some "chesscom")
              (Some "alice") 10 one_game_state HL)
    as (resp & Hrun & _ & Hcount & Hcap & _).
  exists resp. by split.
Defined.

(** ** The refuting runs, spelled out *)

(** Blank username, chess.com: one request for the empty name, count 0. *)
Example blank_username_chesscom_run :
  let run := @import_chesscom demo_runtime (chesscom_net "" [])
               (import_request "   " None None) empty_state in
  run.1 = Ok {| r_source := "chesscom"; r_username := ""; r_inserted := 0 |} /\
  st_log run.2 = [archives_request ""].
Proof. vm_compute. done. Qed.

(** Blank username, lichess: one request for the empty name, count 0. *)
Example blank_username_lichess_run :
  let run := @import_lichess demo_runtime (lichess_net [])
               (import_request "   " None None) empty_state in
  run.1 = Ok {| r_source := "lichess"; r_username := ""; r_inserted := 0 |} /\
  st_log run.2 = [lichess_request "" 50].
Proof. vm_compute. done. Qed.

(** Limit 1 on an archive of two games: each of two runs stores one. *)
Example capped_import_twice :
  let req := import_request "alice" (Some 1) (Some 1) in
  let run1 := @import_chesscom demo_runtime two_game_net req empty_state in
  let run2 := @import_chesscom demo_runtime two_game_net req run1.2 in
  run1.1 = Ok {| r_source := "chesscom"; r_username := "alice";
                 r_inserted := 1 |} /\
  run2.1 = Ok {| r_source := "chesscom"; r_username := "alice";
                 r_inserted := 1 |} /\
  length (docs run1.2) = 1%nat /\ length (docs run2.2) = 2%nat.
Proof. vm_compute. done. Qed.

(** Two-month window, limit 1: only the newest archive is fetched. *)
Example capped_import_fetches_newest_only :
  let net := chesscom_net "alice" [(jan_url, games_body [game_b]);
                                    (feb_url, games_body [game_a])] in
  let run := @import_chesscom demo_runtime net
               (import_request "alice" (Some 2) (Some 1)) empty_state in
  st_log run.2 = [archives_request "alice"; archive_request feb_url].
Proof. vm_compute. done. Qed.

(** An empty [source] parameter lists the chess.com game. *)
Example empty_source_lists_everything :
  match (@list_games demo_runtime (Some "") None 50 one_game_state).1 with
  | Ok resp => count resp = 1%nat /\
               (fun d : doc => d !! "source") <$> items resp =
                 [Some (VStr "chesscom")]
  | Raise _ => False
  end.
Proof. vm_compute. done. Qed.

(** A complete record without PGN text next to a good one: only the good
    one is stored and counted. *)
Example no_pgn_record_is_passed_over :
  let run := @chesscom_games demo_runtime 50 "alice"
               [game_without_pgn; game_a] 0 empty_state in
  run.1 = Ok 1 /\ (fun d : doc => d !! "pgn") <$> docs run.2 =
                    [Some (VStr "1. e4 e5")].
Proof. vm_compute. done. Qed.

(** * Further properties of the handlers *)

(** ** What the imports do to the store *)

Lemma Game_new_inv (a : GameArgs) (g : Game) :
  Game_new a = Ok g ->
  source g = a_source a /\ username g = a_username a /\
  a_pgn a = VStr (pgn g) /\ end_time g = a_end_time a.
Proof.
  intros Hnew. unfold Game_new in Hnew.
  apply bind_Ok_inv in Hnew as (w & _ & Hnew).
  apply bind_Ok_inv in Hnew as (b & _ & Hnew).
  apply bind_Ok_inv in Hnew as (p & Hp & Hnew).
  repeat (apply bind_Ok_inv in Hnew as (? & _ & Hnew)).
  injection Hnew as <-. simpl.
  destruct (a_pgn a); try done. by injection Hp as <-.
Qed.

Lemma source_name_inj (s s' : Source) : source_name s = source_name s' -> s = s'.
Proof. by destruct s, s'. Qed.

Lemma no_key_filter_nil (s : Source) (p : val) (l : list doc) :
  ~ has_key s p l ->
  filter (fun d => doc_matches (dedup_key s p) d = true) l = [].
Proof.
  intros Hno. induction l as [|d l IH]; [done |].
  rewrite filter_cons_False.
  - apply IH. intros Hl. apply Hno. by apply Exists_cons_tl.
  - intros Hd. apply Hno. by apply Exists_cons_hd.
Qed.

Global Instance import_step_preorder s user : PreOrder (import_step s user).
Proof.
  split.
  - intros st. split; [|split; [done | done]].
    exists []. by rewrite app_nil_r.
  - intros s1 s2 s3 ((n12 & H12 & F12) & U12 & O12) ((n23 & H23 & F23) & U23 & O23).
    split; [|split].
    + exists (n12 ++ n23). rewrite H23, H12, <- app_assoc.
      split; [done | by apply Forall_app].
    + auto.
    + intros name Hne. by rewrite O23, O12.
Qed.

Lemma import_step_same_db s user (st st' : state) :
  st_db st' = st_db st -> import_step s user st st'.
Proof.
  intros Hdb. split; [|split].
  - exists []. by rewrite Hdb, app_nil_r.
  - by rewrite Hdb.
  - intros name _. by rewrite Hdb.
Qed.

(** Storing a validated game that the de-dup lookup did not find. *)
Lemma import_step_create `{PyRuntime} (args : GameArgs) (game : Game)
    (st : state) :
  Game_new args = Ok game -> truthy (a_pgn args) = true ->
  ~ has_key (a_source args) (a_pgn args) (docs st) ->
  import_step (a_source args) (a_username args) st (db_create "game" game st).2.
Proof.
  intros Hnew Htruthy Hno.
  pose proof (created_doc_has_key args game
                (VDatetime (utcnow (st_clock st))) Hnew) as Hkey.
  destruct (Game_new_inv _ _ Hnew) as (Hsrc & Huser & Hpgn & _).
  set (d := <["created_at" := VDatetime (utcnow (st_clock st))]> (game_dict game)) in *.
  assert (Hdocs : collection (st_db (db_create "game" game st).2) "game" =
                  collection (st_db st) "game" ++ [d]).
  { simpl. by rewrite collection_create, bool_decide_eq_true_2. }
  split; [|split].
  - exists [d]. split; [exact Hdocs |]. constructor; [|constructor].
    split; [|split].
    + subst d. rewrite lookup_insert_ne by done. by rewrite <- Hsrc.
    + subst d. rewrite lookup_insert_ne by done. by rewrite <- Huser.
    + exists (pgn game). split.
      * intros Hempty. rewrite Hpgn, Hempty in Htruthy. discriminate Htruthy.
      * subst d. rewrite lookup_insert_ne by done. reflexivity.
  - intros Huniq s p. rewrite Hdocs, filter_app, length_app.
    destruct (decide (doc_matches (dedup_key s p) d = true)) as [Hd|Hd].
    + rewrite filter_cons_True, filter_nil by done.
      apply dedup_key_lookup in Hd as [Hs Hp].
      apply dedup_key_lookup in Hkey as [Hs' Hp'].
      rewrite Hs in Hs'. injection Hs' as Hs'. apply source_name_inj in Hs'.
      rewrite Hp in Hp'. injection Hp' as Hp'. subst s p.
      rewrite no_key_filter_nil by done. simpl. lia.
    + rewrite filter_cons_False, filter_nil by done.
      specialize (Huniq s p). simpl. lia.
  - intros name Hne. simpl. rewrite collection_create.
    by rewrite bool_decide_eq_false_2.
Qed.

Section import_invariant.
Context `{PyRuntime}.
Variable net : upstream.

Lemma chesscom_fields_args user g p args :
  chesscom_fields user g p = Ok args ->
  a_source args = chesscom /\ a_username args = user /\ a_pgn args = p.
Proof.
  intros Hargs. unfold chesscom_fields in Hargs.
  repeat (apply bind_Ok_inv in Hargs as (? & _ & Hargs)).
  by injection Hargs as <-.
Qed.

Lemma lichess_fields_args user g p args :
  lichess_fields user g p = Ok args ->
  a_source args = lichess /\ a_username args = user /\ a_pgn args = p.
Proof.
  intros Hargs. unfold lichess_fields in Hargs.
  repeat (apply bind_Ok_inv in Hargs as (? & _ & Hargs)).
  by injection Hargs as <-.
Qed.

Lemma chesscom_games_import_step lim user games total st r st' :
  chesscom_games lim user games total st = (r, st') ->
  import_step chesscom user st st'.
Proof.
  revert total st. induction games as [|g games IH]; intros total st Hrun.
  { by injection Hrun as <- <-. }
  simpl in Hrun. case_bool_decide; [by injection Hrun as <- <- |]. munfold.
  destruct (py_get g "pgn" VNone) as [p|e]; simpl in *;
    [|by injection Hrun as <- <-].
  destruct (truthy p) eqn:Htruthy; simpl in Hrun; [|by eapply IH].
  destruct (chesscom_fields user g p) as [args|e] eqn:Hargs; simpl in *;
    [|by injection Hrun as <- <-].
  apply chesscom_fields_args in Hargs as (Hsrc & Huser & Hpgn).
  rewrite found_dedup in Hrun. case_bool_decide as Hfound; [by eapply IH |].
  destruct (Game_new args) as [game|e] eqn:Hnew; simpl in *;
    [|by injection Hrun as <- <-].
  apply IH in Hrun. etrans; [|exact Hrun].
  rewrite <- Hsrc, <- Huser.
  apply (import_step_create args game st Hnew); by rewrite ?Hsrc, Hpgn.
Qed.

Lemma lichess_lines_import_step user lines total st r st' :
  lichess_lines user lines total st = (r, st') ->
  import_step lichess user st st'.
Proof.
  revert total st. induction lines as [|line lines IH]; intros total st Hrun.
  { by injection Hrun as <- <-. }
  simpl in Hrun. case_bool_decide; [by eapply IH |].
  destruct (json_loads line) as [g|]; [|by eapply IH]. munfold.
  destruct (lichess_pgn g) as [p|e]; simpl in *;
    [|by injection Hrun as <- <-].
  destruct (truthy p) eqn:Htruthy; simpl in Hrun; [|by eapply IH].
  destruct (lichess_fields user g p) as [args|e] eqn:Hargs; simpl in *;
    [|by injection Hrun as <- <-].
  apply lichess_fields_args in Hargs as (Hsrc & Huser & Hpgn).
  rewrite found_dedup in Hrun. case_bool_decide as Hfound; [by eapply IH |].
  destruct (Game_new args) as [game|e] eqn:Hnew; simpl in *;
    [|by injection Hrun as <- <-].
  apply IH in Hrun. etrans; [|exact Hrun].
  rewrite <- Hsrc, <- Huser.
  apply (import_step_create args game st Hnew); by rewrite ?Hsrc, Hpgn.
Qed.

Lemma chesscom_archives_import_step lim user urls total st r st' :
  chesscom_archives net lim user urls total st = (r, st') ->
  import_step chesscom user st st'.
Proof.
  revert total st. induction urls as [|url urls IH]; intros total st Hrun.
  { by injection Hrun as <- <-. }
  destruct url as [| | | |url| | |]; try by injection Hrun as <- <-.
  rewrite chesscom_archives_fetch in Hrun.
  assert (Hlog : import_step chesscom user st
                   (log_request (archive_request url) st))
    by by apply import_step_same_db.
  destruct (net _) as [gr|]; [|by injection Hrun as <- <-].
  case_bool_decide; [etrans; [exact Hlog | by eapply IH] |]. munfold.
  destruct (resp_json gr) as [data|e]; simpl in *;
    [|by injection Hrun as <- <-].
  destruct (py_get data "games" (VList [])) as [games|e]; simpl in *;
    [|by injection Hrun as <- <-].
  destruct (py_iter games) as [items|e]; simpl in *;
    [|by injection Hrun as <- <-].
  destruct (chesscom_games lim user items total _) as [[total'|e] st2] eqn:Hgames;
    apply chesscom_games_import_step in Hgames.
  - case_bool_decide.
    + injection Hrun as <- <-. by etrans.
    + apply IH in Hrun. etrans; [exact Hlog |]. etrans; [exact Hgames | exact Hrun].
  - injection Hrun as <- <-. by etrans.
Qed.

Lemma import_chesscom_import_step req st :
  import_step chesscom (chesscom_username req) st (import_chesscom net req st).2.
Proof.
  unfold import_chesscom. rewrite requests_get_bind.
  set (rq := archives_request _).
  assert (Hlog : import_step chesscom (chesscom_username req) st
                   (log_request rq st)) by by apply import_step_same_db.
  destruct (net rq) as [r0|]; [|done].
  case_bool_decide; [done |]. munfold.
  destruct (resp_json r0) as [body|e]; simpl; [|done].
  destruct (py_get body "archives" (VList [])) as [archives|e]; simpl; [|done].
  destruct (reversed_tail _ archives) as [urls|e]; simpl; [|done].
  destruct (chesscom_archives net _ _ urls 0 _) as [[total|e] st'] eqn:Hloop;
    apply chesscom_archives_import_step in Hloop; simpl; by etrans.
Qed.

Lemma import_lichess_import_step req st :
  import_step lichess (strip (req_username req)) st (import_lichess net req st).2.
Proof.
  unfold import_lichess. set (rq := lichess_request _ _).
  rewrite requests_get_bind.
  assert (Hlog : import_step lichess (strip (req_username req)) st
                   (log_request rq st)) by by apply import_step_same_db.
  destruct (net rq) as [r0|]; [|done].
  case_bool_decide; [done |]. munfold.
  destruct (lichess_lines _ (iter_lines r0) 0 _) as [[total|e] st'] eqn:Hloop;
    apply lichess_lines_import_step in Hloop; simpl; by etrans.
Qed.
End import_invariant.

(** X1: whatever an import returns or raises, the documents that were in
    the ["game"] collection stay in place, and every document it adds
    carries the import's source, the normalised username of the request
    and a non-empty string [pgn]. *)
Theorem imports_append_tagged_documents `{PyRuntime} (net : upstream)
    (req : ImportRequest) (st : state) :
  (exists new,
     docs (import_chesscom net req st).2 = docs st ++ new /\
     Forall (stored_by chesscom (lower (strip (req_username req)))) new) /\
  (exists new,
     docs (import_lichess net req st).2 = docs st ++ new /\
     Forall (stored_by lichess (strip (req_username req))) new).
Proof.
  destruct (import_chesscom_import_step net req st) as (Hc & _ & _).
  destruct (import_lichess_import_step net req st) as (Hl & _ & _).
  split; [exact Hc | exact Hl].
Qed.

(** X2: the imports keep the (source, pgn) key unique: when no two stored
    games share a key before an import, none do after it, whether it
    returns or raises. *)
Theorem imports_keep_keys_unique `{PyRuntime} (net : upstream)
    (req : ImportRequest) (st : state) :
  keys_unique (docs st) ->
  keys_unique (docs (import_chesscom net req st).2) /\
  keys_unique (docs (import_lichess net req st).2).
Proof.
  intros Huniq.
  destruct (import_chesscom_import_step net req st) as (_ & Hc & _).
  destruct (import_lichess_import_step net req st) as (_ & Hl & _).
  split; [exact (Hc Huniq) | exact (Hl Huniq)].
Qed.

Lemma imports_keep_keys_unique_witness :
  keys_unique (docs empty_state) /\
  keys_unique (docs (@import_chesscom demo_runtime two_game_net
                       (import_request "alice" None None) empty_state).2).
Proof.
  assert (Hempty : keys_unique (docs empty_state)).
  { intros s p. change (docs empty_state) with (@nil doc). simpl. lia. }
  split; [exact Hempty |].
  apply (@imports_keep_keys_unique demo_runtime two_game_net
           (import_request "alice" None None) empty_state Hempty).
Defined.

(** X3: no handler touches a collection other than ["game"]; the listing
    and the demo endpoint leave the whole datastore as it is. *)
Theorem handlers_touch_only_games `{PyRuntime} (net : upstream)
    (req : ImportRequest) (src user : option string) (lim : Z)
    (speed : string) (minutes increment : Z) (st : state) :
  others_same st (import_chesscom net req st).2 /\
  others_same st (import_lichess net req st).2 /\
  st_db (list_games src user lim st).2 = st_db st /\
  st_db (start_demo speed minutes increment st).2 = st_db st.
Proof.
  destruct (import_chesscom_import_step net req st) as (_ & _ & Hc).
  destruct (import_lichess_import_step net req st) as (_ & _ & Hl).
  split; [exact Hc |]. split; [exact Hl |].
  split; [reflexivity |]. unfold start_demo. by repeat case_match.
Qed.

(** ** The count of the lichess import *)

Section lichess_count.
Context `{PyRuntime}.
Variable net : upstream.

Lemma lichess_lines_count user lines total st r st' :
  lichess_lines user lines total st = (r, st') ->
  0 <= added st st' <= Z.of_nat (length lines) /\
  forall t, r = Ok t -> t = total + added st st'.
Proof.
  revert total st. induction lines as [|line lines IH]; intros total st Hrun.
  { injection Hrun as <- <-. rewrite added_refl. simpl.
    split; [lia |]. intros t [= <-]. lia. }
  assert (Hskip : forall total1,
    lichess_lines user lines total1 st = (r, st') ->
    0 <= added st st' <= Z.of_nat (length (line :: lines)) /\
    forall t, r = Ok t -> t = total1 + added st st').
  { intros total1 Hrest. apply IH in Hrest as (Hb & Hres).
    rewrite length_cons. split; [lia | done]. }
  assert (Hstop : forall e, (Raise e, st) = (r, st') ->
    0 <= added st st' <= Z.of_nat (length (line :: lines)) /\
    forall t, r = Ok t -> t = total + added st st').
  { intros e [= <- <-]. rewrite added_refl, length_cons. split; [lia | done]. }
  simpl in Hrun. case_bool_decide; [by apply Hskip |].
  destruct (json_loads line) as [g|]; [|by apply Hskip]. munfold.
  destruct (lichess_pgn g) as [p|e]; simpl in Hrun; [|by eapply Hstop].
  destruct (negb (truthy p)); [by apply Hskip |].
  destruct (lichess_fields user g p) as [args|e]; simpl in Hrun;
    [|by eapply Hstop].
  unfold db_found in Hrun.
  destruct (match find_one _ _ _ with Some _ => _ | None => _ end);
    [by apply Hskip |].
  destruct (Game_new args) as [game|e]; simpl in Hrun; [|by eapply Hstop].
  pose proof (proj2 (db_create_added "game" game st) st') as Hadd.
  unfold db_create in Hadd. simpl in Hadd.
  apply IH in Hrun as (Hb & Hres). rewrite Hadd in Hb, Hres.
  rewrite length_cons. split; [lia |]. intros t Ht. apply Hres in Ht. lia.
Qed.
(** The line loop neither reads nor writes the log of requests. *)
Lemma lichess_lines_with_log user lines total l st :
  lichess_lines user lines total (with_log l st) =
    ((lichess_lines user lines total st).1,
     with_log l (lichess_lines user lines total st).2).
Proof.
  revert total st. induction lines as [|line lines IH]; intros total st;
    [done |].
  simpl. case_bool_decide; [apply IH |].
  destruct (json_loads line) as [g|]; [|apply IH]. munfold.
  destruct (lichess_pgn g) as [p|e]; simpl; [|done].
  destruct (negb (truthy p)); [apply IH |].
  destruct (lichess_fields user g p) as [args|e]; simpl; [|done].
  unfold db_found. simpl.
  destruct (match find_one _ _ _ with Some _ => _ | None => _ end);
    [apply IH |].
  destruct (Game_new args) as [game|e]; simpl; [|done].
  apply (IH (total + 1) (db_create "game" game st).2).
Qed.
End lichess_count.

(** X4: the count a lichess import returns is the number of documents it
    stored, and it stores at most one per line of the response.  The limit
    of the request is sent upstream, as the [max] parameter of the one
    request the import makes, and is not enforced on the lines that come
    back: on the same answer, a request for the same username with any
    other limit has the same result and leaves the same store. *)
Theorem import_lichess_counts_lines `{PyRuntime} (net : upstream)
    (req : ImportRequest) (st : state) (r0 : response) :
  net (lichess_request (strip (req_username req)) (int_or (limit req) 50))
    = Some r0 ->
  let rq := lichess_request (strip (req_username req))
              (int_or (limit req) 50) in
  let run := import_lichess net req st in
  (st_log run.2 = st_log st ++ [rq] /\
   ("max", pretty (int_or (limit req) 50)) ∈ rq_params rq) /\
  0 <= added st run.2 <= Z.of_nat (length (iter_lines r0)) /\
  (forall resp, run.1 = Ok resp -> r_inserted resp = added st run.2) /\
  (forall req' : ImportRequest,
     req_username req' = req_username req ->
     net (lichess_request (strip (req_username req'))
            (int_or (limit req') 50)) = Some r0 ->
     let run' := import_lichess net req' st in
     run'.1 = run.1 /\ st_db run'.2 = st_db run.2).
Proof.
  intros Hnet rq run.
  assert (Hrun : forall (q : ImportRequest),
    req_username q = req_username req ->
    net (lichess_request (strip (req_username q)) (int_or (limit q) 50))
      = Some r0 ->
    import_lichess net q st =
      if bool_decide (status_code r0 ≠ 200)
      then (Raise (HTTPException 400
                     ("lichess user not found or API error: " +:+
                      strip (req_username req))),
            log_request (lichess_request (strip (req_username q))
                           (int_or (limit q) 50)) st)
      else
        let loop := lichess_lines (strip (req_username req)) (iter_lines r0)
                      0 st in
        (match loop.1 with
         | Ok total => Ok {| r_source := "lichess";
                             r_username := strip (req_username req);
                             r_inserted := total |}
         | Raise e => Raise e
         end,
         with_log (st_log st ++ [lichess_request (strip (req_username q))
                                   (int_or (limit q) 50)]) loop.2)).
  { intros q Hq Hq0. unfold import_lichess.
    rewrite requests_get_bind, Hq0, Hq. case_bool_decide; [done |].
    munfold.
    change (log_request ?r st) with (with_log (st_log st ++ [r]) st).
    rewrite lichess_lines_with_log. simpl.
    by destruct (lichess_lines _ _ _ _).1. }
  subst run. rewrite (Hrun req eq_refl Hnet). fold rq.
  split; [split |].
  - by case_bool_decide.
  - subst rq. simpl. by constructor.
  - assert (Hcount :
      let loop := lichess_lines (strip (req_username req)) (iter_lines r0)
                    0 st in
      0 <= added st loop.2 <= Z.of_nat (length (iter_lines r0)) /\
      forall t, loop.1 = Ok t -> t = added st loop.2).
    { intros loop. subst loop.
      destruct (lichess_lines _ (iter_lines r0) 0 st) as [r st'] eqn:Hloop.
      apply lichess_lines_count in Hloop as (Hb & Hres). simpl.
      split; [done |]. intros t Ht. specialize (Hres t Ht). lia. }
    simpl in Hcount. destruct Hcount as (Hb & Hres).
    split; [| split].
    + case_bool_decide; simpl; [unfold added; simpl; lia | exact Hb].
    + intros resp. case_bool_decide; simpl; [done |].
      destruct (lichess_lines _ _ _ _).1 as [t|e] eqn:Ht; [|done].
      intros [= <-]. simpl. by apply Hres.
    + intros req' Huser Hnet'. simpl. rewrite (Hrun req' Huser Hnet').
      by case_bool_decide.
Qed.

Lemma import_lichess_counts_lines_witness :
  let net := lichess_net ["{pgn-a}"; ""; "{pgn-b}"; "{pgn-a}"] in
  let req := import_request "alice" None (Some 1) in
  let run := @import_lichess demo_runtime net req empty_state in
  net (lichess_request (@strip demo_runtime (req_username req))
         (int_or (limit req) 50))
    = Some {| status_code := 200; json := None;
              iter_lines := ["{pgn-a}"; ""; "{pgn-b}"; "{pgn-a}"] |} /\
  int_or (limit req) 50 = 1 /\
  added empty_state run.2 = 2 /\
  forall resp, run.1 = Ok resp -> r_inserted resp = 2.
Proof.
  intros net req run.
  assert (Hnet : net (lichess_request (@strip demo_runtime (req_username req))
                        (int_or (limit req) 50))
                 = Some {| status_code := 200; json := None;
                           iter_lines := ["{pgn-a}"; ""; "{pgn-b}"; "{pgn-a}"] |})
    by reflexivity.
  split; [exact Hnet |]. split; [reflexivity |].
  assert (Hadded : added empty_state run.2 = 2) by (vm_compute; reflexivity).
  split; [exact Hadded |].
  intros resp Hresp. rewrite <- Hadded.
  destruct (@import_lichess_counts_lines demo_runtime net req empty_state _
              Hnet) as (_ & _ & Hcount & _).
  by apply Hcount.
Defined.

(** ** What one turn of the import loops does *)

Section turns.
Context `{PyRuntime}.

(** X5: a game whose (source, pgn) key is already stored is passed over
    by both import loops without being counted, and before its fields are
    validated: the loop goes on with the same count and the same store. *)
Theorem duplicate_is_skipped_uncounted (lim : Z) (user line : string)
    (d : list (string * val)) (p : val) (args : GameArgs)
    (rest : list val) (lines : list string) (total : Z) (st : state) :
  has_key (a_source args) p (docs st) -> truthy p = true ->
  (total < lim -> field d "pgn" = p ->
   chesscom_fields user (VDict d) p = Ok args ->
   chesscom_games lim user (VDict d :: rest) total st =
     chesscom_games lim user rest total st) /\
  (line <> "" -> json_loads line = Some (VDict d) ->
   lichess_pgn (VDict d) = Ok p ->
   lichess_fields user (VDict d) p = Ok args ->
   lichess_lines user (line :: lines) total st =
     lichess_lines user lines total st).
Proof.
  intros Hkey Htruthy. split.
  - intros Hlt Hpgn Hargs. simpl. rewrite bool_decide_eq_false_2 by lia.
    munfold. simpl. fold (field d "pgn"). rewrite Hpgn, Htruthy. simpl.
    rewrite Hargs. simpl.
    apply chesscom_fields_args in Hargs as (Hsrc & _ & _). rewrite Hsrc in Hkey.
    by rewrite found_dedup, bool_decide_eq_true_2.
  - intros Hline Hloads Hpgn Hargs. simpl.
    rewrite bool_decide_eq_false_2, Hloads by done. munfold.
    rewrite Hpgn. simpl. rewrite Htruthy. simpl. rewrite Hargs. simpl.
    apply lichess_fields_args in Hargs as (Hsrc & _ & _). rewrite Hsrc in Hkey.
    by rewrite found_dedup, bool_decide_eq_true_2.
Qed.

(** X6: a game that is not stored yet and passes validation is appended
    to the ["game"] collection with the clock's creation time, and the
    loop goes on with the count raised by one. *)
Theorem new_game_is_stored_and_counted (lim : Z) (user line : string)
    (d : list (string * val)) (p : val) (args : GameArgs) (game : Game)
    (rest : list val) (lines : list string) (total : Z) (st : state) :
  ~ has_key (a_source args) p (docs st) -> truthy p = true ->
  Game_new args = Ok game ->
  docs (stored game st) =
    docs st ++ [<["created_at" := VDatetime (utcnow (st_clock st))]>
                  (game_dict game)] /\
  (total < lim -> field d "pgn" = p ->
   chesscom_fields user (VDict d) p = Ok args ->
   chesscom_games lim user (VDict d :: rest) total st =
     chesscom_games lim user rest (total + 1) (stored game st)) /\
  (line <> "" -> json_loads line = Some (VDict d) ->
   lichess_pgn (VDict d) = Ok p ->
   lichess_fields user (VDict d) p = Ok args ->
   lichess_lines user (line :: lines) total st =
     lichess_lines user lines (total + 1) (stored game st)).
Proof.
  intros Hkey Htruthy Hnew. split; [apply docs_create |]. split.
  - intros Hlt Hpgn Hargs. simpl. rewrite bool_decide_eq_false_2 by lia.
    munfold. simpl. fold (field d "pgn"). rewrite Hpgn, Htruthy. simpl.
    rewrite Hargs. simpl.
    apply chesscom_fields_args in Hargs as (Hsrc & _ & _). rewrite Hsrc in Hkey.
    rewrite found_dedup, bool_decide_eq_false_2 by done. by rewrite Hnew.
  - intros Hline Hloads Hpgn Hargs. simpl.
    rewrite bool_decide_eq_false_2, Hloads by done. munfold.
    rewrite Hpgn. simpl. rewrite Htruthy. simpl. rewrite Hargs. simpl.
    apply lichess_fields_args in Hargs as (Hsrc & _ & _). rewrite Hsrc in Hkey.
    rewrite found_dedup, bool_decide_eq_false_2 by done. by rewrite Hnew.
Qed.
End turns.

(** ** What is stored of a source record *)

Lemma validate_opt_str_inv (v : val) (o : option string) :
  validate_opt_str v = Ok o -> opt_val VStr o = v.
Proof. destruct v; simpl; intros [= <-]; done. Qed.

Lemma py_get_dict (d : list (string * val)) (k : string) (v : val) :
  py_get (VDict d) k VNone = Ok v -> v = field d k.
Proof. by intros [= <-]. Qed.

(** [(g.get(a) or {}).get(b)] reads the path [a], [b]. *)
Lemma nested_get (d : list (string * val)) (a b : string) (w v : val) :
  py_get (VDict d) a VNone = Ok w ->
  py_get (py_or w (VDict [])) b VNone = Ok v ->
  v = dict_path (VDict d) [a; b].
Proof.
  intros [= <-]. simpl. unfold py_or.
  destruct (dict_lookup d a) as [[| | | | | |wd|]|]; simpl;
    try (case_match; simpl; by intros [= <-]); try by intros [= <-].
  destruct wd; simpl; by intros [= <-].
Qed.

Section stored_fields.
Context `{PyRuntime}.

(** X7: each field of a game the chess.com import stores, read off the
    source record: the players' usernames where the player object has a
    non-empty one, the time class as it is, the time control through
    [str()], the end time only for an integer (a boolean counts as one),
    the rated flag as validated, and never an opening. *)
Theorem chesscom_stored_fields (user : string) (d : list (string * val))
    (p : val) (args : GameArgs) (game : Game) :
  chesscom_fields user (VDict d) p = Ok args ->
  Game_new args = Ok game ->
  source game = chesscom /\ username game = user /\ VStr (pgn game) = p /\
  opt_val VStr (white game) =
    py_or (dict_path (VDict d) ["white"; "username"]) VNone /\
  opt_val VStr (black game) =
    py_or (dict_path (VDict d) ["black"; "username"]) VNone /\
  opt_val VStr (speed game) = field d "time_class" /\
  time_control game =
    (if is_not_none (field d "time_control")
     then Some (py_str (field d "time_control")) else None) /\
  end_time game =
    match field d "end_time" with
    | VInt n => utcfromtimestamp n
    | VBool b => utcfromtimestamp (if b then 1 else 0)
    | _ => None
    end /\
  validate_opt_bool (field d "rated") = Ok (rated game) /\
  opening game = None.
Proof.
  intros Hargs Hnew. unfold chesscom_fields in Hargs.
  apply bind_Ok_inv in Hargs as (w & Hw & Hargs).
  apply bind_Ok_inv in Hargs as (wu & Hwu & Hargs).
  apply bind_Ok_inv in Hargs as (b & Hb & Hargs).
  apply bind_Ok_inv in Hargs as (bu & Hbu & Hargs).
  apply bind_Ok_inv in Hargs as (res & _ & Hargs).
  apply bind_Ok_inv in Hargs as (tc & Htc & Hargs).
  apply bind_Ok_inv in Hargs as (sp & Hsp & Hargs).
  apply bind_Ok_inv in Hargs as (et & Het & Hargs).
  apply bind_Ok_inv in Hargs as (end_dt & Hend & Hargs).
  apply bind_Ok_inv in Hargs as (rt & Hrt & Hargs).
  injection Hargs as <-.
  apply (nested_get d "white" "username") in Hwu; [|done].
  apply (nested_get d "black" "username") in Hbu; [|done].
  apply py_get_dict in Htc, Hsp, Het, Hrt. subst.
  unfold Game_new in Hnew. simpl in Hnew.
  apply bind_Ok_inv in Hnew as (gw & Hgw & Hnew).
  apply bind_Ok_inv in Hnew as (gb & Hgb & Hnew).
  apply bind_Ok_inv in Hnew as (gp & Hgp & Hnew).
  apply bind_Ok_inv in Hnew as (gr & Hgr & Hnew).
  apply bind_Ok_inv in Hnew as (gs & Hgs & Hnew).
  apply bind_Ok_inv in Hnew as (gtc & Hgtc & Hnew).
  apply bind_Ok_inv in Hnew as (gres & _ & Hnew).
  injection Hnew as <-. simpl.
  apply validate_opt_str_inv in Hgw, Hgb, Hgs, Hgtc.
  split; [done |]. split; [done |].
  split; [by destruct p; try done; injection Hgp as <- |].
  split; [done |]. split; [done |]. split; [done |].
  split.
  { destruct (is_not_none (field d "time_control")); simpl in Hgtc.
    - destruct gtc; simpl in Hgtc; [by injection Hgtc as -> | done].
    - by destruct gtc. }
  split; [|done].
  unfold chesscom_end_time in Hend.
  destruct (field d "end_time") as [| [] |n| | | | |]; simpl in *;
    try (by injection Hend as <-);
    destruct (utcfromtimestamp _); by simplify_eq.
Qed.

Lemma py_or_dict_lookup (sd : list (string * val)) :
  exists sd', py_or (VDict sd) (VDict []) = VDict sd' /\
              forall k, dict_lookup sd' k = dict_lookup sd k.
Proof. destruct sd; eexists; split; reflexivity. Qed.

(** [(g.get("players", {}).get(c, {}) or {}).get("user", {}).get("name")],
    where it does not raise, reads the path. *)
Lemma lichess_nested_name (d : list (string * val)) (c : string)
    (players side user name : val) :
  py_get (VDict d) "players" (VDict []) = Ok players ->
  py_get players c (VDict []) = Ok side ->
  py_get (py_or side (VDict [])) "user" (VDict []) = Ok user ->
  py_get user "name" VNone = Ok name ->
  name = dict_path (VDict d) ["players"; c; "user"; "name"].
Proof.
  intros [= <-]. simpl.
  destruct (dict_lookup d "players") as [[| | | | | |pd|]|]; simpl; try done.
  2: { intros [= <-]. simpl. intros [= <-]. simpl. by intros [= <-]. }
  intros [= <-].
  destruct (dict_lookup pd c) as [side|]; simpl.
  2: { intros [= <-]. simpl. by intros [= <-]. }
  destruct side as [| | | | | |sd|];
    try (unfold py_or; simpl; try case_match; simpl; try done;
         intros [= <-]; simpl; by intros [= <-]).
  destruct (py_or_dict_lookup sd) as (sd' & -> & Hlk). simpl. rewrite Hlk.
  intros [= <-].
  destruct (dict_lookup sd "user") as [[| | | | | |ud|]|]; simpl; try done;
    intros [= <-]; try done;
    match goal with |- context [dict_lookup ?u "name"] =>
      by destruct (dict_lookup u "name") end.
Qed.

(** X8: each field of a game the lichess import stores, read off the
    decoded line: a player is the nested [players.<colour>.user.name],
    else the flat [<colour>] field, else absent; speed, time control and
    result are the [speed], [timeControl] and [status] fields, absent when
    empty; the opening is the name inside an [opening] object, or the
    [opening] field itself; the end time comes from [lastMoveAt] in
    milliseconds and is absent when that cannot be converted. *)
Theorem lichess_stored_fields (user : string) (d : list (string * val))
    (p : val) (args : GameArgs) (game : Game) :
  lichess_fields user (VDict d) p = Ok args ->
  Game_new args = Ok game ->
  source game = lichess /\ username game = user /\ VStr (pgn game) = p /\
  opt_val VStr (white game) =
    py_or (dict_path (VDict d) ["players"; "white"; "user"; "name"])
      (py_or (field d "white") VNone) /\
  opt_val VStr (black game) =
    py_or (dict_path (VDict d) ["players"; "black"; "user"; "name"])
      (py_or (field d "black") VNone) /\
  opt_val VStr (speed game) = py_or (field d "speed") VNone /\
  opt_val VStr (time_control game) = py_or (field d "timeControl") VNone /\
  opt_val VStr (result_ game) = py_or (field d "status") VNone /\
  opt_val VStr (opening game) =
    match field d "opening" with
    | VDict o => field o "name"
    | v => v
    end /\
  end_time game =
    (if truthy (field d "lastMoveAt")
     then n ← py_int (field d "lastMoveAt"); fromtimestamp_millis n
     else None).
Proof.
  intros Hargs Hnew.
  assert (Hplayer : forall c v, lichess_player (VDict d) c = Ok v ->
    v = py_or (dict_path (VDict d) ["players"; c; "user"; "name"])
          (py_or (field d c) VNone)).
  { intros c v Hv. unfold lichess_player in Hv.
    apply bind_Ok_inv in Hv as (players & Hp & Hv).
    apply bind_Ok_inv in Hv as (side & Hs & Hv).
    apply bind_Ok_inv in Hv as (usr & Hu & Hv).
    apply bind_Ok_inv in Hv as (name & Hn & Hv).
    rewrite <- (lichess_nested_name d c players side usr name) by done.
    unfold py_or at 1. destruct (truthy name); [by injection Hv as <- |].
    simpl in Hv. by injection Hv as <-. }
  unfold lichess_fields in Hargs.
  apply bind_Ok_inv in Hargs as (w & Hw & Hargs).
  apply bind_Ok_inv in Hargs as (b & Hb & Hargs).
  apply bind_Ok_inv in Hargs as (rt & _ & Hargs).
  apply bind_Ok_inv in Hargs as (sp & Hsp & Hargs).
  apply bind_Ok_inv in Hargs as (tc & Htc & Hargs).
  apply bind_Ok_inv in Hargs as (res & Hres & Hargs).
  apply bind_Ok_inv in Hargs as (end_dt & Hend & Hargs).
  apply bind_Ok_inv in Hargs as (op & Hop & Hargs).
  injection Hargs as <-.
  apply Hplayer in Hw, Hb. apply py_get_dict in Hsp, Htc, Hres. subst.
  unfold Game_new in Hnew. simpl in Hnew.
  apply bind_Ok_inv in Hnew as (gw & Hgw & Hnew).
  apply bind_Ok_inv in Hnew as (gb & Hgb & Hnew).
  apply bind_Ok_inv in Hnew as (gp & Hgp & Hnew).
  apply bind_Ok_inv in Hnew as (gr & _ & Hnew).
  apply bind_Ok_inv in Hnew as (gs & Hgs & Hnew).
  apply bind_Ok_inv in Hnew as (gtc & Hgtc & Hnew).
  apply bind_Ok_inv in Hnew as (gres & Hgres & Hnew).
  apply bind_Ok_inv in Hnew as (go & Hgo & Hnew).
  injection Hnew as <-. simpl.
  apply validate_opt_str_inv in Hgw, Hgb, Hgs, Hgtc, Hgres, Hgo.
  split; [done |]. split; [done |].
  split; [by destruct p; try done; injection Hgp as <- |].
  split; [done |]. split; [done |]. split; [done |]. split; [done |].
  split; [done |]. split.
  - rewrite Hgo. unfold lichess_opening in Hop. simpl in Hop.
    fold (field d "opening") in Hop.
    destruct (field d "opening") as [| | | | | |o|]; try by injection Hop as <-.
    unfold py_or in Hop. destruct o; simpl in Hop; by injection Hop as <-.
  - unfold lichess_end_time in Hend. simpl in Hend. by injection Hend as <-.
Qed.
End stored_fields.

Lemma duplicate_is_skipped_uncounted_witness :
  has_key (a_source game_a_args) (VStr "1. e4 e5") (docs one_game_state) /\
  truthy (VStr "1. e4 e5") = true /\
  @chesscom_games demo_runtime 50 "alice" [VDict game_a_fields; game_b] 0
    one_game_state =
  @chesscom_games demo_runtime 50 "alice" [game_b] 0 one_game_state.
Proof.
  assert (Hkey : has_key (a_source game_a_args) (VStr "1. e4 e5")
                   (docs one_game_state))
    by (apply (bool_decide_unpack _); vm_compute; exact I).
  assert (Htruthy : truthy (VStr "1. e4 e5") = true) by reflexivity.
  split; [exact Hkey |]. split; [exact Htruthy |].
  apply (proj1 (@duplicate_is_skipped_uncounted demo_runtime 50 "alice" ""
                  game_a_fields (VStr "1. e4 e5") game_a_args [game_b] [] 0
                  one_game_state Hkey Htruthy));
    [lia | reflexivity | reflexivity].
Defined.

Lemma new_game_is_stored_and_counted_witness :
  ~ has_key (a_source game_a_args) (VStr "1. e4 e5") (docs empty_state) /\
  truthy (VStr "1. e4 e5") = true /\
  Game_new game_a_args = Ok game_a_record /\
  @chesscom_games demo_runtime 50 "alice" [VDict game_a_fields] 0 empty_state =
  @chesscom_games demo_runtime 50 "alice" [] 1
    (@stored demo_runtime game_a_record empty_state).
Proof.
  assert (Hkey : ~ has_key (a_source game_a_args) (VStr "1. e4 e5")
                     (docs empty_state)).
  { change (docs empty_state) with (@nil doc). unfold has_key.
    rewrite Exists_nil. tauto. }
  assert (Htruthy : truthy (VStr "1. e4 e5") = true) by reflexivity.
  assert (Hnew : Game_new game_a_args = Ok game_a_record) by reflexivity.
  split; [exact Hkey |]. split; [exact Htruthy |]. split; [exact Hnew |].
  destruct (@new_game_is_stored_and_counted demo_runtime 50 "alice" ""
              game_a_fields (VStr "1. e4 e5") game_a_args game_a_record
              [] [] 0 empty_state Hkey Htruthy Hnew) as (_ & Hchess & _).
  apply Hchess; [lia | reflexivity | reflexivity].
Defined.

Lemma chesscom_stored_fields_witness :
  @chesscom_fields demo_runtime "alice" (VDict game_a_fields)
    (VStr "1. e4 e5") = Ok game_a_args /\
  Game_new game_a_args = Ok game_a_record /\
  opt_val VStr (white game_a_record) =
    py_or (dict_path (VDict game_a_fields) ["white"; "username"]) VNone.
Proof.
  assert (Hargs : @chesscom_fields demo_runtime "alice" (VDict game_a_fields)
                    (VStr "1. e4 e5") = Ok game_a_args) by reflexivity.
  assert (Hnew : Game_new game_a_args = Ok game_a_record) by reflexivity.
  split; [exact Hargs |]. split; [exact Hnew |].
  apply (@chesscom_stored_fields demo_runtime "alice" game_a_fields
           (VStr "1. e4 e5") game_a_args game_a_record Hargs Hnew).
Defined.

Lemma lichess_stored_fields_witness :
  @lichess_fields demo_runtime "alice" (VDict lichess_game_fields)
    (VStr "1. e4 e5 2. Qh5") = Ok lichess_game_args /\
  Game_new lichess_game_args = Ok lichess_game_record /\
  opt_val VStr (white lichess_game_record) =
    py_or (dict_path (VDict lichess_game_fields)
             ["players"; "white"; "user"; "name"])
      (py_or (field lichess_game_fields "white") VNone).
Proof.
  assert (Hargs : @lichess_fields demo_runtime "alice"
                    (VDict lichess_game_fields) (VStr "1. e4 e5 2. Qh5")
                  = Ok lichess_game_args) by reflexivity.
  assert (Hnew : Game_new lichess_game_args = Ok lichess_game_record)
    by reflexivity.
  split; [exact Hargs |]. split; [exact Hnew |].
  apply (@lichess_stored_fields demo_runtime "alice" lichess_game_fields
           (VStr "1. e4 e5 2. Qh5") lichess_game_args lichess_game_record
           Hargs Hnew).
Defined.

(** ** Well-formed records are accepted *)

Lemma py_get_field (d : list (string * val)) (k : string) :
  py_get (VDict d) k VNone = Ok (field d k).
Proof. reflexivity. Qed.

Lemma field_dict_nonempty (d w : list (string * val)) (k k' : string) (v : val) :
  field d k = VDict w -> field w k' = v -> v <> VNone ->
  py_or (field d k) (VDict []) = VDict w.
Proof.
  intros -> Hv Hne. destruct w; [|done]. by rewrite <- Hv in Hne.
Qed.

Lemma field_default (d : list (string * val)) (k : string) (v dflt : val) :
  field d k = v -> v <> VNone -> default dflt (dict_lookup d k) = v.
Proof.
  unfold field. destruct (dict_lookup d k); simpl; [done |].
  by intros <- Hne.
Qed.

Section wellformed.
Context `{PyRuntime}.

(** X9: a chess.com game record of the shape the platform publishes (two
    player objects with a username and a result, a boolean [rated], a time
    class, a time control and an integer end time the calendar accepts)
    passes extraction and validation, and this is the game handed to the
    store. *)
Theorem chesscom_wellformed_game_accepted (user pgn wu wr bu br sp : string)
    (d w b : list (string * val)) (rt : bool) (tc : val) (n : Z)
    (t : datetime) :
  field d "white" = VDict w -> field w "username" = VStr wu -> wu <> "" ->
  field w "result" = VStr wr ->
  field d "black" = VDict b -> field b "username" = VStr bu -> bu <> "" ->
  field b "result" = VStr br ->
  field d "rated" = VBool rt -> field d "time_class" = VStr sp ->
  field d "time_control" = tc -> is_not_none tc = true ->
  field d "end_time" = VInt n -> utcfromtimestamp n = Some t ->
  chesscom_fields user (VDict d) (VStr pgn) ≫= Game_new =
    Ok {| source := chesscom; username := user; white := Some wu;
          black := Some bu; pgn := pgn; rated := Some rt; speed := Some sp;
          time_control := Some (py_str tc);
          result_ := Some ((wr +:+ "/") +:+ br);
          end_time := Some t; opening := None |}.
Proof.
  intros Hw Hwu Hwune Hwr Hb Hbu Hbune Hbr Hrt Hsp Htc Htcn Het Ht.
  assert (Hwor : py_or (field d "white") (VDict []) = VDict w)
    by (by eapply field_dict_nonempty).
  assert (Hbor : py_or (field d "black") (VDict []) = VDict b)
    by (by eapply field_dict_nonempty).
  assert (Hwt : truthy (field d "white") = true).
  { rewrite Hw. destruct w; [discriminate Hwu | done]. }
  assert (Hbt : truthy (field d "black") = true).
  { rewrite Hb. destruct b; [discriminate Hbu | done]. }
  unfold chesscom_fields, chesscom_result.
  rewrite !py_get_field. cbn [mbind result_bind].
  rewrite Hwor, Hbor, !py_get_field, Hwu, Hbu, Hwt, Hbt, Hwr, Hbr.
  cbn [mbind result_bind andb py_add_str].
  rewrite Het, Hrt, Hsp, Htc, Htcn. unfold chesscom_end_time. rewrite Ht.
  cbn [mbind result_bind]. unfold Game_new, py_or. simpl.
  rewrite !bool_decide_eq_false_2 by done. reflexivity.
Qed.

(** X10: a lichess line of the shape the platform streams (both players
    with a [user.name], a boolean [rated], a speed and a status, an
    [opening] object with a name, no [timeControl], and a [lastMoveAt] in
    milliseconds the calendar accepts) passes extraction and validation,
    and this is the game handed to the store. *)
Theorem lichess_wellformed_game_accepted (user pgn wn bn sp status on : string)
    (d pl pw uw pb ub o : list (string * val)) (rt : bool) (ms : Z)
    (t : datetime) :
  field d "players" = VDict pl ->
  field pl "white" = VDict pw -> field pw "user" = VDict uw ->
  field uw "name" = VStr wn -> wn <> "" ->
  field pl "black" = VDict pb -> field pb "user" = VDict ub ->
  field ub "name" = VStr bn -> bn <> "" ->
  field d "rated" = VBool rt ->
  field d "speed" = VStr sp -> sp <> "" ->
  field d "status" = VStr status -> status <> "" ->
  field d "timeControl" = VNone ->
  field d "opening" = VDict o -> field o "name" = VStr on ->
  field d "lastMoveAt" = VInt ms -> ms <> 0 ->
  fromtimestamp_millis ms = Some t ->
  lichess_fields user (VDict d) (VStr pgn) ≫= Game_new =
    Ok {| source := lichess; username := user; white := Some wn;
          black := Some bn; pgn := pgn; rated := Some rt; speed := Some sp;
          time_control := None; result_ := Some status;
          end_time := Some t; opening := Some on |}.
Proof.
  intros Hpl Hpw Huw Hwn Hwne Hpb Hub Hbn Hbne Hrt Hsp Hspne Hst Hstne Htc
    Hop Hon Hlm Hms Ht.
  assert (Hplayer : forall c pc uc name,
    field pl c = VDict pc -> field pc "user" = VDict uc ->
    field uc "name" = VStr name -> name <> "" ->
    lichess_player (VDict d) c = Ok (VStr name)).
  { intros c pc uc name Hpc Huc Hname Hne. unfold lichess_player. simpl.
    rewrite (field_default d "players" (VDict pl)) by done. simpl.
    rewrite (field_default pl c (VDict pc)) by done.
    assert (Hor : py_or (VDict pc) (VDict []) = VDict pc).
    { destruct pc; [done | done]. }
    destruct pc as [|e pc]; [done |]. rewrite Hor. simpl.
    fold (dict_lookup (e :: pc) "user").
    rewrite (field_default (e :: pc) "user" (VDict uc)) by done. simpl.
    fold (field uc "name"). rewrite Hname. simpl.
    by rewrite bool_decide_eq_false_2. }
  unfold lichess_fields.
  rewrite (Hplayer "white" pw uw wn), (Hplayer "black" pb ub bn) by done.
  unfold lichess_rated, lichess_end_time, lichess_opening.
  rewrite !py_get_field. cbn [mbind result_bind].
  rewrite Hrt, Hsp, Hst, Htc, Hop, Hlm. cbn [mbind result_bind is_not_none].
  assert (Hoor : py_or (VDict o) (VDict []) = VDict o).
  { destruct o; [done | done]. }
  rewrite Hoor, py_get_field, Hon. cbn [mbind result_bind].
  unfold Game_new, py_or. simpl.
  rewrite !bool_decide_eq_false_2 by done.
  assert (Hnz : (ms =? 0) = false) by lia. rewrite Hnz. simpl. rewrite Ht.
  by destruct rt.
Qed.
End wellformed.

Lemma chesscom_wellformed_game_accepted_witness :
  @chesscom_fields demo_runtime "alice" (VDict game_a_fields)
    (VStr "1. e4 e5") ≫= Game_new = Ok game_a_record.
Proof.
  apply (@chesscom_wellformed_game_accepted demo_runtime "alice" "1. e4 e5"
           "alice" "win" "bob" "checkmated" "blitz" game_a_fields
           [("username", VStr "alice"); ("result", VStr "win")]
           [("username", VStr "bob"); ("result", VStr "checkmated")]
           true (VStr "300") 1700000000 (Datetime 1700000000000000));
    first [reflexivity | done].
Defined.

Lemma lichess_wellformed_game_accepted_witness :
  @lichess_fields demo_runtime "alice" (VDict lichess_pvp_fields)
    (VStr "1. d4 d5") ≫= Game_new =
  Ok {| source := lichess; username := "alice"; white := Some "alice";
        black := Some "bob"; pgn := "1. d4 d5"; rated := Some false;
        speed := Some "rapid"; time_control := None;
        result_ := Some "resign";
        end_time := Some (Datetime 1700000123000000);
        opening := Some "Queens Pawn Game" |}.
Proof.
  apply (@lichess_wellformed_game_accepted demo_runtime "alice" "1. d4 d5"
           "alice" "bob" "rapid" "resign" "Queens Pawn Game"
           lichess_pvp_fields
           [("white", VDict [("user", VDict [("name", VStr "alice")])]);
            ("black", VDict [("user", VDict [("name", VStr "bob")])])]
           [("user", VDict [("name", VStr "alice")])]
           [("name", VStr "alice")]
           [("user", VDict [("name", VStr "bob")])]
           [("name", VStr "bob")]
           [("eco", VStr "D00"); ("name", VStr "Queens Pawn Game")]
           false 1700000123000 (Datetime 1700000123000000));
    first [reflexivity | done].
Defined.

(** ** What the listing returns of a stored document *)

Section serialization.
Context `{PyRuntime}.

Lemma iso_field_lookup_eq (k : string) (d : doc) :
  iso_field k d !! k =
    match d !! k with
    | Some (VDatetime t) => Some (VStr (isoformat t))
    | o => o
    end.
Proof.
  unfold iso_field. destruct (d !! k) as [[]|] eqn:Hk; try done.
  by rewrite lookup_insert_eq.
Qed.

Lemma serialize_doc_time_field (k : string) (d : doc) :
  k ∈ ["end_time"; "created_at"; "updated_at"] ->
  serialize_doc d !! k =
    match d !! k with
    | Some (VDatetime t) => Some (VStr (isoformat t))
    | o => o
    end.
Proof.
  intros Hk. unfold serialize_doc.
  apply elem_of_cons in Hk as [-> | Hk].
  { rewrite !iso_field_lookup by done. rewrite iso_field_lookup_eq.
    by rewrite lookup_insert_ne. }
  apply elem_of_cons in Hk as [-> | Hk].
  { rewrite iso_field_lookup by done. rewrite iso_field_lookup_eq.
    rewrite iso_field_lookup by done. by rewrite lookup_insert_ne. }
  apply list_elem_of_singleton in Hk as ->.
  rewrite iso_field_lookup_eq. rewrite !iso_field_lookup by done.
  by rewrite lookup_insert_ne.
Qed.

(** X11: every item the listing returns is a stored document in which
    [_id] has been replaced by its [str()], each of [end_time],
    [created_at] and [updated_at] that held a datetime by its ISO text,
    and every other field is as stored; so no item carries a datetime in
    those fields. *)
Theorem listed_items_are_serialized (src user : option string) (L : Z)
    (st : state) :
  exists resp,
    list_games src user L st = (Ok resp, st) /\
    Forall (fun d : doc =>
      exists d0 : doc,
        d0 ∈ docs st /\
        d !! "_id" = Some (VStr (py_str (default VNone (d0 !! "_id")))) /\
        (forall k, k ∈ ["end_time"; "created_at"; "updated_at"] ->
           d !! k = match d0 !! k with
                    | Some (VDatetime t) => Some (VStr (isoformat t))
                    | o => o
                    end /\
           forall t, d !! k <> Some (VDatetime t)) /\
        (forall k, k ∉ ["_id"; "end_time"; "created_at"; "updated_at"] ->
           d !! k = d0 !! k))
      (items resp).
Proof.
  eexists. split; [reflexivity |]. simpl.
  apply Forall_fmap, Forall_forall. intros d0 Hd0. simpl.
  exists d0. split.
  { apply subseteq_take, list_elem_of_filter in Hd0 as [_ Hin]. exact Hin. }
  split.
  { unfold serialize_doc. rewrite !iso_field_lookup by done.
    by rewrite lookup_insert_eq. }
  split.
  - intros k Hk. rewrite serialize_doc_time_field by done.
    split; [done |]. intros t. by destruct (d0 !! k) as [[]|].
  - intros k Hk. unfold serialize_doc.
    rewrite !iso_field_lookup, lookup_insert_ne; [done | ..];
      intros <-; apply Hk; set_solver.
Qed.
End serialization.

(** ** Errors of the first upstream request, and empty accounts *)

Section first_request.
Context `{PyRuntime}.
Variable net : upstream.

(** X12: when the first upstream request is answered with a non-200
    status, the import raises [HTTPException] 400 with a detail that names
    the normalised username; when the request itself fails, the exception
    of [requests] goes through.  In both cases nothing else is requested
    and the store is as before. *)
Theorem import_fails_on_first_request (req : ImportRequest) (st : state) :
  let user_c := lower (strip (req_username req)) in
  let user_l := strip (req_username req) in
  let rq_c := archives_request user_c in
  let rq_l := lichess_request user_l (int_or (limit req) 50) in
  (forall r, net rq_c = Some r -> status_code r <> 200 ->
     import_chesscom net req st =
       (Raise (HTTPException 400
                 ("chess.com user not found or no archives: " +:+ user_c)),
        log_request rq_c st)) /\
  (net rq_c = None ->
     import_chesscom net req st = (Raise RequestException, log_request rq_c st)) /\
  (forall r, net rq_l = Some r -> status_code r <> 200 ->
     import_lichess net req st =
       (Raise (HTTPException 400
                 ("lichess user not found or API error: " +:+ user_l)),
        log_request rq_l st)) /\
  (net rq_l = None ->
     import_lichess net req st = (Raise RequestException, log_request rq_l st)).
Proof.
  intros user_c user_l rq_c rq_l. split; [|split; [|split]].
  - intros r Hnet Hst. unfold import_chesscom, chesscom_username.
    fold user_c. fold rq_c. rewrite requests_get_bind, Hnet.
    by rewrite bool_decide_eq_true_2.
  - intros Hnet. unfold import_chesscom, chesscom_username.
    fold user_c. fold rq_c. by rewrite requests_get_bind, Hnet.
  - intros r Hnet Hst. unfold import_lichess.
    fold user_l. fold rq_l. rewrite requests_get_bind, Hnet.
    by rewrite bool_decide_eq_true_2.
  - intros Hnet. unfold import_lichess.
    fold user_l. fold rq_l. by rewrite requests_get_bind, Hnet.
Qed.

(** X13: an account without games imports nothing and succeeds: a
    chess.com index whose [archives] key is missing or holds an empty
    list, and a lichess stream without lines, both give a count of 0 after
    the one request, with the store as before. *)
Theorem empty_account_imports_nothing (req : ImportRequest) (st : state)
    (r : response) (body : list (string * val)) :
  status_code r = 200 ->
  let user_c := lower (strip (req_username req)) in
  let user_l := strip (req_username req) in
  let rq_c := archives_request user_c in
  let rq_l := lichess_request user_l (int_or (limit req) 50) in
  (net rq_c = Some r -> json r = Some (VDict body) ->
   dict_lookup body "archives" = None \/
   dict_lookup body "archives" = Some (VList []) ->
   import_chesscom net req st =
     (Ok {| r_source := "chesscom"; r_username := user_c; r_inserted := 0 |},
      log_request rq_c st)) /\
  (net rq_l = Some r -> iter_lines r = [] ->
   import_lichess net req st =
     (Ok {| r_source := "lichess"; r_username := user_l; r_inserted := 0 |},
      log_request rq_l st)).
Proof.
  intros Hst user_c user_l rq_c rq_l. split.
  - intros Hnet Hjson Harch. unfold import_chesscom, chesscom_username.
    fold user_c. fold rq_c. rewrite requests_get_bind, Hnet.
    rewrite bool_decide_eq_false_2 by (intros Hne; by apply Hne).
    munfold. unfold resp_json. rewrite Hjson. simpl.
    assert (Hslice : forall m, reverse (slice_from_neg m (@nil val)) = []).
    { intros m. unfold slice_from_neg. by case_match; rewrite drop_nil. }
    destruct Harch as [-> | ->]; simpl; by rewrite Hslice.
  - intros Hnet Hlines. unfold import_lichess.
    fold user_l. fold rq_l. rewrite requests_get_bind, Hnet.
    rewrite bool_decide_eq_false_2 by (intros Hne; by apply Hne).
    munfold. by rewrite Hlines.
Qed.
End first_request.

Lemma empty_account_imports_nothing_witness :
  let r := {| status_code := 200; json := Some (VDict [("archives", VList [])]);
              iter_lines := [] |} in
  status_code r = 200 /\
  @import_lichess demo_runtime (fun _ => Some r)
    (import_request " alice " None None) empty_state =
  (Ok {| r_source := "lichess"; r_username := "alice"; r_inserted := 0 |},
   log_request (lichess_request "alice" 50) empty_state).
Proof.
  intros r.
  assert (Hst : status_code r = 200) by reflexivity.
  split; [exact Hst |].
  apply (proj2 (@empty_account_imports_nothing demo_runtime (fun _ => Some r)
                  (import_request " alice " None None) empty_state r
                  [("archives", VList [])] Hst)); reflexivity.
Defined.

(** ** [start_demo] with an unknown speed *)

(** X14: a speed other than bullet, blitz and rapid (compared as given,
    so also a different capitalisation) is refused with [HTTPException]
    400 "Invalid speed" whatever the time values are, before they are
    looked at and without a session identifier being drawn. *)
Theorem start_demo_rejects_unknown_speed `{PyRuntime} (speed : string)
    (minutes increment : Z) (st : state) :
  speed ∉ demo_speeds ->
  start_demo speed minutes increment st =
    (Raise (HTTPException 400 "Invalid speed"), st).
Proof.
  intros Hspeed. unfold start_demo.
  by rewrite bool_decide_eq_false_2.
Qed.

Lemma start_demo_rejects_unknown_speed_witness :
  ("Blitz" ∉ demo_speeds) /\
  @start_demo demo_runtime "Blitz" (-5) 0 empty_state =
    (Raise (HTTPException 400 "Invalid speed"), empty_state).
Proof.
  assert (Hspeed : "Blitz" ∉ demo_speeds).
  { apply (bool_decide_unpack _). vm_compute. exact I. }
  split; [exact Hspeed |].
  apply (@start_demo_rejects_unknown_speed demo_runtime "Blitz" (-5) 0
           empty_state Hspeed).
Defined.

(** ** How many upstream requests an import makes *)

Lemma slice_from_neg_length {A} (m : Z) (l : list A) :
  1 <= m -> (length (slice_from_neg m l) <= Z.to_nat m)%nat.
Proof.
  intros Hm. unfold slice_from_neg.
  assert (Hneg : (- m <? 0) = true) by lia. rewrite Hneg, length_drop. lia.
Qed.

Lemma reversed_tail_length (m : Z) (v : val) (urls : list val) :
  1 <= m -> reversed_tail m v = Ok urls ->
  (length urls <= Z.to_nat m)%nat.
Proof.
  intros Hm. destruct v; simpl; try done; intros [= <-];
    rewrite length_reverse; by apply slice_from_neg_length.
Qed.

Section budget.
Context `{PyRuntime}.
Variable net : upstream.

Lemma lichess_lines_log_same user lines total :
  steps log_same (lichess_lines user lines total).
Proof.
  revert total. induction lines as [|line lines IH]; intros total; simpl;
    handler_steps.
Qed.

Lemma chesscom_archives_requests lim user urls total st r st' :
  chesscom_archives net lim user urls total st = (r, st') ->
  (length (st_log st') <= length (st_log st) + length urls)%nat.
Proof.
  revert total st. induction urls as [|url urls IH]; intros total st Hrun.
  { injection Hrun as <- <-. lia. }
  destruct url as [| | | |url| | |];
    try (injection Hrun as <- <-; simpl; lia).
  rewrite chesscom_archives_fetch in Hrun.
  set (st1 := log_request (archive_request url) st) in *.
  assert (Hlen : length (st_log st1) = S (length (st_log st))).
  { subst st1. simpl. rewrite length_app. simpl. lia. }
  assert (Hone : forall e, (Raise e, st1) = (r, st') ->
    (length (st_log st') <= length (st_log st) + length (VStr url :: urls))%nat).
  { intros e [= <- <-]. rewrite Hlen. simpl. lia. }
  assert (Hmore : forall total1 s1, st_log s1 = st_log st1 ->
    chesscom_archives net lim user urls total1 s1 = (r, st') ->
    (length (st_log st') <= length (st_log st) + length (VStr url :: urls))%nat).
  { intros total1 s1 Hs1 Hrest. apply IH in Hrest.
    rewrite Hs1, Hlen in Hrest. simpl. lia. }
  destruct (net _) as [gr|]; [|by eapply Hone].
  case_bool_decide; [by eapply Hmore |]. munfold.
  destruct (resp_json gr) as [data|e]; simpl in Hrun; [|by eapply Hone].
  destruct (py_get data "games" (VList [])) as [games|e]; simpl in Hrun;
    [|by eapply Hone].
  destruct (py_iter games) as [items|e]; simpl in Hrun; [|by eapply Hone].
  pose proof (chesscom_games_log_same lim user items total st1) as Hsame.
  unfold log_same in Hsame.
  destruct (chesscom_games lim user items total st1) as [[total'|e] st2];
    change (st_log st1 = st_log st2) in Hsame.
  - case_bool_decide; [|by eapply Hmore].
    injection Hrun as <- <-. rewrite <- Hsame, Hlen. simpl. lia.
  - injection Hrun as <- <-. rewrite <- Hsame, Hlen. simpl. lia.
Qed.

(** X15: a chess.com import for a request that passes the schema sends the
    index request and then at most one request per month of the window, so
    at most 13 in all; a lichess import sends exactly one request,
    whatever comes back. *)
Theorem import_request_budget (req : ImportRequest) (st : state) :
  valid_request req ->
  let M := int_or (months req) 1 in
  let before := length (st_log st) in
  let after := length (st_log (import_chesscom net req st).2) in
  (before + 1 <= after <= before + 1 + Z.to_nat M)%nat /\
  (after <= before + 13)%nat /\
  st_log (import_lichess net req st).2 =
    st_log st ++ [lichess_request (strip (req_username req))
                    (int_or (limit req) 50)].
Proof.
  intros [Hmonths _] M before after.
  assert (HM : 1 <= M <= 12).
  { subst M. destruct (months req) as [m|]; simpl; [|lia].
    specialize (Hmonths m eq_refl). case_match; lia. }
  assert (Hsent : (before + 1 <= after <= before + 1 + Z.to_nat M)%nat).
  { subst before after. unfold import_chesscom. rewrite requests_get_bind.
    set (rq := archives_request _). set (st1 := log_request rq st).
    assert (Hlen : length (st_log st1) = S (length (st_log st))).
    { subst st1. simpl. rewrite length_app. simpl. lia. }
    assert (Hbase : (length (st_log st) + 1 <= length (st_log st1)
                     <= length (st_log st) + 1 + Z.to_nat M)%nat) by lia.
    destruct (net rq) as [r0|]; [|exact Hbase].
    case_bool_decide; [exact Hbase |]. munfold.
    destruct (resp_json r0) as [body|e]; simpl; [|exact Hbase].
    destruct (py_get body "archives" (VList [])) as [archives|e]; simpl;
      [|exact Hbase].
    destruct (reversed_tail _ archives) as [urls|e] eqn:Hurls; simpl;
      [|exact Hbase].
    apply reversed_tail_length in Hurls; [|fold M; lia]. fold M in Hurls.
    pose proof (chesscom_archives_log net (int_or (limit req) 50)
                  (chesscom_username req) urls 0 st1) as Hgrow.
    unfold log_grows in Hgrow. apply prefix_length in Hgrow.
    destruct (chesscom_archives net _ _ urls 0 st1) as [[total|e] st'] eqn:Hloop;
      apply chesscom_archives_requests in Hloop;
      change (length (st_log st1) <= length (st_log st'))%nat in Hgrow;
      simpl; lia. }
  split; [exact Hsent |]. split; [lia |].
  unfold import_lichess. set (rq := lichess_request _ _).
  rewrite requests_get_bind.
  destruct (net rq) as [r0|]; [|done].
  case_bool_decide; [done |]. munfold.
  pose proof (lichess_lines_log_same (strip (req_username req))
                (iter_lines r0) 0 (log_request rq st)) as Hsame.
  unfold log_same in Hsame.
  destruct (lichess_lines _ (iter_lines r0) 0 _) as [[total|e] st'];
    simpl in *; by rewrite <- Hsame.
Qed.
End budget.

Lemma import_request_budget_witness :
  let req := import_request "alice" (Some 12) None in
  valid_request req /\
  (length (st_log (@import_chesscom demo_runtime two_game_net req
                     empty_state).2) <= length (st_log empty_state) + 13)%nat.
Proof.
  intros req.
  assert (Hvalid : valid_request req).
  { split; intros ? [= <-]; lia. }
  split; [exact Hvalid |].
  apply (@import_request_budget demo_runtime two_game_net req empty_state
           Hvalid).
Defined.

(** ** Records of the wrong shape *)

Section malformed.
Context `{PyRuntime}.

(** X16: a record of the wrong shape is not passed over but ends the
    import with an unhandled [AttributeError]: an entry of a chess.com
    games list that is not an object, and a lichess game whose [players]
    field is present but not an object (the [{}] default only covers a
    missing key).  The games after it are not processed and the store
    stays as it was at that point. *)
Theorem malformed_record_aborts_import (lim : Z) (user line : string)
    (g v p : val) (d : list (string * val)) (rest : list val)
    (lines : list string) (total : Z) (st : state) :
  (forall d', g <> VDict d') -> (forall d', v <> VDict d') ->
  (total < lim ->
   chesscom_games lim user (g :: rest) total st = (Raise AttributeError, st)) /\
  (line <> "" -> json_loads line = Some (VDict d) ->
   lichess_pgn (VDict d) = Ok p -> truthy p = true ->
   dict_lookup d "players" = Some v ->
   lichess_lines user (line :: lines) total st = (Raise AttributeError, st)).
Proof.
  intros Hg Hv. split.
  - intros Hlt. simpl. rewrite bool_decide_eq_false_2 by lia. munfold.
    destruct g; try done. by destruct (Hg d0).
  - intros Hline Hloads Hpgn Htruthy Hplayers. simpl.
    rewrite bool_decide_eq_false_2, Hloads by done. munfold.
    rewrite Hpgn. simpl. rewrite Htruthy. simpl.
    unfold lichess_fields, lichess_player. simpl. rewrite Hplayers. simpl.
    destruct v; try done. by destruct (Hv d0).
Qed.
End malformed.

Lemma malformed_record_aborts_import_witness :
  (forall d', VNone <> VDict d') /\
  @chesscom_games demo_runtime 50 "alice" [VNone; game_a] 0 empty_state =
    (Raise AttributeError, empty_state).
Proof.
  assert (Hnone : forall d', VNone <> VDict d') by done.
  split; [exact Hnone |].
  apply (proj1 (@malformed_record_aborts_import demo_runtime 50 "alice" ""
                  VNone VNone VNone [] [game_a] [] 0 empty_state Hnone Hnone)).
  lia.
Defined.

(** ** The [/test] report *)

(** X18: the [collections] field of the report is a list of at most ten
    names: the first ten the datastore lists, and none when there is no
    handle or when reading the handle fails. *)
Theorem test_database_lists_ten_collections (db : option db_handle)
    (env : environ) :
  test_database db env !! "collections" =
    Some (VList (VStr <$> listed_collections db)) /\
  (length (listed_collections db) <= 10)%nat /\
  (forall h names, db = Some h -> list_collection_names h = inr names ->
     (forall msg, db_name h <> AttributeRaises msg) ->
     listed_collections db `prefix_of` names).
Proof.
  split; [|split].
  - unfold test_database, listed_collections.
    destruct db as [h|]; [|done].
    destruct (db_name h); [| |done];
      destruct (list_collection_names h); by simplify_map_eq.
  - unfold listed_collections. destruct db as [h|]; [|simpl; lia].
    destruct (db_name h); destruct (list_collection_names h); simpl; try lia;
      rewrite length_take; lia.
  - intros h names -> Hnames Hname. unfold listed_collections.
    rewrite Hnames. destruct (db_name h); [| |by destruct (Hname msg)];
      apply prefix_take.
Qed.

(** X19: the report always has the same six keys, and its [database_url]
    and [database_name] fields tell only whether the two environment
    variables are set to a non-empty value: what the handler wrote there
    from the handle before is overwritten.  [connection_status] is
    "Connected" exactly when there is a handle whose [name] can be read. *)
Theorem test_database_reports_environment (db : option db_handle)
    (env : environ) :
  dom (test_database db env) = report_keys /\
  test_database db env !! "database_url" = Some (set_status (DATABASE_URL env)) /\
  test_database db env !! "database_name" = Some (set_status (DATABASE_NAME env)) /\
  test_database db env !! "connection_status" =
    Some (VStr (match db with
                | Some h =>
                    match db_name h with
                    | AttributeRaises _ => "Not Connected"
                    | _ => "Connected"
                    end
                | None => "Not Connected"
                end)).
Proof.
  split; [|split; [|split]].
  - unfold test_database, report_keys.
    destruct db as [h|];
      [destruct (db_name h); try destruct (list_collection_names h) |];
      rewrite ?dom_insert_L, dom_list_to_map_L; simpl; set_solver.
  - unfold test_database. by simplify_map_eq.
  - unfold test_database. by simplify_map_eq.
  - unfold test_database. destruct db as [h|]; [|by simplify_map_eq].
    destruct (db_name h); try destruct (list_collection_names h);
      by simplify_map_eq.
Qed.

(** ** The month window on a short index *)

(** [reversed(l[-m:])] is the first [m] entries of the reversed list, and
    all of it when the list has no more than [m]. *)
Lemma slice_from_neg_take {A} (m : Z) (l : list A) :
  1 <= m ->
  reverse (slice_from_neg m l) = take (Z.to_nat m) (reverse l).
Proof.
  intros Hm. unfold slice_from_neg.
  assert (Hneg : (- m <? 0) = true) by lia. rewrite Hneg, reverse_drop.
  destruct (decide (Z.of_nat (length l) <= m)) as [Hshort|Hlong].
  - rewrite !take_ge by (rewrite length_reverse; lia). done.
  - f_equal. lia.
Qed.

(** X20: for any month window [M >= 1] the import walks the first [M]
    entries of the newest-first index, which is the whole index when it
    has no more than [M] entries: the archives fetched are a prefix of
    that list, in that order, and all of it when the import returns a
    count below the limit. *)
Theorem import_chesscom_window_any_months `{PyRuntime} (net : upstream)
    (req : ImportRequest) (st : state) (urls : list string)
    (body : list (string * val)) (r0 : response) :
  net (archives_request (chesscom_username req)) = Some r0 ->
  status_code r0 = 200 -> json r0 = Some (VDict body) ->
  dict_lookup body "archives" = Some (VList (VStr <$> urls)) ->
  1 <= int_or (months req) 1 ->
  let M := int_or (months req) 1 in
  let window := take (Z.to_nat M) (reverse urls) in
  let run := import_chesscom net req st in
  (Z.of_nat (length urls) <= M -> window = reverse urls) /\
  exists fetched,
    fetched `prefix_of` window /\
    st_log run.2 = st_log st ++ archives_request (chesscom_username req) ::
                     (archive_request <$> fetched) /\
    (forall resp, run.1 = Ok resp ->
       r_inserted resp < int_or (limit req) 50 -> fetched = window).
Proof.
  intros Hnet Hstatus Hjson Harch HM M window run.
  split. { intros Hshort. subst window. apply take_ge. rewrite length_reverse. lia. }
  subst run. unfold import_chesscom. rewrite requests_get_bind, Hnet.
  rewrite bool_decide_eq_false_2 by (intros Hne; by apply Hne).
  munfold. unfold resp_json. rewrite Hjson. simpl. rewrite Harch. simpl.
  rewrite slice_from_neg_take by done.
  rewrite <- fmap_reverse, <- fmap_take. fold M. fold window.
  destruct (chesscom_archives net _ _ (VStr <$> window) 0 _)
    as [[total|e] st'] eqn:Hloop;
    apply chesscom_archives_fetched in Hloop as (fetched & Hpre & Hlog & Hall);
    exists fetched; (split; [exact Hpre |]); simpl; rewrite Hlog; simpl;
    (split; [by rewrite <- app_assoc |]).
  - intros resp [= <-]. simpl. by apply Hall.
  - done.
Qed.

Lemma import_chesscom_window_any_months_witness :
  let net := chesscom_net "alice" [(jan_url, games_body [game_b]);
                                    (feb_url, games_body [game_a])] in
  let req := import_request "alice" (Some 12) None in
  let body := [("archives", VList [VStr jan_url; VStr feb_url])] in
  let r0 := {| status_code := 200; json := Some (VDict body);
               iter_lines := [] |} in
  net (archives_request (@chesscom_username demo_runtime req)) = Some r0 /\
  1 <= int_or (months req) 1 /\
  take (Z.to_nat (int_or (months req) 1)) (reverse [jan_url; feb_url]) =
    reverse [jan_url; feb_url].
Proof.
  intros net req body r0.
  assert (H1 : net (archives_request (@chesscom_username demo_runtime req))
               = Some r0) by reflexivity.
  assert (H5 : 1 <= int_or (months req) 1) by (simpl; lia).
  split; [exact H1 |]. split; [exact H5 |].
  apply (proj1 (@import_chesscom_window_any_months demo_runtime net req
                  empty_state [jan_url; feb_url] body r0 H1 eq_refl eq_refl
                  eq_refl H5)).
  simpl. lia.
Defined.
